(** * PeerWeb: the resource-resolution core

    A shallow embedding of the Service Worker ([peerweb-sw.js], the
    "Resolver") and of the lookup and early-availability policy of the page
    ([peerweb.js], the "Site Manager"), with the properties that the
    specification states about them.

    Modelling conventions.
    - A JavaScript string is a Rocq [string]: a sequence of 8-bit code
      units.  This is exact for HTTP header values (the Fetch API hands
      them out as byte strings) and for URL path names (percent-encoded
      ASCII); file names are assumed to be ASCII, so that
      [String.prototype.toLowerCase] is the ASCII case mapping.
    - [null] and [undefined] are [None] of an [option].
    - An integer-valued JavaScript number is a [Z]; the numbers that are
      genuinely fractional (download progress and its thresholds) are
      binary64 floats, as in the engine.
    - A [Uint8Array] is a [list Z] of values below 256.
    - Module-level mutable state of the worker is one record, threaded
      through the handlers; what a handler does to the outside world
      (resolving a promise, posting a message, arming a timer) is returned
      as a list of effects. *)

From Stdlib Require Import ZArith Lia Bool List Ascii String DecimalString Floats.
From Stdlib Require DecimalPos.
From stdpp Require Import gmap strings list sorting.

Open Scope string_scope.
Open Scope Z_scope.

(** ** JavaScript strings *)

Module JsString.

(** [s.startsWith(p)] *)
Fixpoint startsWith (s p : string) {struct p} : bool :=
  match p, s with
  | EmptyString, _ => true
  | String _ _, EmptyString => false
  | String b p', String a s' => Ascii.eqb a b && startsWith s' p'
  end.

(** [s.includes(p)] *)
Fixpoint includes (s p : string) : bool :=
  startsWith s p ||
  match s with
  | EmptyString => false
  | String _ s' => includes s' p
  end.

(** [s.substring(n)], for [n] within the string or beyond it *)
Fixpoint substring_from (n : nat) (s : string) : string :=
  match n, s with
  | O, _ => s
  | S _, EmptyString => EmptyString
  | S n', String _ s' => substring_from n' s'
  end.

(** [s.endsWith(p)]: [p] is what remains of [s] after its first
    [length s - length p] code units *)
Definition endsWith (s p : string) : bool :=
  (String.length p <=? String.length s)%nat &&
  String.eqb (substring_from (String.length s - String.length p) s) p.

(** [s.split(sep)] for a separator of one code unit; never empty *)
Fixpoint split (sep : ascii) (s : string) : list string :=
  match s with
  | EmptyString => [EmptyString]
  | String c s' =>
      if Ascii.eqb c sep then EmptyString :: split sep s'
      else match split sep s' with
           | h :: t => String c h :: t
           | [] => [String c EmptyString]
           end
  end.

(** [parts.join(sep)] *)
Fixpoint join (sep : string) (parts : list string) : string :=
  match parts with
  | [] => EmptyString
  | [p] => p
  | p :: rest => p +:+ sep +:+ join sep rest
  end.

(** [arr.pop()] on a fresh array: its last element, [undefined] if empty *)
Definition pop (parts : list string) : option string := last parts.

Definition lowerChar (c : ascii) : ascii :=
  let n := nat_of_ascii c in
  if ((65 <=? n) && (n <=? 90))%nat then ascii_of_nat (n + 32) else c.

(** [s.toLowerCase()] on ASCII *)
Fixpoint toLowerCase (s : string) : string :=
  match s with
  | EmptyString => EmptyString
  | String c s' => String (lowerChar c) (toLowerCase s')
  end.

Definition upperChar (c : ascii) : ascii :=
  let n := nat_of_ascii c in
  if ((97 <=? n) && (n <=? 122))%nat then ascii_of_nat (n - 32) else c.

(** [s.toUpperCase()] on ASCII *)
Fixpoint toUpperCase (s : string) : string :=
  match s with
  | EmptyString => EmptyString
  | String c s' => String (upperChar c) (toUpperCase s')
  end.

(** White space and line terminators among the code units below 256 *)
Definition isStrWhiteSpaceChar (c : ascii) : bool :=
  let n := nat_of_ascii c in
  ((n =? 9) || (n =? 10) || (n =? 11) || (n =? 12) || (n =? 13) ||
   (n =? 32) || (n =? 160))%nat.

Fixpoint trimStart (s : string) : string :=
  match s with
  | EmptyString => EmptyString
  | String c s' => if isStrWhiteSpaceChar c then trimStart s' else s
  end.

Fixpoint reverse (s acc : string) : string :=
  match s with
  | EmptyString => acc
  | String c s' => reverse s' (String c acc)
  end.

(** [s.trim()] *)
Definition trim (s : string) : string :=
  reverse (trimStart (reverse (trimStart s) "")) "".

(** Truthiness of a string value that may be [null]/[undefined] *)
Definition truthy (v : option string) : bool :=
  match v with
  | Some (String _ _) => true
  | _ => false
  end.

(** [ToString] of a value that is a string or [undefined] *)
Definition ToString (v : option string) : string :=
  match v with
  | Some s => s
  | None => "undefined"
  end.

End JsString.

(** ** JavaScript numbers that are integers *)

Module JsNumber.

(** [n.toString()] and template interpolation of an integer *)
Definition toString (n : Z) : string := NilEmpty.string_of_int (Z.to_int n).

(** The value of a code unit as a digit of some radix up to 36 *)
Definition digitValue (c : ascii) : option Z :=
  let n := nat_of_ascii c in
  if ((48 <=? n) && (n <=? 57))%nat then Some (Z.of_nat n - 48)
  else if ((97 <=? n) && (n <=? 122))%nat then Some (Z.of_nat n - 87)
  else if ((65 <=? n) && (n <=? 90))%nat then Some (Z.of_nat n - 55)
  else None.

(** The longest prefix of radix-[R] digits, as a number; [acc] is the
    value of the digits read so far, [None] while there are none *)
Fixpoint parseDigits (R : Z) (s : string) (acc : option Z) : option Z :=
  match s with
  | EmptyString => acc
  | String c s' =>
      match digitValue c with
      | Some d =>
          if d <? R
          then parseDigits R s' (Some (match acc with
                                       | Some a => a * R + d
                                       | None => d
                                       end))
          else acc
      | None => acc
      end
  end.

(** [parseInt(v)] with no radix argument; [None] is [NaN].  The result is
    the exact integer: the engine rounds it to binary64 beyond 2^53,
    which no comparison against an exactly representable bound sees,
    rounding being monotone. *)
Definition parseInt (v : option string) : option Z :=
  let S0 := JsString.trimStart (JsString.ToString v) in
  let '(sign, S1) :=
    match S0 with
    | String "-" r => (-1, r)
    | String "+" r => (1, r)
    | _ => (1, S0)
    end in
  let '(R, S2) :=
    match S1 with
    | String "0" (String "x" r) => (16, r)
    | String "0" (String "X" r) => (16, r)
    | _ => (10, S1)
    end in
  match parseDigits R S2 None with
  | Some n => Some (sign * n)
  | None => None
  end.

(** [x || d] for a number [x]: [NaN] and zero are falsy *)
Definition orElse (x : option Z) (d : Z) : Z :=
  match x with
  | Some n => if n =? 0 then d else n
  | None => d
  end.

End JsNumber.

(** ** Typed arrays *)

Module Uint8Array.

(** [new Uint8Array(array)]: every element is taken modulo 256 *)
Definition from (data : list Z) : list Z := map (fun x => x mod 256) data.

(** [u.slice(start, end)], with the relative-index rules of the language *)
Definition slice (u : list Z) (start end_ : Z) : list Z :=
  let len := Z.of_nat (length u) in
  let k := if start <? 0 then Z.max (len + start) 0 else Z.min start len in
  let final := if end_ <? 0 then Z.max (len + end_) 0 else Z.min end_ len in
  let count := Z.max (final - k) 0 in
  take (Z.to_nat count) (drop (Z.to_nat k) u).

End Uint8Array.

(** ** HTTP responses built by the worker *)

(** A body is a byte array, a text, or the navigational fallback document
    of [createNavigationFallback]: a fixed HTML page (a spinner, a "Go to
    Home" button and a script that goes to the site's root after 3000 ms)
    around the one interpolated value, the requested path. *)
Inductive Body :=
| BodyBytes (bytes : list Z)
| BodyText (text : string)
| BodyFallbackHtml (filePath : string).

Record Response := mkResponse {
  status : Z;
  statusText : string;
  headers : list (string * string);
  body : Body
}.

(** [response.headers.get(name)] on the headers the worker wrote *)
Fixpoint getHeader (name : string) (hs : list (string * string)) : option string :=
  match hs with
  | [] => None
  | (k, v) :: rest => if String.eqb k name then Some v else getHeader name rest
  end.

Record Range := mkRange { start : Z; end_ : Z }.

(** ** peerweb-sw.js, the Resolver *)

Module SW.

(** [isMediaFile(contentType)] *)
Definition isMediaFile (contentType : option string) : bool :=
  match contentType with
  | None => false
  | Some EmptyString => false
  | Some ct =>
      JsString.startsWith ct "video/" || JsString.startsWith ct "audio/" ||
      String.eqb ct "image/gif"
  end.

(** [createMediaResponse(uint8Array, contentType, range)] *)
Definition createMediaResponse (uint8Array : list Z) (contentType : option string)
    (range : option Range) : Response :=
  let full :=
    {| status := 200;
       statusText := "OK";
       headers :=
         [("Content-Type",
            if JsString.truthy contentType then JsString.ToString contentType
            else "application/octet-stream");
          ("Content-Length", JsNumber.toString (Z.of_nat (length uint8Array)));
          ("Accept-Ranges", "bytes");
          ("Cache-Control", "public, max-age=31536000");
          ("Access-Control-Allow-Origin", "*")];
       body := BodyBytes uint8Array |} in
  match range with
  | None => full
  | Some r =>
      if negb (isMediaFile contentType) then full
      else
        let chunkSize := end_ r - start r + 1 in
        let chunk := Uint8Array.slice uint8Array (start r) (end_ r + 1) in
        {| status := 206;
           statusText := "Partial Content";
           headers :=
             [("Content-Type", JsString.ToString contentType);
              ("Content-Length", JsNumber.toString chunkSize);
              ("Content-Range",
                "bytes " +:+ JsNumber.toString (start r) +:+ "-" +:+
                JsNumber.toString (end_ r) +:+ "/" +:+
                JsNumber.toString (Z.of_nat (length uint8Array)));
              ("Accept-Ranges", "bytes");
              ("Cache-Control", "public, max-age=31536000");
              ("Access-Control-Allow-Origin", "*")];
           body := BodyBytes chunk |}
  end.

(** [parseRangeHeader(rangeHeader, fileSize)] *)
Definition parseRangeHeader (rangeHeader : option string) (fileSize : Z) : option Range :=
  if negb (JsString.truthy rangeHeader) ||
     negb (JsString.startsWith (JsString.ToString rangeHeader) "bytes=")
  then None
  else
    let range := JsString.substring_from 6 (JsString.ToString rangeHeader) in
    let parts := JsString.split "-" range in
    let start0 := JsNumber.orElse (JsNumber.parseInt (parts !! 0%nat)) 0 in
    let end0 := JsNumber.orElse (JsNumber.parseInt (parts !! 1%nat)) (fileSize - 1) in
    let start1 := Z.max 0 (Z.min start0 (fileSize - 1)) in
    let end1 := Z.max start1 (Z.min end0 (fileSize - 1)) in
    Some {| start := start1; end_ := end1 |}.

(** *** State of the worker *)

(** An entry of [pendingRequests].  [resolve] names the promise that the
    stored callback settles. *)
Record PendingRequest := mkPending {
  resolve : nat;
  timestamp : Z;
  range : option Range
}.

(** An entry of [mediaCache] *)
Record MediaEntry := mkMedia {
  media_data : list Z;
  media_contentType : option string;
  media_length : Z
}.

Record State := mkState {
  currentSiteHash : option string;
  currentSiteFiles : gset string;
  pendingRequests : gmap string PendingRequest;
  mediaCache : gmap string MediaEntry
}.

Definition initialState : State :=
  {| currentSiteHash := None; currentSiteFiles := ∅;
     pendingRequests := ∅; mediaCache := ∅ |}.

Definition setPending (st : State) (p : gmap string PendingRequest) : State :=
  {| currentSiteHash := currentSiteHash st; currentSiteFiles := currentSiteFiles st;
     pendingRequests := p; mediaCache := mediaCache st |}.

Definition setMedia (st : State) (m : gmap string MediaEntry) : State :=
  {| currentSiteHash := currentSiteHash st; currentSiteFiles := currentSiteFiles st;
     pendingRequests := pendingRequests st; mediaCache := m |}.

(** *** Messages, in and out *)

Inductive Message :=
| SKIP_WAITING
| SITE_LOADING (hash : option string)
| SITE_READY (hash : option string) (fileCount : Z) (fileList : option (list string))
| SITE_UNLOADED
| RESOURCE_RESPONSE (requestId url : string) (data : option (list Z))
    (contentType : option string)
| MEDIA_CHUNK_RESPONSE (requestId : string) (chunk : option (list Z))
    (start end_ total : Z)
| OtherMessage.

(** The [RESOURCE_REQUEST] message posted to a window client *)
Record ResourceRequest := mkResourceRequest {
  msg_url : string;
  msg_filePath : string;
  msg_requestId : string;
  msg_range : option Range
}.

(** What the closure of the round-trip timer holds *)
Record TimeoutCallback := mkTimeoutCallback {
  timer_requestId : string;
  timer_resolve : nat;
  timer_filePath : string
}.

Inductive Effect :=
| Resolve (promise : nat) (response : Response)
| PostMessage (clientUrl : string) (message : ResourceRequest)
| SetTimeout (callback : TimeoutCallback) (ms : Z)
| SkipWaiting.

(** *** Fallbacks *)

(** [createNavigationFallback(filePath)] *)
Definition createNavigationFallback (filePath : string) : Response :=
  if isMediaFile (Some filePath) then
    {| status := 503;
       statusText := "Service Unavailable";
       headers := [("Content-Type", "text/plain"); ("Retry-After", "5")];
       body := BodyText "Media file not available" |}
  else
    {| status := 200;
       statusText := "OK";
       headers := [("Content-Type", "text/html"); ("Cache-Control", "no-cache")];
       body := BodyFallbackHtml filePath |}.

(** *** Answers from the page *)

(** [handleResourceResponse(data)] *)
Definition handleResourceResponse (st : State) (requestId url : string)
    (fileData : option (list Z)) (contentType : option string)
    : State * list Effect :=
  match pendingRequests st !! requestId with
  | Some pendingRequest =>
      let st1 := setPending st (delete requestId (pendingRequests st)) in
      let notFound :=
        {| status := 404;
           statusText := "Not Found";
           headers := [("Content-Type", "text/plain")];
           body := BodyText "File not found in torrent" |} in
      match fileData with
      | Some fileData =>
          if 0 <? Z.of_nat (length fileData) then
            let uint8Array := Uint8Array.from fileData in
            let st2 :=
              if isMediaFile contentType &&
                 (1024 * 100 <? Z.of_nat (length uint8Array))
              then setMedia st1
                     (<[url := {| media_data := uint8Array;
                                  media_contentType := contentType;
                                  media_length := Z.of_nat (length uint8Array) |}]>
                        (mediaCache st1))
              else st1 in
            let response :=
              createMediaResponse uint8Array contentType (range pendingRequest) in
            (st2, [Resolve (resolve pendingRequest) response])
          else (st1, [Resolve (resolve pendingRequest) notFound])
      | None => (st1, [Resolve (resolve pendingRequest) notFound])
      end
  | None => (st, [])
  end.

(** [handleMediaChunkResponse(data)]; a pending entry has no [contentType]
    field, so the content type of the chunk is the default one *)
Definition handleMediaChunkResponse (st : State) (requestId : string)
    (chunk : option (list Z)) (start end_ total : Z) : State * list Effect :=
  match pendingRequests st !! requestId with
  | Some pendingRequest =>
      let st1 := setPending st (delete requestId (pendingRequests st)) in
      let notAvailable :=
        {| status := 416; statusText := ""; headers := [];
           body := BodyText "Chunk not available" |} in
      match chunk with
      | Some chunk =>
          if 0 <? Z.of_nat (length chunk) then
            let uint8Array := Uint8Array.from chunk in
            let response :=
              {| status := 206;
                 statusText := "Partial Content";
                 headers :=
                   [("Content-Type", "application/octet-stream");
                    ("Content-Length", JsNumber.toString (Z.of_nat (length uint8Array)));
                    ("Content-Range",
                      "bytes " +:+ JsNumber.toString start +:+ "-" +:+
                      JsNumber.toString end_ +:+ "/" +:+ JsNumber.toString total);
                    ("Accept-Ranges", "bytes");
                    ("Cache-Control", "public, max-age=31536000")];
                 body := BodyBytes uint8Array |} in
            (st1, [Resolve (resolve pendingRequest) response])
          else (st1, [Resolve (resolve pendingRequest) notAvailable])
      | None => (st1, [Resolve (resolve pendingRequest) notAvailable])
      end
  | None => (st, [])
  end.

(** The ['message'] listener *)
Definition onMessage (st : State) (m : Message) : State * list Effect :=
  match m with
  | SKIP_WAITING => (st, [SkipWaiting])
  | SITE_LOADING hash =>
      ({| currentSiteHash := hash; currentSiteFiles := ∅;
          pendingRequests := pendingRequests st; mediaCache := ∅ |}, [])
  | SITE_READY hash _ fileList =>
      ({| currentSiteHash := hash;
          currentSiteFiles :=
            match fileList with
            | Some l => list_to_set l
            | None => currentSiteFiles st
            end;
          pendingRequests := pendingRequests st; mediaCache := mediaCache st |}, [])
  | SITE_UNLOADED =>
      ({| currentSiteHash := None; currentSiteFiles := ∅;
          pendingRequests := ∅; mediaCache := ∅ |}, [])
  | RESOURCE_RESPONSE requestId url data contentType =>
      handleResourceResponse st requestId url data contentType
  | MEDIA_CHUNK_RESPONSE requestId chunk start end_ total =>
      handleMediaChunkResponse st requestId chunk start end_ total
  | OtherMessage => (st, [])
  end.

(** *** Requests *)

(** A fetch request as the handler reads it: [request.url], the [pathname],
    [search] and [hash] of [new URL(request.url)], and
    [request.headers.get('Range')] *)
Record Request := mkRequest {
  request_url : string;
  url_pathname : string;
  url_search : string;
  url_hash : string;
  header_Range : option string
}.

(** [filePath.split('?')[0].split('#')[0]] *)
Definition withoutQueryAndFragment (filePath : string) : string :=
  default "" (JsString.split "#" (default "" (JsString.split "?" filePath !! 0%nat))
              !! 0%nat).

(** [normalizeFilePath(filePath, url)], reading [currentSiteFiles] *)
Definition normalizeFilePath (files : gset string) (filePath : string)
    (search hash : string) : string :=
  if String.eqb filePath "" then "index.html"
  else if JsString.endsWith filePath "/" then filePath +:+ "index.html"
  else if negb (JsString.includes filePath ".") then
    let dirPath := filePath +:+ "/index.html" in
    if bool_decide (dirPath ∈ files) then dirPath
    else
      let htmlPath := filePath +:+ ".html" in
      if bool_decide (htmlPath ∈ files) then htmlPath
      else
        let indexPath := filePath +:+ "/index.html" in
        indexPath
  else if JsString.truthy (Some search) || JsString.truthy (Some hash) then
    let cleanPath := withoutQueryAndFragment filePath in
    cleanPath
  else filePath.

(** What the request handler hands back: a response at once, or the promise
    of [requestResourceFromMainThread(request.url, filePath, range)] *)
Inductive Handling :=
| Respond (response : Response)
| RequestResource (requestUrl filePath : string) (range : option Range).

Definition invalidUrl : Response :=
  {| status := 400; statusText := ""; headers := [];
     body := BodyText "Invalid PeerWeb URL" |}.

Definition siteNotLoaded : Response :=
  {| status := 503; statusText := "";
     headers := [("Content-Type", "text/plain")];
     body := BodyText
       "Site not loaded - timeout. The site may be too large or downloading slowly." |}.

Definition wrongSite (currentSiteHash : option string) (hash : string) : Response :=
  {| status := 404; statusText := "";
     headers := [("Content-Type", "text/plain")];
     body := BodyText ("Wrong site loaded. Expected: " +:+
                       JsString.ToString currentSiteHash +:+ ", Got: " +:+ hash) |}.

(** The handler from the hash comparison on, in the state [st] that the
    globals have at that point *)
Definition handleReady (st : State) (req : Request) (hash filePath : string)
    : Handling :=
  if negb (bool_decide (Some hash = currentSiteHash st)) then
    Respond (wrongSite (currentSiteHash st) hash)
  else
    let filePath :=
      normalizeFilePath (currentSiteFiles st) filePath (url_search req) (url_hash req) in
    match mediaCache st !! request_url req with
    | Some cachedMedia =>
        let full :=
          createMediaResponse (media_data cachedMedia)
            (media_contentType cachedMedia) None in
        if JsString.truthy (header_Range req) then
          match parseRangeHeader (header_Range req) (media_length cachedMedia) with
          | Some range =>
              Respond (createMediaResponse (media_data cachedMedia)
                         (media_contentType cachedMedia) (Some range))
          | None => Respond full
          end
        else Respond full
    | None =>
        (* const range = null; the Range header is only logged here *)
        let range : option Range := None in
        RequestResource (request_url req) filePath range
    end.

(** [url.pathname.split('/').filter((part) => part.length > 0)] *)
Definition pathPartsOf (pathname : string) : list string :=
  filter (fun part => (0 < String.length part)%nat) (JsString.split "/" pathname).

(** [handlePeerWebRequest(request)].  [st] is the state on entry.  When no
    site is set the handler polls every 100 ms for up to 120 s; [afterWait]
    is the state at the poll that ends the wait, be it because a site hash
    has appeared or because the time is up. *)
Definition handlePeerWebRequest (st afterWait : State) (req : Request) : Handling :=
  let pathParts := pathPartsOf (url_pathname req) in
  match pathParts with
  | first :: hash :: rest =>
      if negb (String.eqb first "peerweb-site") then Respond invalidUrl
      else
        let filePath := JsString.join "/" rest in
        if negb (JsString.truthy (currentSiteHash st)) then
          if negb (JsString.truthy (currentSiteHash afterWait)) then
            Respond siteNotLoaded
          else handleReady afterWait req hash filePath
        else handleReady st req hash filePath
  | _ => Respond invalidUrl
  end.

(** [requestResourceFromMainThread(requestUrl, filePath, range)], the part
    that runs at once: [requestId] is the identifier drawn from the clock
    and the random source, [now] is [Date.now()], [promise] names the
    promise returned.  The entry is stored, [clients.matchAll] is started
    (its outcome comes back through [onClientsMatched] or
    [onClientsError]) and the timer is armed. *)
Definition requestResourceFromMainThread (st : State) (requestId : string)
    (now : Z) (promise : nat) (requestUrl filePath : string)
    (range : option Range) : State * list Effect :=
  let st1 :=
    setPending st
      (<[requestId := {| resolve := promise; timestamp := now; range := range |}]>
         (pendingRequests st)) in
  let timeout := if isMediaFile (Some filePath) then 10000 else 5000 in
  (st1, [SetTimeout {| timer_requestId := requestId; timer_resolve := promise;
                       timer_filePath := filePath |} timeout]).

(** The [.then] callback of [clients.matchAll]; a client is its URL *)
Definition onClientsMatched (st : State) (clients : list string)
    (requestId : string) (promise : nat) (requestUrl filePath : string)
    (range : option Range) : State * list Effect :=
  let mainClients :=
    filter (fun clientUrl =>
              JsString.truthy (Some clientUrl) = true ∧
              JsString.includes clientUrl "/peerweb-site/" = false) clients in
  let message :=
    {| msg_url := requestUrl; msg_filePath := filePath;
       msg_requestId := requestId; msg_range := range |} in
  match mainClients with
  | mainClient :: _ => (st, [PostMessage mainClient message])
  | [] =>
      match clients with
      | client :: _ => (st, [PostMessage client message])
      | [] =>
          (setPending st (delete requestId (pendingRequests st)),
           [Resolve promise (createNavigationFallback filePath)])
      end
  end.

(** The [.catch] callback of [clients.matchAll] *)
Definition onClientsError (st : State) (requestId : string) (promise : nat)
    (filePath : string) : State * list Effect :=
  (setPending st (delete requestId (pendingRequests st)),
   [Resolve promise (createNavigationFallback filePath)]).

(** The round-trip timer fires *)
Definition onTimeout (st : State) (callback : TimeoutCallback) : State * list Effect :=
  match pendingRequests st !! timer_requestId callback with
  | Some _ =>
      (setPending st (delete (timer_requestId callback) (pendingRequests st)),
       [Resolve (timer_resolve callback)
          (createNavigationFallback (timer_filePath callback))])
  | None => (st, [])
  end.

(** *** The event loop *)

(** One turn of the worker's event loop *)
Inductive Event :=
| Incoming (m : Message)
| NewRequest (requestId : string) (now : Z) (promise : nat)
    (requestUrl filePath : string) (range : option Range)
| ClientsMatched (clients : list string) (requestId : string) (promise : nat)
    (requestUrl filePath : string) (range : option Range)
| ClientsError (requestId : string) (promise : nat) (filePath : string)
| TimerFired (callback : TimeoutCallback).

Definition step (st : State) (e : Event) : State * list Effect :=
  match e with
  | Incoming m => onMessage st m
  | NewRequest requestId now promise requestUrl filePath range =>
      requestResourceFromMainThread st requestId now promise requestUrl filePath range
  | ClientsMatched clients requestId promise requestUrl filePath range =>
      onClientsMatched st clients requestId promise requestUrl filePath range
  | ClientsError requestId promise filePath =>
      onClientsError st requestId promise filePath
  | TimerFired callback => onTimeout st callback
  end.

(** The state after a sequence of turns *)
Definition run (st : State) (events : list Event) : State :=
  fold_left (fun s e => fst (step s e)) events st.

(** The turn stores a pending request under [requestId] *)
Definition creates (requestId : string) (e : Event) : Prop :=
  match e with
  | NewRequest requestId' _ _ _ _ _ => requestId' = requestId
  | _ => False
  end.

(** The turn is one of the two that take the request [requestId] out of
    the table: an answer for it, or its timer *)
Definition removes (requestId : string) (e : Event) : Prop :=
  match e with
  | Incoming (RESOURCE_RESPONSE requestId' _ _ _) => requestId' = requestId
  | TimerFired callback => timer_requestId callback = requestId
  | _ => False
  end.

End SW.

(** ** peerweb.js, the Site Manager *)

#[local] Set Warnings "-inexact-float".

Module PeerWeb.

(** The thresholds of [PEERWEB_CONFIG] that the early-availability policy
    reads; each literal denotes the binary64 value nearest to it *)
Module CONFIG.
Definition EARLY_PROCESS_THRESHOLD : float := 0.95%float.
Definition ESSENTIAL_FILES_THRESHOLD : float := 0.8%float.
Definition FILE_PROGRESS_THRESHOLD_REGULAR : float := 0.8%float.
Definition FILE_PROGRESS_THRESHOLD_ESSENTIAL : float := 0.9%float.
Definition FILE_PROGRESS_THRESHOLD_MEDIA : float := 0.7%float.
End CONFIG.

(** *** Plain objects used as maps *)

(** An object with string keys is the list of its own properties in the
    order in which [Object.keys] enumerates them, which is insertion order
    (keys are file paths, none of which is taken to be a canonical array
    index).  Reading a key gives the value stored under it; properties
    inherited from [Object.prototype] are outside the model. *)
Fixpoint getProperty {A} (o : list (string * A)) (key : string) : option A :=
  match o with
  | [] => None
  | (k, v) :: rest => if String.eqb k key then Some v else getProperty rest key
  end.

(** [o[key] = value]: in place when the key exists, else appended *)
Fixpoint setProperty {A} (o : list (string * A)) (key : string) (value : A)
    : list (string * A) :=
  match o with
  | [] => [(key, value)]
  | (k, v) :: rest =>
      if String.eqb k key then (k, value) :: rest
      else (k, v) :: setProperty rest key value
  end.

Definition keys {A} (o : list (string * A)) : list string := map fst o.

(** [array.find(p)] *)
Fixpoint find {A} (p : A -> bool) (l : list A) : option A :=
  match l with
  | [] => None
  | x :: rest => if p x then Some x else find p rest
  end.

(** *** Site identifiers *)

Definition isHexChar (c : ascii) : bool :=
  let n := nat_of_ascii c in
  ((48 <=? n) && (n <=? 57) || (97 <=? n) && (n <=? 102) ||
   (65 <=? n) && (n <=? 70))%nat.

Fixpoint keepHex (s : string) : string :=
  match s with
  | EmptyString => EmptyString
  | String c s' => if isHexChar c then String c (keepHex s') else keepHex s'
  end.

Fixpoint allHex (s : string) : bool :=
  match s with
  | EmptyString => true
  | String c s' => isHexChar c && allHex s'
  end.

(** [sanitizeHash(hash)] *)
Definition sanitizeHash (hash : option string) : string :=
  if negb (JsString.truthy hash) then ""
  else JsString.toLowerCase (keepHex (JsString.ToString hash)).

(** [isValidTorrentHash(hash)] *)
Definition isValidTorrentHash (hash : option string) : bool :=
  if negb (JsString.truthy hash) then false
  else
    let hash := JsString.trim (JsString.ToString hash) in
    if negb (String.length hash =? 40)%nat then false
    else if negb (JsString.truthy (Some hash) && allHex hash) then false
    else true.

(** *** File lookup *)

Record FileRecord := mkFileRecord {
  content : list Z;
  type : string;
  isText : bool;
  isMedia : bool;
  size : Z
}.

Section Lookup.

Context {A : Type}.
Variable siteData : list (string * A).

(** [cleanPath]: a leading "./" and then a leading "/" are dropped *)
Definition cleanPathOf (requestedPath : string) : string :=
  let cleanPath := requestedPath in
  let cleanPath :=
    if JsString.startsWith cleanPath "./"
    then JsString.substring_from 2 cleanPath else cleanPath in
  if JsString.startsWith cleanPath "/"
  then JsString.substring_from 1 cleanPath else cleanPath.

(** First loop: [requestedPath], then [cleanPath], as keys *)
Definition exactMatch (requestedPath cleanPath : string) : option A :=
  match getProperty siteData requestedPath with
  | Some file => Some file
  | None => getProperty siteData cleanPath
  end.

(** Second loop: the first key with the same last path component *)
Definition filenameMatch (cleanPath : string) : option A :=
  let fileName := JsString.pop (JsString.split "/" cleanPath) in
  match find (fun key =>
                bool_decide (JsString.pop (JsString.split "/" key) = fileName))
             (keys siteData) with
  | Some key => getProperty siteData key
  | None => None
  end.

(** Third loop: the first key that ends with the path, or that the path
    ends with *)
Definition endingMatch (cleanPath : string) : option A :=
  match find (fun key =>
                JsString.endsWith key cleanPath || JsString.endsWith cleanPath key)
             (keys siteData) with
  | Some key => getProperty siteData key
  | None => None
  end.

End Lookup.

(** [findFileInSiteData(requestedPath)], reading [this.currentSiteData] *)
Definition findFileInSiteData {A} (currentSiteData : option (list (string * A)))
    (requestedPath : string) : option A :=
  match currentSiteData with
  | None => None
  | Some siteData =>
      let cleanPath := cleanPathOf requestedPath in
      match exactMatch siteData requestedPath cleanPath with
      | Some file => Some file
      | None =>
          match filenameMatch siteData cleanPath with
          | Some file => Some file
          | None => endingMatch siteData cleanPath
          end
      end
  end.

(** *** Early availability *)

(** A file of the torrent, as far as this code reads it *)
Record TorrentFile := mkTorrentFile {
  file_name : string;
  file_length : Z;
  file_progress : float
}.

Record Torrent := mkTorrent {
  torrent_progress : float;
  torrent_files : list TorrentFile
}.

(** [a >= b] and [a < b] on numbers; both are false on [NaN] *)
Definition ge (a b : float) : bool := PrimFloat.leb b a.
Definition lt (a b : float) : bool := PrimFloat.ltb a b.

(** A count as a number; exact below 2^53 *)
Definition numberOfNat (n : nat) : float :=
  PrimFloat.of_uint63 (Uint63.of_Z (Z.of_nat n)).

Definition mediaExtensions : list string :=
  [".mp4"; ".webm"; ".avi"; ".mov"; ".wmv"; ".flv"; ".mkv"; ".mp3"; ".wav";
   ".ogg"; ".aac"; ".flac"; ".m4a"; ".gif"].

(** [isMediaFile(filename)] *)
Definition isMediaFile (filename : string) : bool :=
  existsb (fun ext => JsString.endsWith (JsString.toLowerCase filename) ext)
          mediaExtensions.

(** [findIndexFile(files)] *)
Definition findIndexFile (files : list TorrentFile) : option TorrentFile :=
  find (fun file =>
          let name := JsString.toLowerCase (file_name file) in
          String.eqb name "index.html" || JsString.endsWith name "/index.html")
       files.

(** The counter of [hasEssentialFiles] after the [forEach] *)
Definition availableFiles (files : list TorrentFile) : nat :=
  List.length (List.filter (fun file => ge (file_progress file) 0.9%float) files).

(** [availabilityRatio] of [hasEssentialFiles]; [NaN] for no files *)
Definition availabilityRatio (torrent : Torrent) : float :=
  let totalFiles := List.length (torrent_files torrent) in
  PrimFloat.div (numberOfNat (availableFiles (torrent_files torrent)))
                (numberOfNat totalFiles).

(** [hasEssentialFiles(torrent)] *)
Definition hasEssentialFiles (torrent : Torrent) : bool :=
  ge (availabilityRatio torrent) CONFIG.ESSENTIAL_FILES_THRESHOLD.

(** [shouldProcessSiteEarly(torrent)] *)
Definition shouldProcessSiteEarly (torrent : Torrent) : bool :=
  if ge (torrent_progress torrent) CONFIG.EARLY_PROCESS_THRESHOLD then true
  else
    let indexFile := findIndexFile (torrent_files torrent) in
    if bool_decide (is_Some indexFile) && hasEssentialFiles torrent then true
    else false.

(** *** Early materialization *)

(** [isEssential] as the sort of [processTorrentEarly] computes it *)
Definition isEssentialForOrder (file : TorrentFile) : bool :=
  let lower := JsString.toLowerCase (file_name file) in
  JsString.includes lower "index.html" || JsString.endsWith lower ".css" ||
  JsString.endsWith lower ".js".

(** The comparison function of the sort *)
Definition compareFiles (a b : TorrentFile) : Z :=
  let aIsMedia := isMediaFile (file_name a) in
  let bIsMedia := isMediaFile (file_name b) in
  let aIsEssential := isEssentialForOrder a in
  let bIsEssential := isEssentialForOrder b in
  if aIsEssential && negb bIsEssential then -1
  else if negb aIsEssential && bIsEssential then 1
  else if aIsMedia && negb bIsMedia then 1
  else if negb aIsMedia && bIsMedia then -1
  else 0.

(** [files.sort(compareFiles)]: the sort of the language is stable, so a
    file goes before the first later file that it does not follow *)
Fixpoint insertFile (x : TorrentFile) (sorted : list TorrentFile) : list TorrentFile :=
  match sorted with
  | [] => [x]
  | y :: rest =>
      if compareFiles x y <=? 0 then x :: y :: rest else y :: insertFile x rest
  end.

Definition sortFiles (files : list TorrentFile) : list TorrentFile :=
  fold_right insertFile [] files.

(** [isEssential] as the loop of [processTorrentEarly] computes it *)
Definition isEssential (file : TorrentFile) : bool :=
  let lower := JsString.toLowerCase (file_name file) in
  JsString.includes lower "index.html" || JsString.endsWith lower ".css".

(** [requiredProgress] of the loop *)
Definition requiredProgress (file : TorrentFile) : float :=
  if isEssential file then CONFIG.FILE_PROGRESS_THRESHOLD_ESSENTIAL
  else if isMediaFile (file_name file) then CONFIG.FILE_PROGRESS_THRESHOLD_MEDIA
  else CONFIG.FILE_PROGRESS_THRESHOLD_REGULAR.

(** What one pass has built so far *)
Record Pass := mkPass {
  siteData : list (string * FileRecord);
  processedFiles : Z;
  failedFiles : Z
}.

Inductive Published :=
| SiteReady (siteData : list (string * FileRecord))
| WaitForMoreProgress.

Section EarlyProcessing.

(** [getFileBufferWithTimeout(file, timeout)]: the bytes, or [None] when
    the read fails or times out.  The flag tells the retry, made later and
    with [FILE_RETRY_TIMEOUT], from the first read, made with the timeout
    that [calculateFileTimeout] derives from the file. *)
Variable getFileBufferWithTimeout : TorrentFile -> bool -> option (list Z).

(** The extension tables [getContentType] and [isTextFile] *)
Variable getContentType : string -> string.
Variable isTextFile : string -> bool.

(** The [try] block from the read on, with its [catch] *)
Definition readAndStore (pass : Pass) (file : TorrentFile) : Pass :=
  match getFileBufferWithTimeout file false with
  | Some buffer =>
      {| siteData :=
           setProperty (siteData pass) (file_name file)
             {| content := buffer;
                type := getContentType (file_name file);
                isText := isTextFile (file_name file);
                isMedia := isMediaFile (file_name file);
                size := Z.of_nat (List.length buffer) |};
         processedFiles := processedFiles pass + 1;
         failedFiles := failedFiles pass |}
  | None =>
      let failed := failedFiles pass + 1 in
      if JsString.includes (JsString.toLowerCase (file_name file)) "index.html" then
        match getFileBufferWithTimeout file true with
        | Some buffer =>
            {| siteData :=
                 setProperty (siteData pass) (file_name file)
                   {| content := buffer;
                      type := getContentType (file_name file);
                      isText := isTextFile (file_name file);
                      isMedia := false;
                      size := Z.of_nat (List.length buffer) |};
               processedFiles := processedFiles pass + 1;
               failedFiles := failed |}
        | None =>
            {| siteData := siteData pass;
               processedFiles := processedFiles pass;
               failedFiles := failed |}
        end
      else
        {| siteData := siteData pass;
           processedFiles := processedFiles pass;
           failedFiles := failed |}
  end.

(** One iteration of the loop over the sorted files *)
Definition processFile (pass : Pass) (file : TorrentFile) : Pass :=
  let isMedia := isMediaFile (file_name file) in
  if lt (file_progress file) (requiredProgress file) then
    if isMedia then readAndStore pass file
    else pass
  else readAndStore pass file.

(** [processTorrentEarly(torrent, hash)] up to the decision to publish *)
Definition processTorrentEarly (torrent : Torrent) : Published :=
  let sortedFiles := sortFiles (torrent_files torrent) in
  let pass :=
    fold_left processFile sortedFiles
      {| siteData := []; processedFiles := 0; failedFiles := 0 |} in
  if processedFiles pass =? 0 then WaitForMoreProgress
  else
    let hasIndex :=
      existsb (fun name => JsString.includes (JsString.toLowerCase name) "index.html")
              (keys (siteData pass)) in
    if negb hasIndex then WaitForMoreProgress
    else SiteReady (siteData pass).

End EarlyProcessing.

End PeerWeb.

(** * Further code of the two files *)

(** ** peerweb-sw.js: the fetch listener *)

Module Interception.

(** A fetch event as the listener reads it: the request, and the [protocol]
    and [origin] of [new URL(event.request.url)] *)
Record FetchEvent := mkFetchEvent {
  request : SW.Request;
  url_protocol : string;
  url_origin : string
}.

(** [isExternalUrl(url)]; [selfOrigin] is [self.location.origin].  The
    function is called on [event.request.url], which the listener has
    parsed before, so its own [new URL(url)] does not throw. *)
Definition isExternalUrl (selfOrigin : string) (event : FetchEvent) : bool :=
  if String.eqb (url_protocol event) "http:" || String.eqb (url_protocol event) "https:"
  then negb (String.eqb (url_origin event) selfOrigin)
  else if negb (String.eqb (url_protocol event) "blob:") &&
          negb (String.eqb (url_protocol event) "data:")
  then true
  else false.

(** [isPeerWebInternalResource(url)] *)
Definition isPeerWebInternalResource (event : FetchEvent) : bool :=
  JsString.startsWith (SW.url_pathname (request event)) "/peerweb-site/".

(** What the listener does with the event: nothing, so that the browser
    fetches as usual, or [event.respondWith(handlePeerWebRequest(...))] *)
Inductive Decision :=
| PassThrough
| RespondWith (handling : SW.Handling).

(** The ['fetch'] listener *)
Definition onFetch (selfOrigin : string) (st afterWait : SW.State)
    (event : FetchEvent) : Decision :=
  if isExternalUrl selfOrigin event then PassThrough
  else if isPeerWebInternalResource event
  then RespondWith (SW.handlePeerWebRequest st afterWait (request event))
  else PassThrough.

End Interception.

(** ** peerweb.js: answering the worker, content types, links, cache *)

Module Page.

(** *** Answering a RESOURCE_REQUEST *)

(** [handleServiceWorkerResourceRequest(url, requestId, providedFilePath)],
    reading [this.currentSiteData]; the result is the message handed to
    [sendToServiceWorker].  [urlPathname] is the [pathname] of
    [new URL(url)], read only when no file path is provided. *)
Definition handleServiceWorkerResourceRequest
    (currentSiteData : option (list (string * PeerWeb.FileRecord)))
    (url requestId urlPathname : string) (providedFilePath : option string)
    : SW.Message :=
  match currentSiteData with
  | None => SW.RESOURCE_RESPONSE requestId url None None
  | Some _ =>
      let filePath :=
        if negb (JsString.truthy providedFilePath) then
          let pathParts := JsString.split "/" urlPathname in
          let filePath := JsString.join "/" (drop 3 pathParts) in
          if String.eqb filePath "" then "index.html" else filePath
        else JsString.ToString providedFilePath in
      match PeerWeb.findFileInSiteData currentSiteData filePath with
      | Some file =>
          let dataArray := Uint8Array.from (PeerWeb.content file) in
          SW.RESOURCE_RESPONSE requestId url (Some dataArray) (Some (PeerWeb.type file))
      | None => SW.RESOURCE_RESPONSE requestId url None None
      end
  end.

(** *** Content types *)

Definition mimeTypes : list (string * string) :=
  [("html", "text/html"); ("htm", "text/html"); ("css", "text/css");
   ("js", "application/javascript"); ("mjs", "application/javascript");
   ("json", "application/json"); ("xml", "application/xml");
   ("txt", "text/plain"); ("md", "text/markdown"); ("pdf", "application/pdf");
   ("png", "image/png"); ("jpg", "image/jpeg"); ("jpeg", "image/jpeg");
   ("gif", "image/gif"); ("svg", "image/svg+xml"); ("webp", "image/webp");
   ("ico", "image/x-icon");
   ("woff", "font/woff"); ("woff2", "font/woff2"); ("ttf", "font/ttf");
   ("otf", "font/otf"); ("eot", "application/vnd.ms-fontobject");
   ("mp4", "video/mp4"); ("webm", "video/webm"); ("avi", "video/avi");
   ("mov", "video/quicktime"); ("wmv", "video/x-ms-wmv"); ("flv", "video/x-flv");
   ("mkv", "video/x-matroska");
   ("mp3", "audio/mpeg"); ("wav", "audio/wav"); ("ogg", "audio/ogg");
   ("aac", "audio/aac"); ("flac", "audio/flac"); ("m4a", "audio/mp4")].

(** The names that a lower-cased extension can hit on [Object.prototype]
    instead of the table: reading them from the object literal gives a
    function or an object, which is truthy and not a string *)
Definition inheritedNames : list string := ["constructor"; "__proto__"].

(** [getContentType(filename)]: [None] stands for the value that is not a
    string, returned for the two inherited names *)
Definition getContentType (filename : string) : option string :=
  let ext := JsString.ToString (JsString.pop (JsString.split "." (JsString.toLowerCase filename))) in
  if existsb (String.eqb ext) inheritedNames then None
  else
    match PeerWeb.getProperty mimeTypes ext with
    | Some mime => Some mime
    | None => Some "application/octet-stream"
    end.

Definition textExtensions : list string :=
  [".html"; ".css"; ".js"; ".json"; ".txt"; ".md"; ".xml"; ".svg"].

(** [isTextFile(filename)] *)
Definition isTextFile (filename : string) : bool :=
  existsb (fun ext => JsString.endsWith (JsString.toLowerCase filename) ext) textExtensions.

(** The test by which [displaySite] picks the index file among the keys of
    the site data *)
Definition isIndexName (name : string) : bool :=
  let lowerName := JsString.toLowerCase name in
  String.eqb lowerName "index.html" || JsString.endsWith lowerName "/index.html".

(** [Object.keys(siteData).find(...)] of [displaySite] *)
Definition indexFileName {A} (siteData : list (string * A)) : option string :=
  PeerWeb.find isIndexName (PeerWeb.keys siteData).

(** The test [hasIndex] of [processTorrentEarly] *)
Definition hasIndex {A} (siteData : list (string * A)) : bool :=
  existsb (fun name => JsString.includes (JsString.toLowerCase name) "index.html")
          (PeerWeb.keys siteData).

(** *** Links of the index page *)

(** [isInternalResource(url)] *)
Definition isInternalResource (url : option string) : bool :=
  if negb (JsString.truthy url) then false
  else
    let url := JsString.ToString url in
    if JsString.startsWith url "http://" || JsString.startsWith url "https://" then false
    else if JsString.startsWith url "data:" then false
    else if JsString.startsWith url "blob:" then false
    else if JsString.startsWith url "//" then false
    else if JsString.includes url ":" && negb (JsString.startsWith url "./") &&
            negb (JsString.startsWith url "../") then false
    else true.

(** [isInternalNavigation(href)] *)
Definition isInternalNavigation (href : option string) : bool :=
  if negb (JsString.truthy href) then false
  else
    let href := JsString.ToString href in
    if JsString.startsWith href "#" then true
    else if JsString.startsWith href "http://" || JsString.startsWith href "https://" then false
    else if JsString.startsWith href "//" then false
    else if JsString.startsWith href "mailto:" then false
    else if JsString.startsWith href "tel:" then false
    else if JsString.includes href ":" && negb (JsString.startsWith href "./") &&
            negb (JsString.startsWith href "../") then false
    else true.

(** One turn of the loop of [resolveParentPath] *)
Definition resolveStep (baseParts : list string) (part : string) : list string :=
  if String.eqb part ".." then removelast baseParts
  else if negb (String.eqb part ".") then baseParts ++ [part]
  else baseParts.

(** [resolveParentPath(basePath, relativePath)] *)
Definition resolveParentPath (basePath relativePath : string) : string :=
  let baseParts :=
    filter (fun part => JsString.truthy (Some part) = true) (JsString.split "/" basePath) in
  let relativeParts := JsString.split "/" relativePath in
  JsString.join "/" (fold_left resolveStep relativeParts baseParts).

(** The path that [convertToVirtualUrl] puts behind the site prefix *)
Definition virtualPath (originalUrl basePath : string) : string :=
  let cleanUrl := SW.withoutQueryAndFragment originalUrl in
  let cleanUrl :=
    if JsString.startsWith cleanUrl "./" then JsString.substring_from 2 cleanUrl
    else cleanUrl in
  if JsString.startsWith cleanUrl "../" then resolveParentPath basePath cleanUrl
  else if negb (JsString.startsWith cleanUrl "/") then basePath +:+ cleanUrl
  else JsString.substring_from 1 cleanUrl.

(** [convertToVirtualUrl(originalUrl, basePath, hash)] *)
Definition convertToVirtualUrl (originalUrl basePath hash : string) : string :=
  "/peerweb-site/" +:+ hash +:+ "/" +:+ virtualPath originalUrl basePath.

(** [convertNavigationToVirtualUrl(href, basePath, hash)] *)
Definition convertNavigationToVirtualUrl (href basePath hash : string) : string :=
  if JsString.startsWith href "#" then href
  else convertToVirtualUrl href basePath hash.

(** *** Torrent files *)

(** [new TextEncoder().encode(s)] for a string of ASCII characters *)
Fixpoint encodeAscii (s : string) : list Z :=
  match s with
  | EmptyString => []
  | String c s' => Z.of_nat (nat_of_ascii c) :: encodeAscii s'
  end.

(** The inner loop of [findBencodedString]: do the bytes of [searchBytes]
    stand in [uint8Array] from index [i] on?  A read past the end gives
    [undefined], which is no byte. *)
Definition matchAt (uint8Array searchBytes : list Z) (i : nat) : bool :=
  forallb (fun j => bool_decide (uint8Array !! (i + j)%nat = searchBytes !! j))
          (seq 0 (length searchBytes)).

(** [findBencodedString(uint8Array, searchString)] for an ASCII
    [searchString]: the outer loop runs [i] from [0] to
    [uint8Array.length - searchBytes.length], not at all when that is
    negative *)
Definition findBencodedString (uint8Array : list Z) (searchString : string) : bool :=
  let searchBytes :=
    encodeAscii (JsNumber.toString (Z.of_nat (String.length searchString)) +:+ ":" +:+
                 searchString) in
  if Z.of_nat (length uint8Array) - Z.of_nat (length searchBytes) <? 0 then false
  else existsb (matchAt uint8Array searchBytes)
               (seq 0 (length uint8Array - length searchBytes + 1)).

(** [calculateOptimalPieceLength(files)], from the sizes of the files *)
Definition calculateOptimalPieceLength (sizes : list Z) : Z :=
  let totalSize := fold_left Z.add sizes 0 in
  if totalSize <? 16 * 1024 * 1024 then 16 * 1024
  else if totalSize <? 256 * 1024 * 1024 then 32 * 1024
  else if totalSize <? 1024 * 1024 * 1024 then 256 * 1024
  else 1024 * 1024.

End Page.

(** ** peerweb.js: the cache of loaded sites *)

Module PeerWebCache.

(** [PEERWEB_CONFIG.CACHE_MAX_AGE] *)
Definition maxAge : Z := 7 * 24 * 60 * 60 * 1000.

Section Store.

Context {A : Type}.

(** A record of the object store [sites], whose key is the hash *)
Record Entry := mkEntry {
  data : A;
  timestamp : Z
}.

(** [set(hash, data)] at the time [now]; [put] overwrites *)
Definition set (store : gmap string Entry) (hash : string) (value : A) (now : Z)
    : gmap string Entry :=
  <[hash := {| data := value; timestamp := now |}]> store.

(** [get(hash)] at the time [now]: the data of a record younger than
    [maxAge]; an older record is deleted and the answer is [null].  The
    database operations are taken to succeed, and the deletion, which the
    code starts without waiting for it, to be carried out at once. *)
Definition get (store : gmap string Entry) (hash : string) (now : Z)
    : gmap string Entry * option A :=
  match store !! hash with
  | Some result =>
      if now - timestamp result <? maxAge then (store, Some (data result))
      else (delete hash store, None)
  | None => (store, None)
  end.

(** [clear()] *)
Definition clear (store : gmap string Entry) : gmap string Entry := ∅.

End Store.

End PeerWebCache.

(** ** Events that can take a request out of the table *)

(** The turn may remove or replace the entry stored under [requestId] *)
Definition touches (requestId : string) (e : SW.Event) : Prop :=
  match e with
  | SW.Incoming (SW.RESOURCE_RESPONSE requestId' _ _ _) => requestId' = requestId
  | SW.Incoming (SW.MEDIA_CHUNK_RESPONSE requestId' _ _ _ _) => requestId' = requestId
  | SW.Incoming SW.SITE_UNLOADED => True
  | SW.Incoming _ => False
  | SW.NewRequest requestId' _ _ _ _ _ => requestId' = requestId
  | SW.ClientsMatched _ requestId' _ _ _ _ => requestId' = requestId
  | SW.ClientsError requestId' _ _ => requestId' = requestId
  | SW.TimerFired callback => SW.timer_requestId callback = requestId
  end.

(** * Invariants and auxiliary notions *)

(** The number that a run of decimal digits denotes after [acc] *)
Fixpoint digitsValue (d : Decimal.uint) (acc : Z) : Z :=
  match d with
  | Decimal.Nil => acc
  | Decimal.D0 l => digitsValue l (10 * acc)
  | Decimal.D1 l => digitsValue l (1 + 10 * acc)
  | Decimal.D2 l => digitsValue l (2 + 10 * acc)
  | Decimal.D3 l => digitsValue l (3 + 10 * acc)
  | Decimal.D4 l => digitsValue l (4 + 10 * acc)
  | Decimal.D5 l => digitsValue l (5 + 10 * acc)
  | Decimal.D6 l => digitsValue l (6 + 10 * acc)
  | Decimal.D7 l => digitsValue l (7 + 10 * acc)
  | Decimal.D8 l => digitsValue l (8 + 10 * acc)
  | Decimal.D9 l => digitsValue l (9 + 10 * acc)
  end.



(** Every entry of the cache is a media file of more than 100 KB whose
    recorded length is the length of its bytes *)
Definition cacheHoldsMedia (st : SW.State) : Prop :=
  map_Forall (fun (_ : string) entry =>
                SW.isMediaFile (SW.media_contentType entry) = true /\
                SW.media_length entry = Z.of_nat (length (SW.media_data entry)) /\
                1024 * 100 < SW.media_length entry)
             (SW.mediaCache st).

(** A part that can stand in a resolved path *)
Definition plainPart (part : string) : Prop :=
  JsString.includes part "/" = false /\ part <> ".." /\ part <> ".".

(** The place of a file in the order of early processing: essential files,
    then the others, and within each group media files last *)
Definition orderRank (file : PeerWeb.TorrentFile) : Z :=
  (if PeerWeb.isEssentialForOrder file then 0 else 2) +
  (if PeerWeb.isMediaFile (PeerWeb.file_name file) then 1 else 0).

(** The record of the entry holds bytes that a read of a file of that name
    has returned, their number as size, and the content type of the name *)
Definition readFrom
    (getFileBufferWithTimeout : PeerWeb.TorrentFile -> bool -> option (list Z))
    (getContentType : string -> string) (files : list PeerWeb.TorrentFile)
    (entry : string * PeerWeb.FileRecord) : Prop :=
  exists file retry,
    In file files /\ PeerWeb.file_name file = entry.1 /\
    getFileBufferWithTimeout file retry = Some (PeerWeb.content entry.2) /\
    PeerWeb.size entry.2 = Z.of_nat (length (PeerWeb.content entry.2)) /\
    PeerWeb.type entry.2 = getContentType entry.1.

(** * Sample data *)

Definition exampleHash : string := "abcdef0123456789abcdef0123456789abcdef01".

Definition exampleReadyState : SW.State :=
  {| SW.currentSiteHash := Some exampleHash;
     SW.currentSiteFiles := list_to_set ["index.html"; "style.css"; "app.js"];
     SW.pendingRequests := ∅;
     SW.mediaCache := ∅ |}.

Definition exampleRangeRequest : SW.Request :=
  {| SW.request_url :=
       "https://peerweb.example/peerweb-site/abcdef0123456789abcdef0123456789abcdef01/movie.mp4";
     SW.url_pathname :=
       "/peerweb-site/abcdef0123456789abcdef0123456789abcdef01/movie.mp4";
     SW.url_search := ""; SW.url_hash := "";
     SW.header_Range := Some "bytes=0-99" |}.

(** Fifty files, forty-one of them complete and nine half-way *)
Definition fiftyFiles (first : string) : list PeerWeb.TorrentFile :=
  {| PeerWeb.file_name := first; PeerWeb.file_length := 2048;
     PeerWeb.file_progress := 1%float |} ::
  map (fun i => {| PeerWeb.file_name := "pages/page" +:+ JsNumber.toString i +:+ ".html";
                   PeerWeb.file_length := 4096;
                   PeerWeb.file_progress := 1%float |})
      (seqZ 1 40) ++
  map (fun i => {| PeerWeb.file_name := "photos/photo" +:+ JsNumber.toString i +:+ ".png";
                   PeerWeb.file_length := 500000;
                   PeerWeb.file_progress := 0.5%float |})
      (seqZ 1 9).

(** * Properties *)

#[local] Arguments String.append !_ _ / : simpl nomatch.

(** ** Strings *)

Section StringFacts.

Lemma startsWith_refl_app (p s : string) : JsString.startsWith (p +:+ s) p = true.
Proof.
  induction p as [|c p IH]; simpl; [done|].
  by rewrite Ascii.eqb_refl, IH.
Qed.

Lemma startsWith_spec (s p : string) :
  JsString.startsWith s p = true <-> exists r, s = p +:+ r.
Proof.
  revert s. induction p as [|c p IH]; intros s; simpl.
  - split; [intros _; by exists s | done].
  - destruct s as [|a s]; simpl.
    + split; [done | intros [r Hr]; discriminate].
    + rewrite andb_true_iff, IH. split.
      * intros [Hc [r ->]]. apply Ascii.eqb_eq in Hc as ->. by exists r.
      * intros [r Hr]. injection Hr as -> ->.
        split; [apply Ascii.eqb_refl | by exists r].
Qed.

Lemma length_app (s t : string) :
  String.length (s +:+ t) = (String.length s + String.length t)%nat.
Proof. induction s as [|c s IH]; simpl; [done | by rewrite IH]. Qed.

Lemma substring_from_app (s t : string) :
  JsString.substring_from (String.length s) (s +:+ t) = t.
Proof. induction s as [|c s IH]; simpl; [by destruct t | done]. Qed.

Lemma endsWith_app (s t : string) : JsString.endsWith (s +:+ t) t = true.
Proof.
  unfold JsString.endsWith. rewrite length_app.
  replace (String.length s + String.length t - String.length t)%nat
    with (String.length s) by lia.
  rewrite substring_from_app, String.eqb_refl, andb_true_r.
  apply Nat.leb_le. lia.
Qed.

Lemma substring_from_length (n : nat) (s : string) :
  String.length (JsString.substring_from n s) = (String.length s - n)%nat.
Proof.
  revert s. induction n as [|n IH]; intros s; simpl; [lia|].
  destruct s as [|c s]; simpl; [done | apply IH].
Qed.

Lemma substring_from_split (n : nat) (s : string) :
  (n <= String.length s)%nat ->
  exists p, s = p +:+ JsString.substring_from n s /\ String.length p = n.
Proof.
  revert s. induction n as [|n IH]; intros s Hn; simpl.
  - by exists "".
  - destruct s as [|c s]; simpl in *; [lia|].
    destruct (IH s) as [p [Hp Hl]]; [lia|].
    exists (String c p). simpl. split; congruence.
Qed.

Lemma endsWith_spec (s t : string) :
  JsString.endsWith s t = true <-> exists p, s = p +:+ t.
Proof.
  split.
  - unfold JsString.endsWith. rewrite andb_true_iff.
    intros [Hlen Heq]. apply Nat.leb_le in Hlen. apply String.eqb_eq in Heq.
    destruct (substring_from_split (String.length s - String.length t) s)
      as [p [Hp _]]; [lia|].
    exists p. by rewrite Heq in Hp.
  - intros [p ->]. apply endsWith_app.
Qed.

Lemma includes_app (p s t : string) : JsString.includes (p +:+ s +:+ t) s = true.
Proof.
  induction p as [|c p IH].
  - simpl. destruct (s +:+ t) eqn:E; simpl.
    + destruct s; [done | discriminate].
    + rewrite <- E, startsWith_refl_app. done.
  - cbn [String.app JsString.includes]. rewrite IH. apply orb_true_r.
Qed.

End StringFacts.

(** ** Byte ranges *)

Section Ranges.

Lemma slice_inside (u : list Z) (a b : Z) :
  0 <= a -> a <= b -> b <= Z.of_nat (length u) - 1 ->
  Uint8Array.slice u a (b + 1) =
    take (Z.to_nat (b - a + 1)) (drop (Z.to_nat a) u) /\
  Z.of_nat (length (Uint8Array.slice u a (b + 1))) = b - a + 1.
Proof.
  intros Ha Hab Hb. unfold Uint8Array.slice.
  destruct (Z.ltb_spec a 0); [lia|].
  destruct (Z.ltb_spec (b + 1) 0); [lia|].
  rewrite (Z.min_l a) by lia. rewrite (Z.min_l (b + 1)) by lia.
  rewrite Z.max_l by lia.
  replace (b + 1 - a) with (b - a + 1) by lia.
  split; [done|].
  rewrite length_take, length_drop. lia.
Qed.

Lemma parseRangeHeader_bytes (spec : string) (fileSize : Z) :
  SW.parseRangeHeader (Some ("bytes=" +:+ spec)) fileSize =
    let parts := JsString.split "-" spec in
    let start0 := JsNumber.orElse (JsNumber.parseInt (parts !! 0%nat)) 0 in
    let end0 := JsNumber.orElse (JsNumber.parseInt (parts !! 1%nat)) (fileSize - 1) in
    let start1 := Z.max 0 (Z.min start0 (fileSize - 1)) in
    Some {| start := start1;
            end_ := Z.max start1 (Z.min end0 (fileSize - 1)) |}.
Proof. reflexivity. Qed.

Lemma parseRangeHeader_bounds (h : option string) (L : Z) (r : Range) :
  1 <= L -> SW.parseRangeHeader h L = Some r ->
  0 <= start r /\ start r <= end_ r /\ end_ r <= L - 1.
Proof.
  intros HL. unfold SW.parseRangeHeader.
  destruct (_ || _); [discriminate|].
  intros [= <-]. simpl. lia.
Qed.

(** A start without a dash, followed by a dash and nothing: the second
    part is the empty string, which [parseInt] reads as [NaN] *)
Lemma split_missing_end (s : string) :
  JsString.includes s "-" = false ->
  JsString.split "-" (s +:+ "-") = [s; ""].
Proof.
  induction s as [|c s IH]; simpl; [done|].
  intros H. apply orb_false_iff in H as [Hc Hs].
  destruct (Ascii.eqb c "-"); [done|].
  by rewrite IH.
Qed.

End Ranges.

(** ** Range requests against the media cache *)

(** C2.  For a file of length [L >= 1] and a Range header of the form
    [bytes=<start>-<end>] (anything may stand after [bytes=]),
    [parseRangeHeader] returns a range with [0 <= start <= end <= L-1]; an
    end that is missing or not a number becomes [L-1], and so does the end
    of a header [bytes=<start>-]; a start that is missing or not a number
    becomes [0]; [bytes=100-] against 1000 bytes is [{100, 999}].  The
    response that [createMediaResponse] builds for that range from the
    media file has status 206, [Content-Length] equal to [end-start+1], as
    body exactly the bytes from [start] to [end] ([end-start+1] of them),
    and [Content-Range] equal to [bytes start-end/L]. *)
Theorem range_request_served_within_bounds
    (u : list Z) (contentType : option string) (spec : string) :
  let L := Z.of_nat (length u) in
  1 <= L ->
  SW.isMediaFile contentType = true ->
  exists r,
    SW.parseRangeHeader (Some ("bytes=" +:+ spec)) L = Some r /\
    (0 <= start r /\ start r <= end_ r /\ end_ r <= L - 1) /\
    (JsNumber.parseInt (JsString.split "-" spec !! 1%nat) = None -> end_ r = L - 1) /\
    (forall s, JsString.includes s "-" = false -> spec = s +:+ "-" -> end_ r = L - 1) /\
    (JsNumber.parseInt (JsString.split "-" spec !! 0%nat) = None -> start r = 0) /\
    SW.parseRangeHeader (Some "bytes=100-") 1000 = Some {| start := 100; end_ := 999 |} /\
    let response := SW.createMediaResponse u contentType (Some r) in
    status response = 206 /\
    getHeader "Content-Length" (headers response) =
      Some (JsNumber.toString (end_ r - start r + 1)) /\
    body response =
      BodyBytes (take (Z.to_nat (end_ r - start r + 1)) (drop (Z.to_nat (start r)) u)) /\
    (forall chunk, body response = BodyBytes chunk ->
                   Z.of_nat (length chunk) = end_ r - start r + 1) /\
    getHeader "Content-Range" (headers response) =
      Some ("bytes " +:+ JsNumber.toString (start r) +:+ "-" +:+
            JsNumber.toString (end_ r) +:+ "/" +:+ JsNumber.toString L).
Proof.
  intros L HL Hmedia.
  destruct (SW.parseRangeHeader (Some ("bytes=" +:+ spec)) L) as [r|] eqn:Hr;
    [|by rewrite parseRangeHeader_bytes in Hr].
  pose proof (parseRangeHeader_bounds _ _ _ HL Hr) as Hb.
  rewrite parseRangeHeader_bytes in Hr. cbv zeta in Hr. injection Hr as Hr.
  assert (Hend : JsNumber.parseInt (JsString.split "-" spec !! 1%nat) = None ->
                 end_ r = L - 1).
  { intros Hnan. rewrite <- Hr, Hnan. simpl. lia. }
  exists r. repeat split; try apply Hb; try done.
  - intros s Hs ->. apply Hend. by rewrite split_missing_end.
  - intros Hnan. rewrite <- Hr, Hnan. simpl. lia.
  - unfold SW.createMediaResponse. by rewrite Hmedia.
  - unfold SW.createMediaResponse. by rewrite Hmedia.
  - unfold SW.createMediaResponse. rewrite Hmedia. simpl. f_equal.
    apply slice_inside; fold L; lia.
  - unfold SW.createMediaResponse. rewrite Hmedia. simpl. intros chunk [= <-].
    apply slice_inside; fold L; lia.
  - unfold SW.createMediaResponse. by rewrite Hmedia.
Qed.

Lemma range_request_served_within_bounds_witness :
  1 <= Z.of_nat (length [10; 20; 30; 40; 50]) /\
  SW.isMediaFile (Some "video/mp4") = true /\
  exists r,
    SW.parseRangeHeader (Some "bytes=1-3") 5 = Some r /\
    body (SW.createMediaResponse [10; 20; 30; 40; 50] (Some "video/mp4") (Some r)) =
      BodyBytes (take (Z.to_nat (end_ r - start r + 1))
                      (drop (Z.to_nat (start r)) [10; 20; 30; 40; 50])).
Proof.
  split; [simpl; lia|]. split; [reflexivity|].
  destruct (range_request_served_within_bounds
              [10; 20; 30; 40; 50] (Some "video/mp4") "1-3")
    as [r (Hr & _ & _ & _ & _ & _ & _ & _ & Hbody & _)];
    [simpl; lia | reflexivity |].
  exists r. split; [exact Hr | exact Hbody].
Defined.

(** C10.  For every file size [L >= 1], [parseRangeHeader('bytes=0-0', L)]
    is [{start: 0, end: L-1}], the same as for [bytes=0-] with its end
    missing: the explicit end [0] is falsy and gives way to the last byte.
    The response built for it from a media file of [L] bytes carries the
    whole file, not its first byte. *)
Theorem explicit_zero_end_means_last_byte
    (u : list Z) (contentType : option string) (L : Z) :
  1 <= L ->
  SW.parseRangeHeader (Some "bytes=0-0") L = Some {| start := 0; end_ := L - 1 |} /\
  SW.parseRangeHeader (Some "bytes=0-0") L = SW.parseRangeHeader (Some "bytes=0-") L /\
  (L = Z.of_nat (length u) -> SW.isMediaFile contentType = true ->
   body (SW.createMediaResponse u contentType
           (SW.parseRangeHeader (Some "bytes=0-0") L)) = BodyBytes u /\
   getHeader "Content-Length"
     (headers (SW.createMediaResponse u contentType
                 (SW.parseRangeHeader (Some "bytes=0-0") L))) =
     Some (JsNumber.toString L)).
Proof.
  intros HL.
  assert (H0 : SW.parseRangeHeader (Some "bytes=0-0") L =
               Some {| start := 0; end_ := L - 1 |}).
  { change (Some {| start := Z.max 0 (Z.min 0 (L - 1));
                    end_ := Z.max (Z.max 0 (Z.min 0 (L - 1)))
                                  (Z.min (L - 1) (L - 1)) |} =
            Some {| start := 0; end_ := L - 1 |}).
    do 2 f_equal; lia. }
  split; [exact H0|]. split; [reflexivity|].
  intros -> Hmedia. rewrite H0. unfold SW.createMediaResponse. rewrite Hmedia.
  simpl. split.
  - f_equal. destruct (slice_inside u 0 (Z.of_nat (length u) - 1)) as [-> _];
      [lia..|].
    rewrite drop_0. apply firstn_all2. lia.
  - do 2 f_equal. lia.
Qed.

Lemma explicit_zero_end_means_last_byte_witness :
  1 <= 3 /\
  SW.parseRangeHeader (Some "bytes=0-0") 3 = Some {| start := 0; end_ := 3 - 1 |}.
Proof.
  split; [lia|].
  exact (proj1 (explicit_zero_end_means_last_byte [7; 8; 9] (Some "audio/ogg") 3
                  ltac:(lia))).
Defined.

(** ** The pending-request table *)

Section PendingTable.

Implicit Types (st : SW.State) (requestId : string) (e : SW.Event).

Lemma response_for_unknown_request st requestId url data contentType :
  SW.pendingRequests st !! requestId = None ->
  SW.handleResourceResponse st requestId url data contentType = (st, []).
Proof. intros H. unfold SW.handleResourceResponse. by rewrite H. Qed.

Lemma response_removes st requestId url data contentType :
  SW.pendingRequests
    (SW.handleResourceResponse st requestId url data contentType).1
    !! requestId = None.
Proof.
  unfold SW.handleResourceResponse.
  destruct (SW.pendingRequests st !! requestId) as [p|] eqn:H; [|done].
  destruct data as [d|]; [|apply lookup_delete_eq].
  destruct (0 <? _); [|apply lookup_delete_eq].
  destruct (_ && _); apply lookup_delete_eq.
Qed.

Lemma timeout_removes st callback :
  SW.pendingRequests (SW.onTimeout st callback).1
    !! SW.timer_requestId callback = None.
Proof.
  unfold SW.onTimeout.
  destruct (SW.pendingRequests st !! _) eqn:H; [apply lookup_delete_eq | done].
Qed.

(** A request that is not in the table stays out of it through any turn
    that does not store it *)
Lemma step_keeps_absent st e requestId :
  ~ SW.creates requestId e ->
  SW.pendingRequests st !! requestId = None ->
  SW.pendingRequests (SW.step st e).1 !! requestId = None.
Proof.
  intros Hfresh Habs.
  assert (Hdel : forall k, delete k (SW.pendingRequests st) !! requestId = None).
  { intros k. rewrite lookup_delete. by case_decide. }
  destruct e as [m| rid now promise u f r | clients rid promise u f r
                | rid promise f | callback]; simpl.
  - destruct m as [|h|h n l| |rid u d ct|rid c a b t|]; simpl; try done.
    + unfold SW.handleResourceResponse.
      destruct (SW.pendingRequests st !! rid); [|done].
      destruct d as [d|]; [|apply Hdel].
      destruct (0 <? _); [|apply Hdel].
      destruct (_ && _); apply Hdel.
    + unfold SW.handleMediaChunkResponse.
      destruct (SW.pendingRequests st !! rid); [|done].
      destruct c as [c|]; [|apply Hdel].
      destruct (0 <? _); apply Hdel.
  - simpl in Hfresh. by rewrite lookup_insert_ne.
  - unfold SW.onClientsMatched.
    destruct (filter _ clients); [|done].
    destruct clients; [apply Hdel | done].
  - apply Hdel.
  - unfold SW.onTimeout.
    destruct (SW.pendingRequests st !! SW.timer_requestId callback);
      [apply Hdel | done].
Qed.

Lemma run_keeps_absent (events : list SW.Event) st requestId :
  Forall (fun e => ~ SW.creates requestId e) events ->
  SW.pendingRequests st !! requestId = None ->
  SW.pendingRequests (SW.run st events) !! requestId = None.
Proof.
  intros Hev. revert st.
  induction Hev as [|e events He _ IH]; intros st Habs; [done|].
  apply IH. by apply step_keeps_absent.
Qed.

Lemma removal_removes st e requestId :
  SW.removes requestId e ->
  SW.pendingRequests (SW.step st e).1 !! requestId = None.
Proof.
  destruct e as [m| | | |callback]; try done.
  - destruct m; try done. simpl. intros ->. apply response_removes.
  - simpl. intros <-. apply timeout_removes.
Qed.

End PendingTable.

(** C1.  Once the entry of [requestId] has been taken out of the
    pending-request table, by a RESOURCE_RESPONSE that resolved it or by its
    round-trip timer, and whatever the worker has done since short of
    storing a request under that identifier again, a RESOURCE_RESPONSE
    bearing [requestId] does nothing: no promise is resolved, nothing is
    deleted, and the table and the media cache (the whole state) are as
    before. *)
Theorem late_response_is_dropped
    (st : SW.State) (removal : SW.Event) (since : list SW.Event)
    (requestId url : string) (data : option (list Z)) (contentType : option string) :
  SW.removes requestId removal ->
  Forall (fun e => ~ SW.creates requestId e) since ->
  let st' := SW.run (SW.step st removal).1 since in
  SW.pendingRequests st' !! requestId = None /\
  SW.onMessage st' (SW.RESOURCE_RESPONSE requestId url data contentType) = (st', []).
Proof.
  intros Hrem Hsince st'.
  assert (Habs : SW.pendingRequests st' !! requestId = None).
  { apply run_keeps_absent; [done|]. by apply removal_removes. }
  split; [done|]. by apply response_for_unknown_request.
Qed.

Lemma late_response_is_dropped_witness :
  let pending := {| SW.resolve := 1%nat; SW.timestamp := 1700000000000;
                    SW.range := None |} in
  let st := SW.setPending SW.initialState {["req_1" := pending]} in
  let removal := SW.TimerFired {| SW.timer_requestId := "req_1";
                                  SW.timer_resolve := 1%nat;
                                  SW.timer_filePath := "index.html" |} in
  let since := [SW.Incoming (SW.SITE_READY (Some "abc") 1 (Some ["index.html"]));
                SW.NewRequest "req_2" 1700000000500 2%nat
                  "https://peerweb.example/peerweb-site/abc/a.css" "a.css" None] in
  SW.removes "req_1" removal /\
  Forall (fun e => ~ SW.creates "req_1" e) since /\
  SW.onMessage (SW.run (SW.step st removal).1 since)
    (SW.RESOURCE_RESPONSE "req_1" "https://peerweb.example/peerweb-site/abc/"
       (Some [60; 104; 49; 62]) (Some "text/html")) =
  (SW.run (SW.step st removal).1 since, []).
Proof.
  intros pending st removal since.
  assert (Hrem : SW.removes "req_1" removal) by reflexivity.
  assert (Hsince : Forall (fun e => ~ SW.creates "req_1" e) since).
  { repeat constructor; simpl; [tauto | discriminate]. }
  split; [exact Hrem|]. split; [exact Hsince|].
  exact (proj2 (late_response_is_dropped st removal since "req_1"
                  "https://peerweb.example/peerweb-site/abc/"
                  (Some [60; 104; 49; 62]) (Some "text/html") Hrem Hsince)).
Defined.

(** ** The request handler *)

Section RequestHandler.

Implicit Types (st afterWait : SW.State) (req : SW.Request).

(** With a site set and a well-formed virtual URL, the handler is
    [handleReady] on the state of entry *)
Lemma handlePeerWebRequest_ready st afterWait req (hash : string) (rest : list string) :
  JsString.truthy (SW.currentSiteHash st) = true ->
  SW.pathPartsOf (SW.url_pathname req) = "peerweb-site" :: hash :: rest ->
  SW.handlePeerWebRequest st afterWait req =
    SW.handleReady st req hash (JsString.join "/" rest).
Proof.
  intros Hready Hparts. unfold SW.handlePeerWebRequest.
  by rewrite Hparts, Hready.
Qed.

Lemma handleReady_mismatch st req (hash filePath : string) :
  Some hash <> SW.currentSiteHash st ->
  SW.handleReady st req hash filePath =
    SW.Respond (SW.wrongSite (SW.currentSiteHash st) hash).
Proof.
  intros Hne. unfold SW.handleReady. by rewrite bool_decide_eq_false_2.
Qed.

Lemma handleReady_match_miss st req (hash filePath : string) :
  Some hash = SW.currentSiteHash st ->
  SW.mediaCache st !! SW.request_url req = None ->
  SW.handleReady st req hash filePath =
    SW.RequestResource (SW.request_url req)
      (SW.normalizeFilePath (SW.currentSiteFiles st) filePath
         (SW.url_search req) (SW.url_hash req))
      None.
Proof.
  intros Heq Hmiss. unfold SW.handleReady.
  by rewrite bool_decide_eq_true_2, Hmiss.
Qed.

Lemma handleReady_match_hit st req (hash filePath : string) (cached : SW.MediaEntry) :
  Some hash = SW.currentSiteHash st ->
  SW.mediaCache st !! SW.request_url req = Some cached ->
  exists range,
    SW.handleReady st req hash filePath =
      SW.Respond (SW.createMediaResponse (SW.media_data cached)
                    (SW.media_contentType cached) range).
Proof.
  intros Heq Hhit. unfold SW.handleReady.
  rewrite bool_decide_eq_true_2, Hhit by done. simpl.
  destruct (JsString.truthy (SW.header_Range req)); [|by exists None].
  destruct (SW.parseRangeHeader _ _) as [range|]; [by exists (Some range) | by exists None].
Qed.

End RequestHandler.

(** C3, as the code has it.  With the site [h] ready, a site-scoped request
    is taken to be for that site exactly when its identifier segment is [h]
    itself, code unit for code unit: it is then served from the media cache
    or sent to the page for resolution.  Any other segment, one that differs
    from [h] in letter case only included, is answered with the 404 "wrong
    site loaded" response. *)
Theorem site_identifier_is_compared_exactly
    (st afterWait : SW.State) (req : SW.Request) (h hash : string)
    (rest : list string) :
  SW.currentSiteHash st = Some h ->
  JsString.truthy (Some h) = true ->
  SW.pathPartsOf (SW.url_pathname req) = "peerweb-site" :: hash :: rest ->
  (hash <> h ->
   SW.handlePeerWebRequest st afterWait req = SW.Respond (SW.wrongSite (Some h) hash) /\
   status (SW.wrongSite (Some h) hash) = 404) /\
  (hash = h ->
   match SW.mediaCache st !! SW.request_url req with
   | Some cached =>
       exists range,
         SW.handlePeerWebRequest st afterWait req =
           SW.Respond (SW.createMediaResponse (SW.media_data cached)
                         (SW.media_contentType cached) range)
   | None =>
       SW.handlePeerWebRequest st afterWait req =
         SW.RequestResource (SW.request_url req)
           (SW.normalizeFilePath (SW.currentSiteFiles st) (JsString.join "/" rest)
              (SW.url_search req) (SW.url_hash req))
           None
   end).
Proof.
  intros Hcur Hh Hparts.
  rewrite (handlePeerWebRequest_ready st afterWait req hash rest)
    by (by rewrite Hcur || done).
  split.
  - intros Hne. split; [|done].
    rewrite handleReady_mismatch; rewrite Hcur; [done | congruence].
  - intros ->. destruct (SW.mediaCache st !! SW.request_url req) as [cached|] eqn:Hc.
    + by apply handleReady_match_hit.
    + by apply handleReady_match_miss.
Qed.

Lemma site_identifier_is_compared_exactly_witness :
  let req := {| SW.request_url :=
                  "https://peerweb.example/peerweb-site/abcdef0123456789abcdef0123456789abcdef01/style.css";
                SW.url_pathname :=
                  "/peerweb-site/abcdef0123456789abcdef0123456789abcdef01/style.css";
                SW.url_search := ""; SW.url_hash := "";
                SW.header_Range := None |} in
  SW.currentSiteHash exampleReadyState = Some exampleHash /\
  JsString.truthy (Some exampleHash) = true /\
  SW.pathPartsOf (SW.url_pathname req) = ["peerweb-site"; exampleHash; "style.css"] /\
  SW.handlePeerWebRequest exampleReadyState SW.initialState req =
    SW.RequestResource (SW.request_url req) "style.css" None.
Proof.
  intros req.
  assert (Hparts : SW.pathPartsOf (SW.url_pathname req) =
                   ["peerweb-site"; exampleHash; "style.css"]) by reflexivity.
  split; [reflexivity|]. split; [reflexivity|]. split; [exact Hparts|].
  exact (proj2 (site_identifier_is_compared_exactly exampleReadyState SW.initialState
                  req exampleHash exampleHash ["style.css"]
                  eq_refl eq_refl Hparts) eq_refl).
Defined.

(** C3 fails as stated: the ready identifier is the canonical lower-case
    form of a valid 40-digit hash, the request names it in upper case, and
    the answer is the 404 "wrong site loaded". *)
Lemma uppercase_identifier_is_rejected :
  let upper := "ABCDEF0123456789ABCDEF0123456789ABCDEF01" in
  let req := {| SW.request_url :=
                  "https://peerweb.example/peerweb-site/ABCDEF0123456789ABCDEF0123456789ABCDEF01/index.html";
                SW.url_pathname :=
                  "/peerweb-site/ABCDEF0123456789ABCDEF0123456789ABCDEF01/index.html";
                SW.url_search := ""; SW.url_hash := "";
                SW.header_Range := None |} in
  PeerWeb.isValidTorrentHash (Some exampleHash) = true /\
  PeerWeb.sanitizeHash (Some exampleHash) = exampleHash /\
  SW.currentSiteHash exampleReadyState = Some exampleHash /\
  JsString.toLowerCase upper = exampleHash /\
  upper = JsString.toUpperCase exampleHash /\
  SW.handlePeerWebRequest exampleReadyState exampleReadyState req =
    SW.Respond
      {| status := 404; statusText := "";
         headers := [("Content-Type", "text/plain")];
         body := BodyText
           "Wrong site loaded. Expected: abcdef0123456789abcdef0123456789abcdef01, Got: ABCDEF0123456789ABCDEF0123456789ABCDEF01" |}.
Proof. repeat split; reflexivity. Qed.

(** C9, as the code has it.  A site-scoped request for the ready site that
    misses the media cache is forwarded with the range [null], whether or
    not it carries a Range header: the header is read and logged, not
    parsed.  The entry stored in the pending-request table before the page
    is messaged has [range = null], and every RESOURCE_REQUEST message
    posted for it carries the identifier of that entry and the same range,
    [null]. *)
Theorem range_header_is_not_forwarded
    (st afterWait : SW.State) (req : SW.Request) (hash : string) (rest : list string)
    (requestId : string) (now : Z) (promise : nat) (clients : list string) :
  JsString.truthy (SW.currentSiteHash st) = true ->
  SW.pathPartsOf (SW.url_pathname req) = "peerweb-site" :: hash :: rest ->
  Some hash = SW.currentSiteHash st ->
  SW.mediaCache st !! SW.request_url req = None ->
  exists filePath,
    SW.handlePeerWebRequest st afterWait req =
      SW.RequestResource (SW.request_url req) filePath None /\
    let stored :=
      SW.requestResourceFromMainThread st requestId now promise
        (SW.request_url req) filePath None in
    SW.pendingRequests stored.1 !! requestId =
      Some {| SW.resolve := promise; SW.timestamp := now; SW.range := None |} /\
    forall client message,
      In (SW.PostMessage client message)
         (SW.onClientsMatched stored.1 clients requestId promise
            (SW.request_url req) filePath None).2 ->
      SW.msg_requestId message = requestId /\ SW.msg_range message = None.
Proof.
  intros Hready Hparts Hhash Hmiss.
  eexists. split.
  - rewrite (handlePeerWebRequest_ready st afterWait req hash rest) by done.
    by apply handleReady_match_miss.
  - simpl. split; [apply lookup_insert_eq|].
    intros client message. unfold SW.onClientsMatched.
    destruct (filter _ clients) as [|mainClient ?].
    + destruct clients as [|c ?]; simpl.
      * intros [H|[]]. discriminate H.
      * intros [[= _ <-]|[]]. done.
    + simpl. intros [[= _ <-]|[]]. done.
Qed.

Lemma range_header_is_not_forwarded_witness :
  JsString.truthy (SW.currentSiteHash exampleReadyState) = true /\
  SW.pathPartsOf (SW.url_pathname exampleRangeRequest) =
    ["peerweb-site"; exampleHash; "movie.mp4"] /\
  Some exampleHash = SW.currentSiteHash exampleReadyState /\
  SW.mediaCache exampleReadyState !! SW.request_url exampleRangeRequest = None /\
  exists filePath,
    SW.handlePeerWebRequest exampleReadyState SW.initialState exampleRangeRequest =
      SW.RequestResource (SW.request_url exampleRangeRequest) filePath None.
Proof.
  assert (Hparts : SW.pathPartsOf (SW.url_pathname exampleRangeRequest) =
                   ["peerweb-site"; exampleHash; "movie.mp4"]) by reflexivity.
  split; [reflexivity|]. split; [exact Hparts|]. split; [reflexivity|].
  split; [reflexivity|].
  destruct (range_header_is_not_forwarded exampleReadyState SW.initialState
              exampleRangeRequest exampleHash ["movie.mp4"] "req_1" 1700000000000
              1%nat ["https://peerweb.example/"] eq_refl Hparts eq_refl eq_refl)
    as [filePath [H _]].
  by exists filePath.
Defined.

(** C9 fails as stated: the request carries [Range: bytes=0-99] and misses
    the cache; the entry stored for it and the message posted to the page
    both have the range [null]. *)
Lemma range_header_is_dropped_on_cache_miss :
  let handling :=
    SW.handlePeerWebRequest exampleReadyState exampleReadyState exampleRangeRequest in
  let stored :=
    SW.requestResourceFromMainThread exampleReadyState "req_1" 1700000000000 1%nat
      (SW.request_url exampleRangeRequest) "movie.mp4" None in
  SW.header_Range exampleRangeRequest = Some "bytes=0-99" /\
  SW.mediaCache exampleReadyState !! SW.request_url exampleRangeRequest = None /\
  handling = SW.RequestResource (SW.request_url exampleRangeRequest) "movie.mp4" None /\
  SW.range <$> (SW.pendingRequests stored.1 !! "req_1") = Some None /\
  (SW.onClientsMatched stored.1 ["https://peerweb.example/"] "req_1" 1%nat
     (SW.request_url exampleRangeRequest) "movie.mp4" None).2 =
    [SW.PostMessage "https://peerweb.example/"
       {| SW.msg_url := SW.request_url exampleRangeRequest;
          SW.msg_filePath := "movie.mp4";
          SW.msg_requestId := "req_1";
          SW.msg_range := None |}].
Proof.
  intros handling stored.
  split; [reflexivity|]. split; [reflexivity|]. split; [reflexivity|].
  split; [|reflexivity].
  subst stored. simpl. by rewrite lookup_insert_eq.
Qed.

(** ** The round-trip timeout *)

(** C8 at its failing inputs.  The timer is armed for 10000 ms exactly when
    [isMediaFile], the content-type test, accepts the file path, that is
    when the path begins with [video/] or [audio/] or is [image/gif]; for
    [movie.mp4] and [song.mp3], which the page's file-name test
    [isMediaFile] classifies as media, it is armed for 5000 ms. *)
Theorem timeout_is_chosen_by_the_content_type_test
    (st : SW.State) (requestId : string) (now : Z) (promise : nat)
    (requestUrl filePath : string) (range : option Range) :
  (SW.requestResourceFromMainThread st requestId now promise requestUrl filePath range).2 =
    [SW.SetTimeout {| SW.timer_requestId := requestId; SW.timer_resolve := promise;
                      SW.timer_filePath := filePath |}
       (if JsString.startsWith filePath "video/" || JsString.startsWith filePath "audio/" ||
           String.eqb filePath "image/gif"
        then 10000 else 5000)] /\
  (SW.requestResourceFromMainThread st requestId now promise requestUrl "movie.mp4" range).2 =
    [SW.SetTimeout {| SW.timer_requestId := requestId; SW.timer_resolve := promise;
                      SW.timer_filePath := "movie.mp4" |} 5000] /\
  (SW.requestResourceFromMainThread st requestId now promise requestUrl "song.mp3" range).2 =
    [SW.SetTimeout {| SW.timer_requestId := requestId; SW.timer_resolve := promise;
                      SW.timer_filePath := "song.mp3" |} 5000] /\
  PeerWeb.isMediaFile "movie.mp4" = true /\
  PeerWeb.isMediaFile "song.mp3" = true /\
  (SW.requestResourceFromMainThread st requestId now promise requestUrl
     "video/readme.txt" range).2 =
    [SW.SetTimeout {| SW.timer_requestId := requestId; SW.timer_resolve := promise;
                      SW.timer_filePath := "video/readme.txt" |} 10000].
Proof.
  repeat split; try reflexivity.
  unfold SW.requestResourceFromMainThread, SW.isMediaFile. simpl.
  destruct filePath; reflexivity.
Qed.

(** ** The early-processing decision *)

(** C4, as the code has it.  The early-processing decision is [true]
    exactly when overall completion is at least 0.95, or the torrent has an
    index file ([index.html] at the top or in any directory) and the
    fraction of its files that are individually at least 90% complete is at
    least 0.8.  In particular a torrent that has an index file, overall
    progress 0.85 and a ratio of 0.82 is processed early, and not by the
    overall threshold. *)
Theorem early_processing_decision (torrent : PeerWeb.Torrent) :
  (PeerWeb.shouldProcessSiteEarly torrent = true <->
   PeerWeb.ge (PeerWeb.torrent_progress torrent) 0.95%float = true \/
   (is_Some (PeerWeb.findIndexFile (PeerWeb.torrent_files torrent)) /\
    PeerWeb.ge (PeerWeb.availabilityRatio torrent) 0.8%float = true)) /\
  (PeerWeb.torrent_progress torrent = 0.85%float ->
   PeerWeb.availabilityRatio torrent = 0.82%float ->
   is_Some (PeerWeb.findIndexFile (PeerWeb.torrent_files torrent)) ->
   PeerWeb.shouldProcessSiteEarly torrent = true /\
   PeerWeb.ge (PeerWeb.torrent_progress torrent) 0.95%float = false /\
   PeerWeb.hasEssentialFiles torrent = true).
Proof.
  assert (Hiff : PeerWeb.shouldProcessSiteEarly torrent = true <->
    PeerWeb.ge (PeerWeb.torrent_progress torrent) 0.95%float = true \/
    (is_Some (PeerWeb.findIndexFile (PeerWeb.torrent_files torrent)) /\
     PeerWeb.ge (PeerWeb.availabilityRatio torrent) 0.8%float = true)).
  { unfold PeerWeb.shouldProcessSiteEarly, PeerWeb.hasEssentialFiles.
    change PeerWeb.CONFIG.EARLY_PROCESS_THRESHOLD with 0.95%float.
    change PeerWeb.CONFIG.ESSENTIAL_FILES_THRESHOLD with 0.8%float.
    destruct (PeerWeb.ge (PeerWeb.torrent_progress torrent) 0.95); [tauto|].
    destruct (decide (is_Some (PeerWeb.findIndexFile (PeerWeb.torrent_files torrent))))
      as [Hi|Hi].
    - rewrite (bool_decide_eq_true_2 _ Hi). simpl.
      destruct (PeerWeb.ge (PeerWeb.availabilityRatio torrent) 0.8); intuition congruence.
    - rewrite (bool_decide_eq_false_2 _ Hi). simpl. intuition congruence. }
  split; [exact Hiff|].
  intros Hp Hr Hi.
  assert (Hess : PeerWeb.hasEssentialFiles torrent = true).
  { unfold PeerWeb.hasEssentialFiles. rewrite Hr. reflexivity. }
  split; [|split; [by rewrite Hp | exact Hess]].
  apply Hiff. right. split; [exact Hi|]. by rewrite Hr.
Qed.

Lemma early_processing_decision_witness :
  let torrent := {| PeerWeb.torrent_progress := 0.85%float;
                    PeerWeb.torrent_files := fiftyFiles "index.html" |} in
  PeerWeb.torrent_progress torrent = 0.85%float /\
  PeerWeb.availabilityRatio torrent = 0.82%float /\
  is_Some (PeerWeb.findIndexFile (PeerWeb.torrent_files torrent)) /\
  PeerWeb.shouldProcessSiteEarly torrent = true.
Proof.
  intros torrent.
  assert (Hr : PeerWeb.availabilityRatio torrent = 0.82%float) by reflexivity.
  assert (Hi : is_Some (PeerWeb.findIndexFile (PeerWeb.torrent_files torrent)))
    by (eexists; reflexivity).
  split; [reflexivity|]. split; [exact Hr|]. split; [exact Hi|].
  exact (proj1 (proj2 (early_processing_decision torrent) eq_refl Hr Hi)).
Defined.

(** C4 fails as stated: overall progress 0.85 and a ratio of 0.82, well
    above 0.8, but no index file among the files; the decision is [false]. *)
Lemma no_early_processing_without_index_file :
  let torrent := {| PeerWeb.torrent_progress := 0.85%float;
                    PeerWeb.torrent_files := fiftyFiles "home.html" |} in
  PeerWeb.availabilityRatio torrent = 0.82%float /\
  PeerWeb.ge (PeerWeb.availabilityRatio torrent) 0.8%float = true /\
  PeerWeb.findIndexFile (PeerWeb.torrent_files torrent) = None /\
  PeerWeb.shouldProcessSiteEarly torrent = false.
Proof. repeat split; reflexivity. Qed.

(** ** Thresholds of early materialization *)

Section Suffixes.

(** Two ways of cutting one string into a head and a tail: the shorter tail
    is a tail of the longer one *)
Lemma tails_nest (p p' t t' : string) :
  p +:+ t = p' +:+ t' ->
  (String.length t <= String.length t')%nat ->
  exists q, t' = q +:+ t.
Proof.
  revert p. induction p' as [|c p' IH]; intros p Heq Hlen.
  - exists p. by simpl in Heq.
  - destruct p as [|c0 p]; simpl in Heq.
    + apply (f_equal String.length) in Heq. simpl in Heq.
      rewrite length_app in Heq. lia.
    + injection Heq as _ Heq. by apply (IH p).
Qed.

Lemma endsWith_both (s t t' : string) :
  JsString.endsWith s t = true -> JsString.endsWith s t' = true ->
  (String.length t <= String.length t')%nat ->
  exists q, t' = q +:+ t.
Proof.
  intros [p ->]%endsWith_spec [p' Hp']%endsWith_spec Hlen.
  by apply (tails_nest p p').
Qed.

(** No name ends both with [.js] and with another of the extensions that
    the loop looks at *)
Lemma js_is_no_other_extension (s ext : string) :
  JsString.endsWith s ".js" = true ->
  ext = ".css" \/ In ext PeerWeb.mediaExtensions ->
  JsString.endsWith s ext = false.
Proof.
  intros Hjs Hext. destruct (JsString.endsWith s ext) eqn:E; [|done].
  exfalso.
  assert (Hlen : (String.length ".js" <= String.length ext)%nat).
  { destruct Hext as [->|Hin]; [simpl; lia|].
    simpl in Hin. repeat (destruct Hin as [<-|Hin]; [simpl; lia|]). done. }
  destruct (endsWith_both s ".js" ext Hjs E Hlen) as [q Hq].
  destruct Hext as [->|Hin].
  - repeat (destruct q; simpl in Hq; try discriminate Hq).
  - simpl in Hin.
    repeat (destruct Hin as [<-|Hin];
            [repeat (destruct q; simpl in Hq; try discriminate Hq)|]).
    done.
Qed.

Lemma js_is_not_media (name : string) :
  JsString.endsWith (JsString.toLowerCase name) ".js" = true ->
  PeerWeb.isMediaFile name = false.
Proof.
  intros Hjs. unfold PeerWeb.isMediaFile.
  apply not_true_is_false. intros [ext [Hin Hext]]%existsb_exists.
  rewrite (js_is_no_other_extension _ ext Hjs) in Hext; [done | by right].
Qed.

End Suffixes.

(** C5, as the code has it.  The progress that the loop of early
    materialization requires of a file before reading it is 0.9 when the
    lower-cased name contains [index.html] or ends with [.css], else 0.7
    when the name has a media extension, else 0.8; a [.js] file whose name
    does not contain [index.html] is among the last, at 0.8.  A media file
    below its threshold is read all the same; any other file below its
    threshold is passed over, leaving the pass as it was (not counted as
    failed); a file at or above its threshold is read. *)
Theorem early_materialization_thresholds
    (getFileBufferWithTimeout : PeerWeb.TorrentFile -> bool -> option (list Z))
    (getContentType : string -> string) (isTextFile : string -> bool)
    (pass : PeerWeb.Pass) (file : PeerWeb.TorrentFile) :
  let lower := JsString.toLowerCase (PeerWeb.file_name file) in
  let essential :=
    JsString.includes lower "index.html" || JsString.endsWith lower ".css" in
  let media := PeerWeb.isMediaFile (PeerWeb.file_name file) in
  let below := PeerWeb.lt (PeerWeb.file_progress file) (PeerWeb.requiredProgress file) in
  let read := PeerWeb.readAndStore getFileBufferWithTimeout getContentType isTextFile in
  let next := PeerWeb.processFile getFileBufferWithTimeout getContentType isTextFile in
  (essential = true -> PeerWeb.requiredProgress file = 0.9%float) /\
  (essential = false -> media = true -> PeerWeb.requiredProgress file = 0.7%float) /\
  (essential = false -> media = false -> PeerWeb.requiredProgress file = 0.8%float) /\
  (JsString.endsWith lower ".js" = true -> JsString.includes lower "index.html" = false ->
   PeerWeb.requiredProgress file = 0.8%float) /\
  (below = true -> media = true -> next pass file = read pass file) /\
  (below = true -> media = false ->
   next pass file = pass /\
   PeerWeb.failedFiles (next pass file) = PeerWeb.failedFiles pass) /\
  (below = false -> next pass file = read pass file).
Proof.
  intros lower essential media below read next.
  assert (Hreq : PeerWeb.requiredProgress file =
                 if essential then 0.9%float
                 else if media then 0.7%float else 0.8%float) by reflexivity.
  assert (Hnext : next pass file =
                  if below then (if media then read pass file else pass)
                  else read pass file) by reflexivity.
  split; [intros He; by rewrite Hreq, He|].
  split; [intros He Hm; by rewrite Hreq, He, Hm|].
  split; [intros He Hm; by rewrite Hreq, He, Hm|].
  split.
  { intros Hjs Hidx. rewrite Hreq. subst essential media.
    rewrite Hidx, (js_is_no_other_extension lower ".css" Hjs) by by left.
    by rewrite (js_is_not_media _ Hjs). }
  split; [intros Hb Hm; by rewrite Hnext, Hb, Hm|].
  split; [intros Hb Hm; by rewrite Hnext, Hb, Hm|].
  intros Hb. by rewrite Hnext, Hb.
Qed.

Lemma early_materialization_thresholds_witness :
  let read := fun (_ : PeerWeb.TorrentFile) (_ : bool) => Some [1; 2; 3] in
  let pass := {| PeerWeb.siteData := []; PeerWeb.processedFiles := 0;
                 PeerWeb.failedFiles := 0 |} in
  let css := {| PeerWeb.file_name := "css/style.css"; PeerWeb.file_length := 2048;
                PeerWeb.file_progress := 0.85%float |} in
  let clip := {| PeerWeb.file_name := "media/clip.mp4"; PeerWeb.file_length := 9000000;
                 PeerWeb.file_progress := 0.25%float |} in
  PeerWeb.requiredProgress css = 0.9%float /\
  PeerWeb.processFile read (fun _ => "text/css") (fun _ => true) pass css = pass /\
  PeerWeb.requiredProgress clip = 0.7%float /\
  PeerWeb.processFile read (fun _ => "video/mp4") (fun _ => false) pass clip =
    PeerWeb.readAndStore read (fun _ => "video/mp4") (fun _ => false) pass clip.
Proof.
  intros read pass css clip.
  pose proof (early_materialization_thresholds read (fun _ => "text/css")
                (fun _ => true) pass css) as (Hcss & _ & _ & _ & _ & Hskip & _).
  pose proof (early_materialization_thresholds read (fun _ => "video/mp4")
                (fun _ => false) pass clip) as (_ & Hclip & _ & _ & Hread & _).
  split; [exact (Hcss eq_refl)|].
  split; [exact (proj1 (Hskip eq_refl eq_refl))|].
  split; [exact (Hclip eq_refl eq_refl)|].
  exact (Hread eq_refl eq_refl).
Defined.

(** C5 fails as stated: [app.js], which the ordering of the same pass
    counts as essential, is 85% complete; the loop requires 0.8 of it, not
    0.9, and reads it instead of passing it over. *)
Lemma js_file_is_held_to_the_regular_threshold :
  let file := {| PeerWeb.file_name := "app.js"; PeerWeb.file_length := 1024;
                 PeerWeb.file_progress := 0.85%float |} in
  let read := fun (_ : PeerWeb.TorrentFile) (_ : bool) => Some [47; 47] in
  let pass := {| PeerWeb.siteData := []; PeerWeb.processedFiles := 0;
                 PeerWeb.failedFiles := 0 |} in
  PeerWeb.isEssentialForOrder file = true /\
  PeerWeb.isMediaFile (PeerWeb.file_name file) = false /\
  PeerWeb.requiredProgress file = 0.8%float /\
  PeerWeb.requiredProgress file <> 0.9%float /\
  PeerWeb.lt (PeerWeb.file_progress file) 0.9%float = true /\
  PeerWeb.processFile read (fun _ => "application/javascript") (fun _ => true) pass file =
    {| PeerWeb.siteData :=
         [("app.js", {| PeerWeb.content := [47; 47];
                        PeerWeb.type := "application/javascript";
                        PeerWeb.isText := true; PeerWeb.isMedia := false;
                        PeerWeb.size := 2 |})];
       PeerWeb.processedFiles := 1;
       PeerWeb.failedFiles := 0 |}.
Proof.
  repeat split; try reflexivity.
  intros H. apply (f_equal (fun x => PrimFloat.eqb x 0.8%float)) in H.
  vm_compute in H. discriminate H.
Qed.

(** ** Path normalization *)

Section Normalization.

Lemma endsWith_behind (p q t : string) :
  (String.length t <= String.length q)%nat ->
  JsString.endsWith (p +:+ q) t = JsString.endsWith q t.
Proof.
  intros Hlen. apply eq_true_iff_eq. rewrite !endsWith_spec. split.
  - intros [p' Hp']. by apply (tails_nest p' p).
  - intros [r ->]. clear Hlen. induction p as [|c p [p' IH]]; simpl.
    + by exists r.
    + exists (String c p'). simpl. by rewrite IH.
Qed.

Lemma split_head_cons (sep c : ascii) (s : string) :
  Ascii.eqb c sep = false ->
  default "" (JsString.split sep (String c s) !! 0%nat) =
    String c (default "" (JsString.split sep s !! 0%nat)).
Proof.
  intros Hc. simpl. rewrite Hc. by destruct (JsString.split sep s).
Qed.

Lemma withoutQueryAndFragment_dot_slash (q : string) :
  SW.withoutQueryAndFragment ("./" +:+ q) = "./" +:+ SW.withoutQueryAndFragment q.
Proof.
  unfold SW.withoutQueryAndFragment. simpl String.append.
  by rewrite !split_head_cons.
Qed.

Lemma longer_is_different (q : string) : "./" +:+ q <> q.
Proof. intros H. apply (f_equal String.length) in H. simpl in H. lia. Qed.

Lemma includes_first (c : ascii) (s : string) :
  JsString.includes (String c s) "." = false -> c <> "."%char.
Proof.
  simpl. intros [H _]%orb_false_iff ->. done.
Qed.

End Normalization.

(** C6, as the code has it.  [normalizeFilePath] does not strip a leading
    [./]: for every path [./q] the result begins with [./] and is never the
    result for [q] (same known-file set, same URL).  When [q] is empty, ends
    with [/] or contains a dot, the result for [./q] is [./] followed by the
    result for [q]. *)
Theorem leading_dot_slash_is_kept
    (files : gset string) (q search hash : string) :
  let normalize := fun p => SW.normalizeFilePath files p search hash in
  JsString.startsWith (normalize ("./" +:+ q)) "./" = true /\
  normalize ("./" +:+ q) <> normalize q /\
  (q = "" \/ JsString.endsWith q "/" = true \/ JsString.includes q "." = true ->
   normalize ("./" +:+ q) = "./" +:+ normalize q).
Proof.
  intros normalize. subst normalize. cbv beta.
  destruct q as [|c q]; [by repeat split|].
  set (q' := String c q).
  assert (Hends : JsString.endsWith ("./" +:+ q') "/" = JsString.endsWith q' "/")
    by (apply (endsWith_behind "./" q' "/"); simpl; lia).
  assert (Hp : SW.normalizeFilePath files ("./" +:+ q') search hash =
               if JsString.endsWith q' "/" then "./" +:+ q' +:+ "index.html"
               else "./" +:+
                    (if JsString.truthy (Some search) || JsString.truthy (Some hash)
                     then SW.withoutQueryAndFragment q' else q')).
  { unfold SW.normalizeFilePath. rewrite Hends.
    change (String.eqb ("./" +:+ q') "") with false.
    change (JsString.includes ("./" +:+ q') ".") with true. cbv iota. simpl negb.
    cbv iota. rewrite withoutQueryAndFragment_dot_slash.
    destruct (JsString.endsWith q' "/"); [done|]. by destruct (_ || _). }
  assert (Hq : SW.normalizeFilePath files q' search hash =
               if JsString.endsWith q' "/" then q' +:+ "index.html"
               else if negb (JsString.includes q' ".") then
                 String c (if bool_decide (q' +:+ "/index.html" ∈ files)
                           then q +:+ "/index.html"
                           else if bool_decide (q' +:+ ".html" ∈ files)
                                then q +:+ ".html" else q +:+ "/index.html")
               else if JsString.truthy (Some search) || JsString.truthy (Some hash)
                    then SW.withoutQueryAndFragment q' else q').
  { unfold SW.normalizeFilePath. change (String.eqb q' "") with false. cbv iota.
    destruct (JsString.endsWith q' "/"); [done|].
    destruct (negb (JsString.includes q' ".")); [|done].
    by repeat case_bool_decide. }
  rewrite Hp, Hq. clear Hp Hq Hends.
  destruct (JsString.endsWith q' "/") eqn:Hslash.
  { split; [reflexivity|]. split; [apply longer_is_different | done]. }
  destruct (JsString.includes q' ".") eqn:Hdot; simpl negb; cbv iota.
  { split; [reflexivity|]. split; [apply longer_is_different | done]. }
  split; [reflexivity|]. split.
  - intros H. injection H as H _. by apply (includes_first c q).
  - intros [H|[H|H]]; discriminate H.
Qed.

Lemma leading_dot_slash_is_kept_witness :
  let files : gset string := list_to_set ["index.html"; "docs/index.html"] in
  JsString.endsWith "docs/" "/" = true /\
  SW.normalizeFilePath files "./docs/" "" "" =
    "./" +:+ SW.normalizeFilePath files "docs/" "" "".
Proof.
  intros files. split; [reflexivity|].
  apply (proj2 (proj2 (leading_dot_slash_is_kept files "docs/" "" ""))).
  right. left. reflexivity.
Defined.

(** C6 fails as stated: [./about.html] and [about.html] normalize to
    different paths, and so do [./] and the empty path. *)
Lemma dot_slash_changes_the_normalized_path :
  let files : gset string := list_to_set ["index.html"; "about.html"] in
  SW.normalizeFilePath files "./about.html" "" "" = "./about.html" /\
  SW.normalizeFilePath files "about.html" "" "" = "about.html" /\
  SW.normalizeFilePath files "./about.html" "" "" <>
    SW.normalizeFilePath files "about.html" "" "" /\
  SW.normalizeFilePath files "./" "" "" = "./index.html" /\
  SW.normalizeFilePath files "" "" "" = "index.html".
Proof. repeat split; try reflexivity. discriminate. Qed.

(** ** What the media cache holds *)

Section MediaCache.

Lemma step_keeps_cacheHoldsMedia (st : SW.State) (e : SW.Event) :
  cacheHoldsMedia st -> cacheHoldsMedia (SW.step st e).1.
Proof.
  unfold cacheHoldsMedia. intros Hinv.
  destruct e as [m| rid now promise u f r | clients rid promise u f r
                | rid promise f | callback]; simpl; try done.
  - destruct m as [|h|h n l| |rid u d ct|rid c a b t|]; simpl;
      try done; try apply map_Forall_empty.
    + unfold SW.handleResourceResponse.
      destruct (SW.pendingRequests st !! rid); [|done].
      destruct d as [d|]; [|done].
      destruct (0 <? _); [|done].
      destruct (SW.isMediaFile ct) eqn:Hct; [|done].
      destruct (1024 * 100 <? _) eqn:Hlen; [|done]. simpl.
      apply map_Forall_insert_2; [|done]. simpl.
      apply Z.ltb_lt in Hlen. done.
    + unfold SW.handleMediaChunkResponse.
      destruct (SW.pendingRequests st !! rid); [|done].
      destruct c as [c|]; [|done]. by destruct (0 <? _).
  - unfold SW.onClientsMatched.
    destruct (filter _ clients); [|done]. by destruct clients.
  - unfold SW.onTimeout.
    by destruct (SW.pendingRequests st !! SW.timer_requestId callback).
Qed.

Lemma run_keeps_cacheHoldsMedia (events : list SW.Event) (st : SW.State) :
  cacheHoldsMedia st -> cacheHoldsMedia (SW.run st events).
Proof.
  revert st. induction events as [|e events IH]; intros st Hinv; [done|].
  apply IH. by apply step_keeps_cacheHoldsMedia.
Qed.

(** X8.  Whatever the worker has been through, a request that hits the
    cache with a header [bytes=...] is answered with partial content, for a
    range inside the file *)
Lemma cache_hit_is_served_in_part
    (events : list SW.Event) (req : SW.Request) (hash filePath spec : string)
    (cached : SW.MediaEntry) :
  let st := SW.run SW.initialState events in
  Some hash = SW.currentSiteHash st ->
  SW.mediaCache st !! SW.request_url req = Some cached ->
  SW.header_Range req = Some ("bytes=" +:+ spec) ->
  exists r,
    SW.handleReady st req hash filePath =
      SW.Respond (SW.createMediaResponse (SW.media_data cached)
                    (SW.media_contentType cached) (Some r)) /\
    status (SW.createMediaResponse (SW.media_data cached)
              (SW.media_contentType cached) (Some r)) = 206 /\
    0 <= start r /\ start r <= end_ r /\
    end_ r <= Z.of_nat (length (SW.media_data cached)) - 1.
Proof.
  intros st Hhash Hhit Hrange.
  assert (Hinv : cacheHoldsMedia st).
  { apply run_keeps_cacheHoldsMedia. apply map_Forall_empty. }
  destruct (Hinv _ _ Hhit) as (Hmedia & Hlen & Hbig).
  assert (Hone : 1 <= SW.media_length cached) by lia.
  destruct (SW.parseRangeHeader (SW.header_Range req) (SW.media_length cached))
    as [r|] eqn:Hr; [|by rewrite Hrange, parseRangeHeader_bytes in Hr].
  exists r. split; [|split].
  - unfold SW.handleReady.
    rewrite bool_decide_eq_true_2, Hhit by done. simpl.
    by rewrite Hr, Hrange.
  - unfold SW.createMediaResponse. by rewrite Hmedia.
  - rewrite <- Hlen. apply (parseRangeHeader_bounds _ _ _ Hone Hr).
Qed.

End MediaCache.

(** ** File lookup in the Site Manager *)

Section LookupFacts.

Context {A : Type}.
Implicit Types (siteData : list (string * A)) (key : string).

Lemma getProperty_absent siteData key :
  ~ In key (PeerWeb.keys siteData) -> PeerWeb.getProperty siteData key = None.
Proof.
  induction siteData as [|[k v] rest IH]; simpl; [done|].
  intros Hnot. destruct (String.eqb_spec k key) as [->|Hne]; [tauto|].
  apply IH. tauto.
Qed.

Lemma find_none (p : string -> bool) (l : list string) :
  (forall x, In x l -> p x = false) -> PeerWeb.find p l = None.
Proof.
  induction l as [|x l IH]; simpl; [done|].
  intros H. rewrite (H x) by tauto. apply IH. intros y Hy. apply H. tauto.
Qed.

End LookupFacts.

(** C7, as the code has it.  For the lookup of [foo] the key [sub/foo.html]
    matches at no stage: it is not [foo], its last component is [foo.html],
    it does not end with [foo] and [foo] does not end with it.  So against a
    manifest whose other keys do not match either (none is [foo], has [foo]
    as last component, ends with [foo] or is a tail of [foo]), the manifest
    that holds [sub/foo.html] alone for one, the exact-match stage, the
    file-name stage and the ending stage all fail and the lookup returns
    [null]. *)
Theorem lookup_of_foo_does_not_find_sub_foo_html
    {A : Type} (siteData : list (string * A)) :
  (forall key, In key (PeerWeb.keys siteData) ->
     key = "sub/foo.html" \/
     (key <> "foo" /\
      JsString.pop (JsString.split "/" key) <> Some "foo" /\
      JsString.endsWith key "foo" = false /\
      JsString.endsWith "foo" key = false)) ->
  PeerWeb.exactMatch siteData "foo" (PeerWeb.cleanPathOf "foo") = None /\
  PeerWeb.filenameMatch siteData (PeerWeb.cleanPathOf "foo") = None /\
  PeerWeb.endingMatch siteData (PeerWeb.cleanPathOf "foo") = None /\
  PeerWeb.findFileInSiteData (Some siteData) "foo" = None.
Proof.
  intros Hkeys. change (PeerWeb.cleanPathOf "foo") with "foo".
  assert (Hexact : PeerWeb.exactMatch siteData "foo" "foo" = None).
  { unfold PeerWeb.exactMatch. rewrite getProperty_absent; [done|].
    intros Hin. destruct (Hkeys _ Hin) as [H|[H _]]; [discriminate H | done]. }
  assert (Hname : PeerWeb.filenameMatch siteData "foo" = None).
  { unfold PeerWeb.filenameMatch. rewrite find_none; [done|].
    intros key Hin. destruct (Hkeys _ Hin) as [->|(_ & H & _)]; [done|].
    by apply bool_decide_eq_false_2. }
  assert (Hending : PeerWeb.endingMatch siteData "foo" = None).
  { unfold PeerWeb.endingMatch. rewrite find_none; [done|].
    intros key Hin. destruct (Hkeys _ Hin) as [->|(_ & _ & H1 & H2)]; [done|].
    by rewrite H1, H2. }
  repeat split; try done.
  unfold PeerWeb.findFileInSiteData. change (PeerWeb.cleanPathOf "foo") with "foo".
  by rewrite Hexact, Hname.
Qed.

Lemma lookup_of_foo_does_not_find_sub_foo_html_witness :
  let record := {| PeerWeb.content := [60; 112; 62]; PeerWeb.type := "text/html";
                   PeerWeb.isText := true; PeerWeb.isMedia := false;
                   PeerWeb.size := 3 |} in
  let siteData := [("index.html", record); ("sub/foo.html", record)] in
  (forall key, In key (PeerWeb.keys siteData) ->
     key = "sub/foo.html" \/
     (key <> "foo" /\
      JsString.pop (JsString.split "/" key) <> Some "foo" /\
      JsString.endsWith key "foo" = false /\
      JsString.endsWith "foo" key = false)) /\
  PeerWeb.findFileInSiteData (Some siteData) "foo" = None.
Proof.
  intros record siteData.
  assert (Hkeys : forall key, In key (PeerWeb.keys siteData) ->
            key = "sub/foo.html" \/
            (key <> "foo" /\
             JsString.pop (JsString.split "/" key) <> Some "foo" /\
             JsString.endsWith key "foo" = false /\
             JsString.endsWith "foo" key = false)).
  { simpl. intros key [<-|[<-|[]]]; [right | by left].
    repeat split; discriminate. }
  split; [exact Hkeys|].
  exact (proj2 (proj2 (proj2
           (lookup_of_foo_does_not_find_sub_foo_html siteData Hkeys)))).
Defined.

(** C7 fails as stated: the manifest holds [sub/foo.html] and none of
    [foo], [foo.html], [foo/index.html]; the ending stage finds nothing and
    the lookup of [foo] returns [null]. *)
Lemma lookup_of_foo_returns_null :
  let record := {| PeerWeb.content := [60; 112; 62]; PeerWeb.type := "text/html";
                   PeerWeb.isText := true; PeerWeb.isMedia := false;
                   PeerWeb.size := 3 |} in
  let siteData := [("sub/foo.html", record)] in
  PeerWeb.getProperty siteData "sub/foo.html" = Some record /\
  PeerWeb.getProperty siteData "foo" = None /\
  PeerWeb.getProperty siteData "foo.html" = None /\
  PeerWeb.getProperty siteData "foo/index.html" = None /\
  JsString.endsWith "sub/foo.html" "foo" = false /\
  PeerWeb.endingMatch siteData (PeerWeb.cleanPathOf "foo") = None /\
  PeerWeb.findFileInSiteData (Some siteData) "foo" = None.
Proof. repeat split; reflexivity. Qed.

(** ** Sanity checks on concrete inputs *)

Example parseRangeHeader_open_end :
  SW.parseRangeHeader (Some "bytes=100-") 1000 = Some {| start := 100; end_ := 999 |}.
Proof. reflexivity. Qed.

Example parseRangeHeader_both_ends :
  SW.parseRangeHeader (Some "bytes=200-299") 1000 = Some {| start := 200; end_ := 299 |}.
Proof. reflexivity. Qed.

Example parseRangeHeader_beyond_the_file :
  SW.parseRangeHeader (Some "bytes=5000-6000") 1000 = Some {| start := 999; end_ := 999 |}.
Proof. reflexivity. Qed.

Example parseRangeHeader_other_unit :
  SW.parseRangeHeader (Some "items=0-5") 1000 = None.
Proof. reflexivity. Qed.

Example normalizeFilePath_empty :
  SW.normalizeFilePath (list_to_set ["index.html"; "style.css"; "app.js"]) "" "" "" =
    "index.html".
Proof. reflexivity. Qed.

Example normalizeFilePath_html_variant :
  SW.normalizeFilePath (list_to_set ["index.html"; "about.html"]) "about" "" "" =
    "about.html".
Proof. reflexivity. Qed.

Example lookup_index_html :
  PeerWeb.findFileInSiteData
    (Some [("index.html", 1%nat); ("style.css", 2%nat); ("app.js", 3%nat)])
    "index.html" = Some 1%nat.
Proof. reflexivity. Qed.

Example lookup_by_file_name :
  PeerWeb.findFileInSiteData (Some [("sub/foo.html", 1%nat)]) "foo.html" = Some 1%nat.
Proof. reflexivity. Qed.

Example lookup_by_ending :
  PeerWeb.exactMatch [("sub/foo.html", 1%nat)] "oo.html" "oo.html" = None /\
  PeerWeb.filenameMatch [("sub/foo.html", 1%nat)] "oo.html" = None /\
  PeerWeb.findFileInSiteData (Some [("sub/foo.html", 1%nat)]) "oo.html" = Some 1%nat.
Proof. repeat split; reflexivity. Qed.

Example early_processing_on_overall_progress :
  PeerWeb.shouldProcessSiteEarly
    {| PeerWeb.torrent_progress := 0.96%float;
       PeerWeb.torrent_files :=
         [{| PeerWeb.file_name := "index.html"; PeerWeb.file_length := 10;
             PeerWeb.file_progress := 1%float |};
          {| PeerWeb.file_name := "video.mp4"; PeerWeb.file_length := 1000;
             PeerWeb.file_progress := 0.5%float |}] |} = true.
Proof. reflexivity. Qed.

Example sort_puts_essential_first_and_media_last :
  map PeerWeb.file_name
    (PeerWeb.sortFiles
       [{| PeerWeb.file_name := "clip.mp4"; PeerWeb.file_length := 1;
           PeerWeb.file_progress := 1%float |};
        {| PeerWeb.file_name := "a.png"; PeerWeb.file_length := 1;
           PeerWeb.file_progress := 1%float |};
        {| PeerWeb.file_name := "app.js"; PeerWeb.file_length := 1;
           PeerWeb.file_progress := 1%float |};
        {| PeerWeb.file_name := "b.png"; PeerWeb.file_length := 1;
           PeerWeb.file_progress := 1%float |};
        {| PeerWeb.file_name := "index.html"; PeerWeb.file_length := 1;
           PeerWeb.file_progress := 1%float |}]) =
  ["app.js"; "index.html"; "a.png"; "b.png"; "clip.mp4"].
Proof. reflexivity. Qed.

(** * Properties of the rest of the code *)

(** ** Numbers written and read back *)

Section Decimal.

Lemma digitsValue_of_uint_acc (d : Decimal.uint) (acc : positive) :
  Z.pos (Pos.of_uint_acc d acc) = digitsValue d (Z.pos acc).
Proof. revert acc. induction d; intros acc; simpl; [done | by rewrite IHd..]. Qed.

Lemma digitsValue_of_uint (d : Decimal.uint) :
  Z.of_N (Pos.of_uint d) = digitsValue d 0.
Proof.
  induction d; simpl; try done; by rewrite digitsValue_of_uint_acc.
Qed.

Lemma parseDigits_string_of_uint (d : Decimal.uint) (acc : Z) :
  JsNumber.parseDigits 10 (NilEmpty.string_of_uint d) (Some acc) =
    Some (digitsValue d acc).
Proof.
  revert acc. induction d; intros acc; [done|..];
    cbn [NilEmpty.string_of_uint JsNumber.parseDigits digitsValue];
    (change (JsNumber.digitValue _) with (Some 0) ||
     change (JsNumber.digitValue _) with (Some 1) ||
     change (JsNumber.digitValue _) with (Some 2) ||
     change (JsNumber.digitValue _) with (Some 3) ||
     change (JsNumber.digitValue _) with (Some 4) ||
     change (JsNumber.digitValue _) with (Some 5) ||
     change (JsNumber.digitValue _) with (Some 6) ||
     change (JsNumber.digitValue _) with (Some 7) ||
     change (JsNumber.digitValue _) with (Some 8) ||
     change (JsNumber.digitValue _) with (Some 9));
    cbv iota; (change (_ <? 10) with true); cbv iota;
    rewrite IHd; do 2 f_equal; lia.
Qed.

Lemma parseInt_string_of_uint (d : Decimal.uint) :
  d <> Decimal.Nil ->
  JsNumber.parseInt (Some (NilEmpty.string_of_uint d)) = Some (digitsValue d 0).
Proof.
  intros Hd.
  assert (Hfrom : forall (k : Z) (l : Decimal.uint),
            match JsNumber.parseDigits 10 (NilEmpty.string_of_uint l) (Some k) with
            | Some n => Some (1 * n)
            | None => None
            end = Some (digitsValue l k)).
  { intros k l. rewrite parseDigits_string_of_uint. f_equal. lia. }
  destruct d as [|d|d|d|d|d|d|d|d|d|d]; [done|..];
    cbn [NilEmpty.string_of_uint digitsValue].
  2: change (JsNumber.parseInt (Some (String _ ?s)))
       with (match JsNumber.parseDigits 10 s (Some 1) with
             | Some n => Some (1 * n) | None => None end); apply Hfrom.
  2: change (JsNumber.parseInt (Some (String _ ?s)))
       with (match JsNumber.parseDigits 10 s (Some 2) with
             | Some n => Some (1 * n) | None => None end); apply Hfrom.
  2: change (JsNumber.parseInt (Some (String _ ?s)))
       with (match JsNumber.parseDigits 10 s (Some 3) with
             | Some n => Some (1 * n) | None => None end); apply Hfrom.
  2: change (JsNumber.parseInt (Some (String _ ?s)))
       with (match JsNumber.parseDigits 10 s (Some 4) with
             | Some n => Some (1 * n) | None => None end); apply Hfrom.
  2: change (JsNumber.parseInt (Some (String _ ?s)))
       with (match JsNumber.parseDigits 10 s (Some 5) with
             | Some n => Some (1 * n) | None => None end); apply Hfrom.
  2: change (JsNumber.parseInt (Some (String _ ?s)))
       with (match JsNumber.parseDigits 10 s (Some 6) with
             | Some n => Some (1 * n) | None => None end); apply Hfrom.
  2: change (JsNumber.parseInt (Some (String _ ?s)))
       with (match JsNumber.parseDigits 10 s (Some 7) with
             | Some n => Some (1 * n) | None => None end); apply Hfrom.
  2: change (JsNumber.parseInt (Some (String _ ?s)))
       with (match JsNumber.parseDigits 10 s (Some 8) with
             | Some n => Some (1 * n) | None => None end); apply Hfrom.
  2: change (JsNumber.parseInt (Some (String _ ?s)))
       with (match JsNumber.parseDigits 10 s (Some 9) with
             | Some n => Some (1 * n) | None => None end); apply Hfrom.
  (* a leading zero: what follows is the end or another digit, never an x *)
  destruct d as [|d|d|d|d|d|d|d|d|d|d]; [done|..];
    cbn [NilEmpty.string_of_uint digitsValue];
    first
      [ change (JsNumber.parseInt (Some (String _ (String _ ?s))))
          with (match JsNumber.parseDigits 10 s (Some (0 * 10 + 0)) with
                | Some n => Some (1 * n) | None => None end)
      | change (JsNumber.parseInt (Some (String _ (String _ ?s))))
          with (match JsNumber.parseDigits 10 s (Some (0 * 10 + 1)) with
                | Some n => Some (1 * n) | None => None end)
      | change (JsNumber.parseInt (Some (String _ (String _ ?s))))
          with (match JsNumber.parseDigits 10 s (Some (0 * 10 + 2)) with
                | Some n => Some (1 * n) | None => None end)
      | change (JsNumber.parseInt (Some (String _ (String _ ?s))))
          with (match JsNumber.parseDigits 10 s (Some (0 * 10 + 3)) with
                | Some n => Some (1 * n) | None => None end)
      | change (JsNumber.parseInt (Some (String _ (String _ ?s))))
          with (match JsNumber.parseDigits 10 s (Some (0 * 10 + 4)) with
                | Some n => Some (1 * n) | None => None end)
      | change (JsNumber.parseInt (Some (String _ (String _ ?s))))
          with (match JsNumber.parseDigits 10 s (Some (0 * 10 + 5)) with
                | Some n => Some (1 * n) | None => None end)
      | change (JsNumber.parseInt (Some (String _ (String _ ?s))))
          with (match JsNumber.parseDigits 10 s (Some (0 * 10 + 6)) with
                | Some n => Some (1 * n) | None => None end)
      | change (JsNumber.parseInt (Some (String _ (String _ ?s))))
          with (match JsNumber.parseDigits 10 s (Some (0 * 10 + 7)) with
                | Some n => Some (1 * n) | None => None end)
      | change (JsNumber.parseInt (Some (String _ (String _ ?s))))
          with (match JsNumber.parseDigits 10 s (Some (0 * 10 + 8)) with
                | Some n => Some (1 * n) | None => None end)
      | change (JsNumber.parseInt (Some (String _ (String _ ?s))))
          with (match JsNumber.parseDigits 10 s (Some (0 * 10 + 9)) with
                | Some n => Some (1 * n) | None => None end) ];
    apply Hfrom.
Qed.

End Decimal.

Section NumbersRoundTrip.

Lemma parseInt_toString (n : Z) :
  0 <= n -> JsNumber.parseInt (Some (JsNumber.toString n)) = Some n.
Proof.
  intros Hn. destruct n as [|p|p]; [done| |lia].
  unfold JsNumber.toString. cbn [Z.to_int NilEmpty.string_of_int].
  rewrite parseInt_string_of_uint by apply DecimalPos.Unsigned.to_uint_nonnil.
  by rewrite <- digitsValue_of_uint, DecimalPos.Unsigned.of_to.
Qed.

Lemma string_of_uint_has_no_dash (d : Decimal.uint) :
  JsString.includes (NilEmpty.string_of_uint d) "-" = false.
Proof. induction d; simpl; [done | exact IHd..]. Qed.

Lemma toString_has_no_dash (n : Z) :
  0 <= n -> JsString.includes (JsNumber.toString n) "-" = false.
Proof.
  intros Hn. destruct n as [|p|p]; [done| |lia].
  apply string_of_uint_has_no_dash.
Qed.

Lemma split_at_first (sep : ascii) (s t : string) :
  JsString.includes s (String sep "") = false ->
  JsString.split sep (s +:+ String sep t) = s :: JsString.split sep t.
Proof.
  induction s as [|c s IH]; simpl.
  - intros _. by rewrite Ascii.eqb_refl.
  - intros [Hc Hs]%orb_false_iff. rewrite andb_true_r in Hc. rewrite Hc.
    by rewrite IH.
Qed.

Lemma split_without_separator (sep : ascii) (s : string) :
  JsString.includes s (String sep "") = false ->
  JsString.split sep s = [s].
Proof.
  induction s as [|c s IH]; simpl; [done|].
  intros [Hc Hs]%orb_false_iff. rewrite andb_true_r in Hc. rewrite Hc.
  by rewrite IH.
Qed.

End NumbersRoundTrip.

(** X1.  A range written as [bytes=a-b] with [0 <= a] and [1 <= b] is read
    back as [a] and [b], each cut down to the last byte of the file; a
    range that lies inside the file comes back unchanged. *)
Theorem written_range_is_read_back (a b L : Z) :
  0 <= a -> 1 <= b -> 1 <= L ->
  SW.parseRangeHeader
    (Some ("bytes=" +:+ JsNumber.toString a +:+ "-" +:+ JsNumber.toString b)) L =
    Some {| start := Z.min a (L - 1);
            end_ := Z.max (Z.min a (L - 1)) (Z.min b (L - 1)) |} /\
  (a <= b -> b <= L - 1 ->
   SW.parseRangeHeader
     (Some ("bytes=" +:+ JsNumber.toString a +:+ "-" +:+ JsNumber.toString b)) L =
     Some {| start := a; end_ := b |}).
Proof.
  intros Ha Hb HL.
  assert (Hparse : SW.parseRangeHeader
            (Some ("bytes=" +:+ JsNumber.toString a +:+ "-" +:+ JsNumber.toString b)) L =
            Some {| start := Z.min a (L - 1);
                    end_ := Z.max (Z.min a (L - 1)) (Z.min b (L - 1)) |}).
  { rewrite parseRangeHeader_bytes. cbv zeta.
    change ("-" +:+ JsNumber.toString b) with (String "-" (JsNumber.toString b)).
    rewrite (split_at_first "-") by (apply toString_has_no_dash; lia).
    rewrite (split_without_separator "-") by (apply toString_has_no_dash; lia).
    cbn [lookup list_lookup].
    rewrite !parseInt_toString by lia. unfold JsNumber.orElse.
    destruct (Z.eqb_spec b 0); [lia|].
    destruct (Z.eqb_spec a 0) as [->|]; do 2 f_equal; lia. }
  split; [exact Hparse|].
  intros Hab HbL. rewrite Hparse. do 2 f_equal; lia.
Qed.

Lemma written_range_is_read_back_witness :
  0 <= 200 /\ 1 <= 299 /\ 1 <= 1000 /\
  SW.parseRangeHeader (Some "bytes=200-299") 1000 = Some {| start := 200; end_ := 299 |}.
Proof.
  split; [lia|]. split; [lia|]. split; [lia|].
  exact (proj2 (written_range_is_read_back 200 299 1000
                  ltac:(lia) ltac:(lia) ltac:(lia)) ltac:(lia) ltac:(lia)).
Defined.

(** X2.  The suffix form [bytes=-N], which asks for the last [N] bytes, is
    read as the range from byte [0] to byte [N] (cut down to the last byte
    of the file): the empty start counts as [0] and [N] as the end. *)
Theorem suffix_range_is_read_from_the_start (N L : Z) :
  1 <= N -> 1 <= L ->
  SW.parseRangeHeader (Some ("bytes=-" +:+ JsNumber.toString N)) L =
    Some {| start := 0; end_ := Z.min N (L - 1) |}.
Proof.
  intros HN HL.
  change ("bytes=-" +:+ JsNumber.toString N)
    with ("bytes=" +:+ "" +:+ "-" +:+ JsNumber.toString N).
  rewrite parseRangeHeader_bytes. cbv zeta.
  change ("" +:+ "-" +:+ JsNumber.toString N)
    with ("" +:+ String "-" (JsNumber.toString N)).
  rewrite (split_at_first "-") by done.
  rewrite (split_without_separator "-") by (apply toString_has_no_dash; lia).
  cbn [lookup list_lookup].
  rewrite parseInt_toString by lia.
  change (JsNumber.parseInt (Some "")) with (@None Z). unfold JsNumber.orElse.
  destruct (Z.eqb_spec N 0); [lia|]. do 2 f_equal; lia.
Qed.

Lemma suffix_range_is_read_from_the_start_witness :
  1 <= 500 /\ 1 <= 1000 /\
  SW.parseRangeHeader (Some "bytes=-500") 1000 = Some {| start := 0; end_ := 500 |}.
Proof.
  split; [lia|]. split; [lia|].
  exact (suffix_range_is_read_from_the_start 500 1000 ltac:(lia) ltac:(lia)).
Defined.

(** ** One resolution per request *)

Section Resolution.

Implicit Types (st : SW.State) (requestId : string) (e : SW.Event).

Lemma timer_for_unknown_request st callback :
  SW.pendingRequests st !! SW.timer_requestId callback = None ->
  SW.onTimeout st callback = (st, []).
Proof. intros H. unfold SW.onTimeout. by rewrite H. Qed.

Lemma chunk_for_unknown_request st requestId chunk a b t :
  SW.pendingRequests st !! requestId = None ->
  SW.handleMediaChunkResponse st requestId chunk a b t = (st, []).
Proof. intros H. unfold SW.handleMediaChunkResponse. by rewrite H. Qed.

(** An entry stays as it is through any turn that does not concern its
    identifier *)
Lemma step_keeps_present st e requestId (pending : SW.PendingRequest) :
  ~ touches requestId e ->
  SW.pendingRequests st !! requestId = Some pending ->
  SW.pendingRequests (SW.step st e).1 !! requestId = Some pending.
Proof.
  intros Hfree Hin.
  assert (Hdel : forall k, k <> requestId ->
            delete k (SW.pendingRequests st) !! requestId = Some pending).
  { intros k Hk. by rewrite lookup_delete_ne. }
  destruct e as [m| rid now promise u f r | clients rid promise u f r
                | rid promise f | callback]; simpl in *.
  - destruct m as [|h|h n l| |rid u d ct|rid c a b t|]; simpl; try done.
    + unfold SW.handleResourceResponse.
      destruct (SW.pendingRequests st !! rid); [|done].
      destruct d as [d|]; [|by apply Hdel].
      destruct (0 <? _); [|by apply Hdel].
      destruct (_ && _); by apply Hdel.
    + unfold SW.handleMediaChunkResponse.
      destruct (SW.pendingRequests st !! rid); [|done].
      destruct c as [c|]; [|by apply Hdel].
      destruct (0 <? _); by apply Hdel.
  - by rewrite lookup_insert_ne.
  - unfold SW.onClientsMatched.
    destruct (filter _ clients); [|done].
    destruct clients; [by apply Hdel | done].
  - by apply Hdel.
  - unfold SW.onTimeout.
    destruct (SW.pendingRequests st !! SW.timer_requestId callback);
      [by apply Hdel | done].
Qed.

Lemma run_keeps_present (events : list SW.Event) st requestId
    (pending : SW.PendingRequest) :
  Forall (fun e => ~ touches requestId e) events ->
  SW.pendingRequests st !! requestId = Some pending ->
  SW.pendingRequests (SW.run st events) !! requestId = Some pending.
Proof.
  intros Hev. revert st.
  induction Hev as [|e events He _ IH]; intros st Hin; [done|].
  apply IH. by apply step_keeps_present.
Qed.

End Resolution.

(** X3.  Once the entry of a request has been taken out of the table by an
    answer or by its timer, and as long as no request is stored under the
    same identifier again, the timer of that request does nothing when it
    fires, and neither does a MEDIA_CHUNK_RESPONSE for it: nothing is
    resolved and the state stays as it is.  With C1 this makes answer and
    timer resolve a request at most once between them. *)
Theorem timer_after_removal_does_nothing
    (st : SW.State) (removal : SW.Event) (since : list SW.Event)
    (callback : SW.TimeoutCallback) (chunk : option (list Z)) (a b total : Z) :
  SW.removes (SW.timer_requestId callback) removal ->
  Forall (fun e => ~ SW.creates (SW.timer_requestId callback) e) since ->
  let st' := SW.run (SW.step st removal).1 since in
  SW.step st' (SW.TimerFired callback) = (st', []) /\
  SW.step st' (SW.Incoming (SW.MEDIA_CHUNK_RESPONSE (SW.timer_requestId callback)
                              chunk a b total)) = (st', []).
Proof.
  intros Hrem Hsince st'.
  assert (Habs : SW.pendingRequests st' !! SW.timer_requestId callback = None).
  { apply run_keeps_absent; [done|]. by apply removal_removes. }
  split; simpl.
  - by apply timer_for_unknown_request.
  - by apply chunk_for_unknown_request.
Qed.

Lemma timer_after_removal_does_nothing_witness :
  let callback := {| SW.timer_requestId := "req_1"; SW.timer_resolve := 1%nat;
                     SW.timer_filePath := "index.html" |} in
  let st := SW.setPending SW.initialState
              {["req_1" := {| SW.resolve := 1%nat; SW.timestamp := 1700000000000;
                              SW.range := None |}]} in
  let removal := SW.Incoming (SW.RESOURCE_RESPONSE "req_1" "https://peerweb.example/x"
                                (Some [1; 2; 3]) (Some "text/plain")) in
  SW.removes (SW.timer_requestId callback) removal /\
  SW.step (SW.run (SW.step st removal).1 []) (SW.TimerFired callback) =
    (SW.run (SW.step st removal).1 [], []).
Proof.
  intros callback st removal.
  assert (Hrem : SW.removes (SW.timer_requestId callback) removal) by reflexivity.
  split; [exact Hrem|].
  exact (proj1 (timer_after_removal_does_nothing st removal [] callback None 0 0 0
                  Hrem (List.Forall_nil _))).
Defined.

(** X4.  SITE_UNLOADED puts the worker back into its initial state and
    resolves none of the pending requests.  After it, and as long as no
    request is stored under the same identifier again, neither an answer
    for a request that was pending nor the timer of that request resolves
    anything: the promise of such a request is left unsettled. *)
Theorem unload_abandons_pending_requests
    (st : SW.State) (since : list SW.Event) (callback : SW.TimeoutCallback)
    (url : string) (data : option (list Z)) (contentType : option string) :
  Forall (fun e => ~ SW.creates (SW.timer_requestId callback) e) since ->
  SW.step st (SW.Incoming SW.SITE_UNLOADED) = (SW.initialState, []) /\
  let st' := SW.run SW.initialState since in
  SW.step st' (SW.Incoming (SW.RESOURCE_RESPONSE (SW.timer_requestId callback)
                              url data contentType)) = (st', []) /\
  SW.step st' (SW.TimerFired callback) = (st', []).
Proof.
  intros Hsince. split; [reflexivity|]. intros st'.
  assert (Habs : SW.pendingRequests st' !! SW.timer_requestId callback = None).
  { apply run_keeps_absent; [done|]. apply lookup_empty. }
  split; simpl.
  - by apply response_for_unknown_request.
  - by apply timer_for_unknown_request.
Qed.

Lemma unload_abandons_pending_requests_witness :
  let callback := {| SW.timer_requestId := "req_1"; SW.timer_resolve := 1%nat;
                     SW.timer_filePath := "index.html" |} in
  let st := SW.setPending exampleReadyState
              {["req_1" := {| SW.resolve := 1%nat; SW.timestamp := 1700000000000;
                              SW.range := None |}]} in
  let since := [SW.Incoming (SW.SITE_LOADING (Some exampleHash))] in
  Forall (fun e => ~ SW.creates (SW.timer_requestId callback) e) since /\
  SW.step st (SW.Incoming SW.SITE_UNLOADED) = (SW.initialState, []) /\
  SW.step (SW.run SW.initialState since) (SW.TimerFired callback) =
    (SW.run SW.initialState since, []).
Proof.
  intros callback st since.
  assert (Hsince : Forall (fun e => ~ SW.creates (SW.timer_requestId callback) e) since).
  { repeat constructor. simpl. tauto. }
  split; [exact Hsince|].
  pose proof (unload_abandons_pending_requests st since callback
                "https://peerweb.example/x" None None Hsince) as [H1 [_ H2]].
  split; [exact H1 | exact H2].
Defined.

(** X5.  A request that has been stored is answered by its timer if nothing
    else gets to it first: when the turns since it was stored concern other
    requests only and no SITE_UNLOADED has come, the timer resolves the
    promise of the request with the fallback for its path and takes the
    entry out of the table. *)
Theorem timer_resolves_an_unanswered_request
    (st : SW.State) (requestId : string) (now : Z) (promise : nat)
    (requestUrl filePath : string) (range : option Range) (since : list SW.Event) :
  Forall (fun e => ~ touches requestId e) since ->
  let stored :=
    SW.requestResourceFromMainThread st requestId now promise requestUrl filePath range in
  exists callback ms,
    stored.2 = [SW.SetTimeout callback ms] /\
    let fired := SW.step (SW.run stored.1 since) (SW.TimerFired callback) in
    fired.2 = [SW.Resolve promise (SW.createNavigationFallback filePath)] /\
    SW.pendingRequests fired.1 !! requestId = None.
Proof.
  intros Hsince stored. eexists _, _. split; [reflexivity|].
  assert (Hin : SW.pendingRequests (SW.run stored.1 since) !! requestId =
                Some {| SW.resolve := promise; SW.timestamp := now;
                        SW.range := range |}).
  { apply run_keeps_present; [done|]. simpl. apply lookup_insert_eq. }
  set (s := SW.run stored.1 since) in *.
  unfold SW.step, SW.onTimeout.
  cbn [SW.timer_requestId SW.timer_resolve SW.timer_filePath].
  rewrite Hin. cbn [fst snd SW.pendingRequests SW.setPending].
  split; [done | apply lookup_delete_eq].
Qed.

Lemma timer_resolves_an_unanswered_request_witness :
  let since := [SW.Incoming (SW.RESOURCE_RESPONSE "req_7" "https://peerweb.example/y"
                               None None);
                SW.Incoming (SW.SITE_READY (Some exampleHash) 3
                               (Some ["index.html"; "style.css"; "app.js"]))] in
  let stored :=
    SW.requestResourceFromMainThread exampleReadyState "req_1" 1700000000000 1%nat
      "https://peerweb.example/peerweb-site/abcdef0123456789abcdef0123456789abcdef01/a.css"
      "a.css" None in
  Forall (fun e => ~ touches "req_1" e) since /\
  exists callback ms,
    stored.2 = [SW.SetTimeout callback ms] /\
    (SW.step (SW.run stored.1 since) (SW.TimerFired callback)).2 =
      [SW.Resolve 1%nat (SW.createNavigationFallback "a.css")].
Proof.
  intros since stored.
  assert (Hsince : Forall (fun e => ~ touches "req_1" e) since).
  { repeat constructor; simpl; [discriminate | tauto]. }
  split; [exact Hsince|].
  destruct (timer_resolves_an_unanswered_request exampleReadyState "req_1"
              1700000000000 1%nat
              "https://peerweb.example/peerweb-site/abcdef0123456789abcdef0123456789abcdef01/a.css"
              "a.css" None since Hsince) as (callback & ms & Hset & Hres & _).
  exists callback, ms. split; [exact Hset | exact Hres].
Defined.

(** ** The media cache in use *)

Section MediaCacheUse.

Lemma from_twice (data : list Z) :
  Uint8Array.from (Uint8Array.from data) = Uint8Array.from data.
Proof.
  unfold Uint8Array.from. rewrite map_map. apply map_ext.
  intros x. by rewrite Z.mod_mod.
Qed.

Lemma from_length (data : list Z) : length (Uint8Array.from data) = length data.
Proof. apply length_map. Qed.

End MediaCacheUse.

(** X6.  A media answer of more than 100 KB for a pending request is kept:
    the next request for the same URL and the same site, without a Range
    header, is answered by the worker itself with status 200 and exactly
    the bytes of that answer, without asking the page. *)
Theorem cached_media_is_served_by_the_worker
    (st afterWait : SW.State) (requestId : string) (pending : SW.PendingRequest)
    (data : list Z) (contentType : option string)
    (req : SW.Request) (hash : string) (rest : list string) :
  SW.pendingRequests st !! requestId = Some pending ->
  SW.isMediaFile contentType = true ->
  1024 * 100 < Z.of_nat (length data) ->
  JsString.truthy (SW.currentSiteHash st) = true ->
  Some hash = SW.currentSiteHash st ->
  SW.pathPartsOf (SW.url_pathname req) = "peerweb-site" :: hash :: rest ->
  SW.header_Range req = None ->
  let st' := (SW.step st (SW.Incoming (SW.RESOURCE_RESPONSE requestId
                (SW.request_url req) (Some data) contentType))).1 in
  exists response,
    SW.handlePeerWebRequest st' afterWait req = SW.Respond response /\
    status response = 200 /\
    body response = BodyBytes (Uint8Array.from data) /\
    getHeader "Content-Length" (headers response) =
      Some (JsNumber.toString (Z.of_nat (length data))).
Proof.
  intros Hpending Hmedia Hbig Hready Hhash Hparts Hrange st'.
  assert (Hst' : st' =
    SW.setMedia (SW.setPending st (delete requestId (SW.pendingRequests st)))
      (<[SW.request_url req :=
           {| SW.media_data := Uint8Array.from data;
              SW.media_contentType := contentType;
              SW.media_length := Z.of_nat (length (Uint8Array.from data)) |}]>
         (SW.mediaCache st))).
  { subst st'. cbn [SW.step SW.onMessage]. unfold SW.handleResourceResponse.
    rewrite Hpending, Hmedia, from_length.
    destruct (Z.ltb_spec 0 (Z.of_nat (length data))); [|lia].
    destruct (Z.ltb_spec (1024 * 100) (Z.of_nat (length data))); [|lia].
    done. }
  clearbody st'. subst st'. eexists. split.
  - rewrite (handlePeerWebRequest_ready _ afterWait req hash rest) by done.
    unfold SW.handleReady.
    rewrite bool_decide_eq_true_2 by done.
    cbn [negb SW.mediaCache SW.setMedia].
    rewrite lookup_insert_eq, Hrange. reflexivity.
  - cbn. by rewrite from_length.
Qed.

Lemma cached_media_is_served_by_the_worker_witness :
  let pending := {| SW.resolve := 1%nat; SW.timestamp := 1700000000000;
                    SW.range := None |} in
  let st := SW.setPending exampleReadyState {["req_1" := pending]} in
  let req := {| SW.request_url := SW.request_url exampleRangeRequest;
                SW.url_pathname := SW.url_pathname exampleRangeRequest;
                SW.url_search := ""; SW.url_hash := "";
                SW.header_Range := None |} in
  let data := repeat 65 (Z.to_nat 102401) in
  SW.pendingRequests st !! "req_1" = Some pending /\
  SW.isMediaFile (Some "video/mp4") = true /\
  1024 * 100 < Z.of_nat (length data) /\
  exists response,
    SW.handlePeerWebRequest
      (SW.step st (SW.Incoming (SW.RESOURCE_RESPONSE "req_1" (SW.request_url req)
                                  (Some data) (Some "video/mp4")))).1
      SW.initialState req = SW.Respond response /\
    status response = 200.
Proof.
  intros pending st req data.
  assert (Hp : SW.pendingRequests st !! "req_1" = Some pending)
    by apply lookup_singleton_eq.
  assert (Hbig : 1024 * 100 < Z.of_nat (length data))
    by (subst data; rewrite repeat_length, Z2Nat.id; lia).
  split; [exact Hp|]. split; [reflexivity|]. split; [exact Hbig|].
  destruct (cached_media_is_served_by_the_worker st SW.initialState "req_1" pending
              data (Some "video/mp4") req exampleHash ["movie.mp4"]
              Hp eq_refl Hbig eq_refl eq_refl eq_refl eq_refl)
    as (response & Hresp & Hstatus & _).
  exists response. split; [exact Hresp | exact Hstatus].
Defined.

(** X7.  In every state that the worker reaches from its initial state, each
    entry of the media cache is a media file (by the content-type test) of
    more than 100 KB whose recorded length is the length of its bytes. *)
Theorem reachable_cache_holds_media (events : list SW.Event) :
  cacheHoldsMedia (SW.run SW.initialState events).
Proof. apply run_keeps_cacheHoldsMedia. apply map_Forall_empty. Qed.

(** A site becomes ready, a request for a film is stored, the film
    arrives: it is in the cache *)
Lemma sample_trace_fills_cache (data : list Z) :
  1024 * 100 < Z.of_nat (length data) ->
  let url := SW.request_url exampleRangeRequest in
  let st :=
    SW.run SW.initialState
      [SW.Incoming (SW.SITE_READY (Some exampleHash) 1 (Some ["movie.mp4"]));
       SW.NewRequest "req_1" 1700000000000 1%nat url "movie.mp4" None;
       SW.Incoming (SW.RESOURCE_RESPONSE "req_1" url (Some data) (Some "video/mp4"))] in
  SW.currentSiteHash st = Some exampleHash /\
  SW.mediaCache st !! url =
    Some {| SW.media_data := Uint8Array.from data;
            SW.media_contentType := Some "video/mp4";
            SW.media_length := Z.of_nat (length (Uint8Array.from data)) |}.
Proof.
  intros Hbig url st. subst st.
  unfold SW.run. cbn [fold_left SW.step SW.onMessage fst].
  unfold SW.requestResourceFromMainThread. cbn [fst].
  unfold SW.handleResourceResponse.
  cbn [SW.pendingRequests SW.setPending]. rewrite lookup_insert_eq.
  rewrite from_length.
  destruct (Z.ltb_spec 0 (Z.of_nat (length data))); [|lia].
  destruct (Z.ltb_spec (1024 * 100) (Z.of_nat (length data))); [|lia].
  change (SW.isMediaFile (Some "video/mp4")) with true.
  cbn [andb fst SW.currentSiteHash SW.mediaCache SW.setMedia SW.setPending].
  split; [reflexivity | apply lookup_insert_eq].
Qed.

Lemma cache_hit_is_served_in_part_witness :
  let url := SW.request_url exampleRangeRequest in
  let data := repeat 65 (Z.to_nat 102401) in
  let events :=
    [SW.Incoming (SW.SITE_READY (Some exampleHash) 1 (Some ["movie.mp4"]));
     SW.NewRequest "req_1" 1700000000000 1%nat url "movie.mp4" None;
     SW.Incoming (SW.RESOURCE_RESPONSE "req_1" url (Some data) (Some "video/mp4"))] in
  let cached := {| SW.media_data := Uint8Array.from data;
                   SW.media_contentType := Some "video/mp4";
                   SW.media_length := Z.of_nat (length (Uint8Array.from data)) |} in
  Some exampleHash = SW.currentSiteHash (SW.run SW.initialState events) /\
  SW.mediaCache (SW.run SW.initialState events) !! url = Some cached /\
  exists r,
    SW.handleReady (SW.run SW.initialState events) exampleRangeRequest exampleHash
      "movie.mp4" =
      SW.Respond (SW.createMediaResponse (SW.media_data cached)
                    (SW.media_contentType cached) (Some r)) /\
    0 <= start r.
Proof.
  intros url data events cached.
  assert (Hbig : 1024 * 100 < Z.of_nat (length data))
    by (subst data; rewrite repeat_length, Z2Nat.id; lia).
  destruct (sample_trace_fills_cache data Hbig) as [Hhash Hhit].
  split; [exact (eq_sym Hhash)|]. split; [exact Hhit|].
  destruct (cache_hit_is_served_in_part events exampleRangeRequest exampleHash
              "movie.mp4" "0-99" cached (eq_sym Hhash) Hhit eq_refl)
    as (r & Hr & _ & Hstart & _).
  exists r. split; [exact Hr | exact Hstart].
Defined.

(** ** Worker and page together *)

(** X9.  When the page finds a file with at least one byte for the path it
    is asked for, its answer makes the worker resolve the pending request
    with the response that [createMediaResponse] builds from the bytes of
    the file, its content type and the range of the entry, and take the
    entry out of the table; with the range [null] that every entry has,
    this is status 200 with exactly the bytes of the file as body. *)
Theorem found_file_is_served
    (siteData : list (string * PeerWeb.FileRecord)) (st : SW.State)
    (url requestId urlPathname filePath : string) (file : PeerWeb.FileRecord)
    (pending : SW.PendingRequest) :
  JsString.truthy (Some filePath) = true ->
  PeerWeb.findFileInSiteData (Some siteData) filePath = Some file ->
  PeerWeb.content file <> [] ->
  SW.pendingRequests st !! requestId = Some pending ->
  let answer :=
    Page.handleServiceWorkerResourceRequest (Some siteData) url requestId urlPathname
      (Some filePath) in
  let response :=
    SW.createMediaResponse (Uint8Array.from (PeerWeb.content file))
      (Some (PeerWeb.type file)) (SW.range pending) in
  (SW.onMessage st answer).2 = [SW.Resolve (SW.resolve pending) response] /\
  SW.pendingRequests (SW.onMessage st answer).1 !! requestId = None /\
  (SW.range pending = None ->
   status response = 200 /\
   body response = BodyBytes (Uint8Array.from (PeerWeb.content file))).
Proof.
  intros Hpath Hfound Hbytes Hpending answer response.
  assert (Hanswer : answer =
            SW.RESOURCE_RESPONSE requestId url
              (Some (Uint8Array.from (PeerWeb.content file)))
              (Some (PeerWeb.type file))).
  { subst answer. unfold Page.handleServiceWorkerResourceRequest.
    rewrite Hpath. cbn [negb JsString.ToString]. by rewrite Hfound. }
  assert (Hlen : (0 <? Z.of_nat (length (Uint8Array.from (PeerWeb.content file)))) = true).
  { apply Z.ltb_lt. rewrite from_length.
    destruct (PeerWeb.content file); [done | simpl; lia]. }
  split; [|split].
  - rewrite Hanswer. cbn [SW.onMessage]. unfold SW.handleResourceResponse.
    rewrite Hpending, Hlen, from_twice. by destruct (_ && _).
  - rewrite Hanswer. apply response_removes.
  - intros Hrange. subst response. by rewrite Hrange.
Qed.

Lemma found_file_is_served_witness :
  let file := {| PeerWeb.content := [104; 105]; PeerWeb.type := "text/css";
                 PeerWeb.isText := true; PeerWeb.isMedia := false;
                 PeerWeb.size := 2 |} in
  let siteData := [("index.html", file); ("css/style.css", file)] in
  let pending := {| SW.resolve := 4%nat; SW.timestamp := 1700000000000;
                    SW.range := None |} in
  let st := SW.setPending exampleReadyState {["req_4" := pending]} in
  JsString.truthy (Some "css/style.css") = true /\
  PeerWeb.findFileInSiteData (Some siteData) "css/style.css" = Some file /\
  PeerWeb.content file <> [] /\
  SW.pendingRequests st !! "req_4" = Some pending /\
  (SW.onMessage st
     (Page.handleServiceWorkerResourceRequest (Some siteData)
        "https://peerweb.example/peerweb-site/abc/css/style.css" "req_4"
        "/peerweb-site/abc/css/style.css" (Some "css/style.css"))).2 =
    [SW.Resolve 4%nat
       (SW.createMediaResponse (Uint8Array.from [104; 105]) (Some "text/css") None)].
Proof.
  intros file siteData pending st.
  assert (Hp : SW.pendingRequests st !! "req_4" = Some pending)
    by apply lookup_singleton_eq.
  assert (Hne : PeerWeb.content file <> []) by discriminate.
  split; [reflexivity|]. split; [reflexivity|]. split; [exact Hne|].
  split; [exact Hp|].
  exact (proj1 (found_file_is_served siteData st
                  "https://peerweb.example/peerweb-site/abc/css/style.css" "req_4"
                  "/peerweb-site/abc/css/style.css" "css/style.css" file pending
                  eq_refl eq_refl Hne Hp)).
Defined.

(** X10.  A file of the manifest that has no bytes is answered like a file
    that is not there: whether the page finds nothing for the path or finds
    a file whose content is empty, the worker resolves the pending request
    with the 404 "File not found in torrent". *)
Theorem empty_file_is_answered_as_missing
    (siteData : list (string * PeerWeb.FileRecord)) (st : SW.State)
    (url requestId urlPathname filePath : string) (pending : SW.PendingRequest) :
  JsString.truthy (Some filePath) = true ->
  (PeerWeb.findFileInSiteData (Some siteData) filePath = None \/
   exists file, PeerWeb.findFileInSiteData (Some siteData) filePath = Some file /\
                PeerWeb.content file = []) ->
  SW.pendingRequests st !! requestId = Some pending ->
  (SW.onMessage st
     (Page.handleServiceWorkerResourceRequest (Some siteData) url requestId urlPathname
        (Some filePath))).2 =
    [SW.Resolve (SW.resolve pending)
       {| status := 404; statusText := "Not Found";
          headers := [("Content-Type", "text/plain")];
          body := BodyText "File not found in torrent" |}].
Proof.
  intros Hpath Hcase Hpending.
  unfold Page.handleServiceWorkerResourceRequest.
  rewrite Hpath. cbn [negb JsString.ToString].
  destruct Hcase as [Hnone | (file & Hfound & Hempty)].
  - rewrite Hnone. cbn [SW.onMessage]. unfold SW.handleResourceResponse.
    by rewrite Hpending.
  - rewrite Hfound, Hempty. cbn [SW.onMessage]. unfold SW.handleResourceResponse.
    by rewrite Hpending.
Qed.

Lemma empty_file_is_answered_as_missing_witness :
  let empty := {| PeerWeb.content := []; PeerWeb.type := "text/css";
                  PeerWeb.isText := true; PeerWeb.isMedia := false;
                  PeerWeb.size := 0 |} in
  let siteData := [("index.html", empty); ("empty.css", empty)] in
  let pending := {| SW.resolve := 4%nat; SW.timestamp := 1700000000000;
                    SW.range := None |} in
  let st := SW.setPending exampleReadyState {["req_4" := pending]} in
  PeerWeb.findFileInSiteData (Some siteData) "empty.css" = Some empty /\
  SW.pendingRequests st !! "req_4" = Some pending /\
  exists response,
    (SW.onMessage st
       (Page.handleServiceWorkerResourceRequest (Some siteData)
          "https://peerweb.example/peerweb-site/abc/empty.css" "req_4"
          "/peerweb-site/abc/empty.css" (Some "empty.css"))).2 =
      [SW.Resolve 4%nat response] /\
    status response = 404.
Proof.
  intros empty siteData pending st.
  assert (Hp : SW.pendingRequests st !! "req_4" = Some pending)
    by apply lookup_singleton_eq.
  assert (Hf : PeerWeb.findFileInSiteData (Some siteData) "empty.css" = Some empty)
    by reflexivity.
  split; [exact Hf|]. split; [exact Hp|].
  eexists. split.
  - exact (empty_file_is_answered_as_missing siteData st
             "https://peerweb.example/peerweb-site/abc/empty.css" "req_4"
             "/peerweb-site/abc/empty.css" "empty.css" pending eq_refl
             (or_intror (ex_intro _ empty (conj Hf eq_refl))) Hp).
  - reflexivity.
Defined.

(** ** Which requests the worker takes *)

Section PathParts.

Lemma pathPartsOf_cons_empty (parts : list string) :
  filter (fun part => (0 < String.length part)%nat) ("" :: parts) =
  filter (fun part => (0 < String.length part)%nat) parts.
Proof. rewrite filter_cons. case_decide; [simpl in *; lia | done]. Qed.

Lemma pathPartsOf_cons_full (c : ascii) (s : string) (parts : list string) :
  filter (fun part => (0 < String.length part)%nat) (String c s :: parts) =
  String c s :: filter (fun part => (0 < String.length part)%nat) parts.
Proof. rewrite filter_cons. case_decide; [done | simpl in *; lia]. Qed.

Lemma pathPartsOf_site_prefix (rest : string) :
  SW.pathPartsOf ("/peerweb-site/" +:+ rest) = "peerweb-site" :: SW.pathPartsOf rest.
Proof.
  unfold SW.pathPartsOf.
  change ("/peerweb-site/" +:+ rest)
    with ("" +:+ String "/" ("peerweb-site" +:+ String "/" rest)).
  rewrite !(split_at_first "/") by done.
  by rewrite pathPartsOf_cons_empty, pathPartsOf_cons_full.
Qed.

(** The parts of a path have no slash in them and are not empty *)
Lemma split_parts_have_no_separator (sep : ascii) (s : string) :
  Forall (fun part => JsString.includes part (String sep "") = false)
         (JsString.split sep s).
Proof.
  induction s as [|c s IH]; simpl; [by repeat constructor|].
  destruct (Ascii.eqb c sep) eqn:Hc; [by constructor|].
  destruct (JsString.split sep s) as [|h t]; [by repeat constructor; simpl; rewrite Hc|].
  inversion IH as [|? ? Hh Ht]; subst. constructor; [|done].
  simpl. by rewrite Hc, Hh.
Qed.


Lemma append_empty_r (s : string) : s +:+ "" = s.
Proof. induction s as [|c s IH]; simpl; [done | by rewrite IH]. Qed.

Lemma endsWith_includes (s t : string) :
  JsString.endsWith s t = true -> JsString.includes s t = true.
Proof.
  intros [p ->]%endsWith_spec.
  rewrite <- (append_empty_r t) at 1. apply includes_app.
Qed.

Lemma startsWith_includes (s t : string) :
  JsString.startsWith s t = true -> JsString.includes s t = true.
Proof. intros H. destruct s; simpl; by rewrite H. Qed.


End PathParts.

Section Interception.

Lemma createMediaResponse_status (u : list Z) (ct : option string) (range : option Range) :
  status (SW.createMediaResponse u ct range) = 200 \/
  status (SW.createMediaResponse u ct range) = 206.
Proof.
  unfold SW.createMediaResponse. destruct range as [r|]; [|by left].
  destruct (negb (SW.isMediaFile ct)); [by left | by right].
Qed.

Lemma handleReady_is_no_400 (st : SW.State) (req : SW.Request)
    (hash filePath : string) (r : Response) :
  SW.handleReady st req hash filePath = SW.Respond r -> status r <> 400.
Proof.
  unfold SW.handleReady. destruct (negb _); [by intros [= <-]|].
  destruct (SW.mediaCache st !! SW.request_url req) as [cached|]; [|done].
  assert (Hok : forall range,
            status (SW.createMediaResponse (SW.media_data cached)
                      (SW.media_contentType cached) range) <> 400).
  { intros range. destruct (createMediaResponse_status (SW.media_data cached)
                              (SW.media_contentType cached) range) as [-> | ->]; lia. }
  destruct (JsString.truthy (SW.header_Range req));
    [|intros [= <-]; exact (Hok None)].
  destruct (SW.parseRangeHeader _ _) as [range|]; intros [= <-];
    [exact (Hok (Some range)) | exact (Hok None)].
Qed.

Lemma split_is_not_empty (sep : ascii) (s : string) : JsString.split sep s <> [].
Proof.
  destruct s as [|c s]; simpl; [done|].
  destruct (Ascii.eqb c sep); [done|]. by destruct (JsString.split sep s).
Qed.


End Interception.

(** X11.  A request that the fetch listener does not let through as
    external and whose path begins with [/peerweb-site/] is always answered
    by the worker.  It is answered with the 400 "Invalid PeerWeb URL" when
    nothing but slashes follows the prefix, and never with a 400 when an
    identifier follows. *)
Theorem intercepted_request_needs_an_identifier
    (selfOrigin : string) (st afterWait : SW.State)
    (event : Interception.FetchEvent) (rest : string) :
  Interception.isExternalUrl selfOrigin event = false ->
  SW.url_pathname (Interception.request event) = "/peerweb-site/" +:+ rest ->
  exists handling,
    Interception.onFetch selfOrigin st afterWait event =
      Interception.RespondWith handling /\
    (SW.pathPartsOf rest = [] -> handling = SW.Respond SW.invalidUrl) /\
    (SW.pathPartsOf rest <> [] ->
     forall r, handling = SW.Respond r -> status r <> 400).
Proof.
  intros Hext Hpath. eexists. split; [|split].
  - unfold Interception.onFetch, Interception.isPeerWebInternalResource.
    by rewrite Hext, Hpath, startsWith_refl_app.
  - intros Hnone. unfold SW.handlePeerWebRequest.
    by rewrite Hpath, pathPartsOf_site_prefix, Hnone.
  - intros Hsome r. unfold SW.handlePeerWebRequest.
    rewrite Hpath, pathPartsOf_site_prefix.
    destruct (SW.pathPartsOf rest) as [|hash more]; [done|].
    change (negb (String.eqb "peerweb-site" "peerweb-site")) with false. cbv iota.
    destruct (negb (JsString.truthy (SW.currentSiteHash st)));
      [|apply handleReady_is_no_400].
    destruct (negb (JsString.truthy (SW.currentSiteHash afterWait)));
      [by intros [= <-] | apply handleReady_is_no_400].
Qed.

Lemma intercepted_request_needs_an_identifier_witness :
  let event := {| Interception.request :=
                    {| SW.request_url := "https://peerweb.example/peerweb-site//";
                       SW.url_pathname := "/peerweb-site//";
                       SW.url_search := ""; SW.url_hash := "";
                       SW.header_Range := None |};
                  Interception.url_protocol := "https:";
                  Interception.url_origin := "https://peerweb.example" |} in
  Interception.isExternalUrl "https://peerweb.example" event = false /\
  SW.pathPartsOf "/" = [] /\
  Interception.onFetch "https://peerweb.example" exampleReadyState SW.initialState event =
    Interception.RespondWith (SW.Respond SW.invalidUrl).
Proof.
  intros event.
  split; [reflexivity|]. split; [reflexivity|].
  destruct (intercepted_request_needs_an_identifier "https://peerweb.example"
              exampleReadyState SW.initialState event "/" eq_refl eq_refl)
    as (handling & Hfetch & Hnone & _).
  by rewrite Hfetch, (Hnone eq_refl).
Defined.

(** X12.  The worker does not tell a site that is loading from one that is
    ready: once SITE_LOADING has named a hash, a request for that hash is
    sent on to the page at once, its path normalized against an empty list
    of known files, instead of waiting for SITE_READY. *)
Theorem requests_are_forwarded_while_loading
    (st afterWait : SW.State) (req : SW.Request) (hash : string)
    (rest : list string) :
  JsString.truthy (Some hash) = true ->
  SW.pathPartsOf (SW.url_pathname req) = "peerweb-site" :: hash :: rest ->
  let loading := (SW.onMessage st (SW.SITE_LOADING (Some hash))).1 in
  SW.handlePeerWebRequest loading afterWait req =
    SW.RequestResource (SW.request_url req)
      (SW.normalizeFilePath ∅ (JsString.join "/" rest)
         (SW.url_search req) (SW.url_hash req))
      None.
Proof.
  intros Hhash Hparts loading.
  rewrite (handlePeerWebRequest_ready loading afterWait req hash rest) by done.
  by rewrite handleReady_match_miss.
Qed.

Lemma requests_are_forwarded_while_loading_witness :
  JsString.truthy (Some exampleHash) = true /\
  SW.pathPartsOf (SW.url_pathname exampleRangeRequest) =
    ["peerweb-site"; exampleHash; "movie.mp4"] /\
  SW.handlePeerWebRequest
    (SW.onMessage SW.initialState (SW.SITE_LOADING (Some exampleHash))).1
    SW.initialState exampleRangeRequest =
    SW.RequestResource (SW.request_url exampleRangeRequest) "movie.mp4" None.
Proof.
  assert (Hparts : SW.pathPartsOf (SW.url_pathname exampleRangeRequest) =
                   ["peerweb-site"; exampleHash; "movie.mp4"]) by reflexivity.
  split; [reflexivity|]. split; [exact Hparts|].
  exact (requests_are_forwarded_while_loading SW.initialState SW.initialState
           exampleRangeRequest exampleHash ["movie.mp4"] eq_refl Hparts).
Defined.


(** ** Normalized paths *)

Section NormalizedPaths.

Lemma includes_app_r (s t x : string) :
  JsString.includes t x = true -> JsString.includes (s +:+ t) x = true.
Proof.
  intros Ht. induction s as [|c s IH]; [done|].
  cbn [String.append JsString.includes]. rewrite IH. apply orb_true_r.
Qed.

Lemma named_file_is_kept (files : gset string) (N : string) :
  N <> "" -> JsString.endsWith N "/" = false -> JsString.includes N "." = true ->
  SW.normalizeFilePath files N "" "" = N.
Proof.
  intros Hne Hslash Hdot. unfold SW.normalizeFilePath.
  destruct (String.eqb_spec N ""); [done|]. by rewrite Hslash, Hdot.
Qed.

Lemma with_file_name (p name : string) :
  (1 <= String.length name)%nat ->
  JsString.endsWith name "/" = false -> JsString.includes name "." = true ->
  p +:+ name <> "" /\
  JsString.endsWith (p +:+ name) "/" = false /\
  JsString.includes (p +:+ name) "." = true.
Proof.
  intros Hlen Hslash Hdot. split; [|split].
  - intros H. apply (f_equal String.length) in H. rewrite length_app in H.
    simpl in H. lia.
  - by rewrite endsWith_behind.
  - by apply includes_app_r.
Qed.

End NormalizedPaths.

(** X13.  For a URL without query and fragment, [normalizeFilePath] always
    yields the name of a file: a path that is not empty, does not end with
    a slash and contains a dot.  Normalizing such a path again, against any
    list of known files, gives it back unchanged. *)
Theorem normalized_path_is_stable (files files' : gset string) (p : string) :
  let N := SW.normalizeFilePath files p "" "" in
  N <> "" /\
  JsString.endsWith N "/" = false /\
  JsString.includes N "." = true /\
  SW.normalizeFilePath files' N "" "" = N.
Proof.
  intros N.
  assert (Hshape : N <> "" /\ JsString.endsWith N "/" = false /\
                   JsString.includes N "." = true).
  { subst N. unfold SW.normalizeFilePath.
    destruct (String.eqb_spec p "") as [->|Hne]; [done|].
    destruct (JsString.endsWith p "/") eqn:Hslash;
      [apply with_file_name; [simpl; lia | reflexivity..]|].
    destruct (JsString.includes p ".") eqn:Hdot; cbn [negb].
    - by destruct p.
    - repeat case_bool_decide;
        apply with_file_name; solve [simpl; lia | reflexivity]. }
  destruct Hshape as (Hne & Hslash & Hdot).
  repeat split; try done. by apply named_file_is_kept.
Qed.

(** ** What the lookup returns *)

Section LookupResults.

Context {A : Type}.
Implicit Types (siteData : list (string * A)) (key : string).

Lemma getProperty_of_key siteData key :
  In key (PeerWeb.keys siteData) -> exists v, PeerWeb.getProperty siteData key = Some v.
Proof.
  induction siteData as [|[k v] rest IH]; simpl; [done|].
  intros [->|Hin].
  - exists v. by rewrite String.eqb_refl.
  - destruct (String.eqb k key); [by exists v | by apply IH].
Qed.

Lemma getProperty_is_stored siteData key (v : A) :
  PeerWeb.getProperty siteData key = Some v -> In (key, v) siteData.
Proof.
  induction siteData as [|[k w] rest IH]; simpl; [done|].
  destruct (String.eqb_spec k key) as [->|Hne].
  - intros [= ->]. by left.
  - intros H. right. by apply IH.
Qed.

Lemma find_is_an_element (p : string -> bool) (l : list string) (x : string) :
  PeerWeb.find p l = Some x -> In x l /\ p x = true.
Proof.
  induction l as [|y l IH]; simpl; [done|].
  destruct (p y) eqn:Hy.
  - intros [= ->]. split; [by left | done].
  - intros H. destruct (IH H). split; [by right | done].
Qed.

Lemma getProperty_setProperty siteData key (v : A) :
  PeerWeb.getProperty (PeerWeb.setProperty siteData key v) key = Some v.
Proof.
  induction siteData as [|[k w] rest IH]; simpl.
  - by rewrite String.eqb_refl.
  - destruct (String.eqb_spec k key) as [->|Hne]; simpl.
    + by rewrite String.eqb_refl.
    + by destruct (String.eqb_spec k key).
Qed.

Lemma getProperty_setProperty_other siteData key key' (v : A) :
  key <> key' ->
  PeerWeb.getProperty (PeerWeb.setProperty siteData key v) key' =
    PeerWeb.getProperty siteData key'.
Proof.
  intros Hne. induction siteData as [|[k w] rest IH]; simpl.
  - by destruct (String.eqb_spec key key').
  - destruct (String.eqb_spec k key) as [->|Hk]; simpl.
    + by destruct (String.eqb_spec key key').
    + by rewrite IH.
Qed.

End LookupResults.



(** X16.  A file stored under a name is found under that name, whatever
    else the manifest holds, and so it is right after it has been stored.
    It is also found under the name with [/] in front, and with [./] in
    front when the name does not begin with a slash, unless the manifest
    has a key that is the prefixed name itself. *)
Theorem stored_file_is_found_by_name
    {A : Type} (siteData : list (string * A)) (name : string) (file : A) :
  PeerWeb.getProperty siteData name = Some file ->
  PeerWeb.findFileInSiteData (Some siteData) name = Some file /\
  (PeerWeb.getProperty siteData ("/" +:+ name) = None ->
   PeerWeb.findFileInSiteData (Some siteData) ("/" +:+ name) = Some file) /\
  (PeerWeb.getProperty siteData ("./" +:+ name) = None ->
   JsString.startsWith name "/" = false ->
   PeerWeb.findFileInSiteData (Some siteData) ("./" +:+ name) = Some file) /\
  (forall (other : list (string * A)) (value : A),
     PeerWeb.findFileInSiteData (Some (PeerWeb.setProperty other name value)) name =
       Some value).
Proof.
  intros Hstored.
  assert (Hexact : forall (d : list (string * A)) (v : A) (clean : string),
            PeerWeb.getProperty d name = Some v ->
            PeerWeb.findFileInSiteData (Some d) name = Some v).
  { intros d v clean Hd. unfold PeerWeb.findFileInSiteData, PeerWeb.exactMatch.
    by rewrite Hd. }
  split; [by apply (Hexact siteData file "")|]. split; [|split].
  - intros Hnone. unfold PeerWeb.findFileInSiteData, PeerWeb.exactMatch.
    rewrite Hnone.
    change (PeerWeb.cleanPathOf ("/" +:+ name)) with name. by rewrite Hstored.
  - intros Hnone Hslash. unfold PeerWeb.findFileInSiteData, PeerWeb.exactMatch.
    rewrite Hnone.
    assert (Hclean : PeerWeb.cleanPathOf ("./" +:+ name) = name).
    { unfold PeerWeb.cleanPathOf.
      change (JsString.startsWith ("./" +:+ name) "./") with true. cbv iota.
      change (JsString.substring_from 2 ("./" +:+ name)) with name.
      by rewrite Hslash. }
    by rewrite Hclean, Hstored.
  - intros other value. apply (Hexact _ _ ""). apply getProperty_setProperty.
Qed.

Lemma stored_file_is_found_by_name_witness :
  let siteData := [("index.html", 1%nat); ("css/style.css", 2%nat)] in
  PeerWeb.getProperty siteData "css/style.css" = Some 2%nat /\
  PeerWeb.findFileInSiteData (Some siteData) "./css/style.css" = Some 2%nat.
Proof.
  intros siteData.
  assert (Hs : PeerWeb.getProperty siteData "css/style.css" = Some 2%nat) by reflexivity.
  split; [exact Hs|].
  exact (proj1 (proj2 (proj2 (stored_file_is_found_by_name siteData "css/style.css"
                                2%nat Hs))) eq_refl eq_refl).
Defined.

(** ** Site identifiers *)

Section Identifiers.

Lemma lowerChar_keeps_hex (c : ascii) :
  PeerWeb.isHexChar (JsString.lowerChar c) = PeerWeb.isHexChar c.
Proof. destruct c as [[] [] [] [] [] [] [] []]; reflexivity. Qed.

Lemma lowerChar_twice (c : ascii) :
  JsString.lowerChar (JsString.lowerChar c) = JsString.lowerChar c.
Proof. destruct c as [[] [] [] [] [] [] [] []]; reflexivity. Qed.

Lemma hex_is_no_white_space (c : ascii) :
  PeerWeb.isHexChar c = true -> JsString.isStrWhiteSpaceChar c = false.
Proof. destruct c as [[] [] [] [] [] [] [] []]; (reflexivity || discriminate). Qed.

Lemma hex_is_no_slash (c : ascii) :
  PeerWeb.isHexChar c = true -> Ascii.eqb c "/" = false.
Proof. destruct c as [[] [] [] [] [] [] [] []]; (reflexivity || discriminate). Qed.

Lemma toLowerCase_length (s : string) :
  String.length (JsString.toLowerCase s) = String.length s.
Proof. induction s as [|c s IH]; simpl; [done | by rewrite IH]. Qed.

Lemma toLowerCase_twice (s : string) :
  JsString.toLowerCase (JsString.toLowerCase s) = JsString.toLowerCase s.
Proof.
  induction s as [|c s IH]; simpl; [done|]. by rewrite lowerChar_twice, IH.
Qed.

Lemma toLowerCase_keeps_hex (s : string) :
  PeerWeb.allHex (JsString.toLowerCase s) = PeerWeb.allHex s.
Proof.
  induction s as [|c s IH]; simpl; [done|]. by rewrite lowerChar_keeps_hex, IH.
Qed.

Lemma keepHex_is_hex (s : string) : PeerWeb.allHex (PeerWeb.keepHex s) = true.
Proof.
  induction s as [|c s IH]; simpl; [done|].
  destruct (PeerWeb.isHexChar c) eqn:Hc; [simpl; by rewrite Hc | done].
Qed.

Lemma keepHex_of_hex (s : string) :
  PeerWeb.allHex s = true -> PeerWeb.keepHex s = s.
Proof.
  induction s as [|c s IH]; simpl; [done|].
  intros [Hc Hs]%andb_true_iff. by rewrite Hc, IH.
Qed.

Lemma reverse_keeps_hex (s acc : string) :
  PeerWeb.allHex (JsString.reverse s acc) = PeerWeb.allHex s && PeerWeb.allHex acc.
Proof.
  revert acc. induction s as [|c s IH]; intros acc; simpl; [done|].
  rewrite IH. simpl. by destruct (PeerWeb.isHexChar c), (PeerWeb.allHex s).
Qed.

Lemma reverse_twice (s a b : string) :
  JsString.reverse (JsString.reverse s a) b = JsString.reverse a (s +:+ b).
Proof.
  revert a b. induction s as [|c s IH]; intros a b; simpl; [done|].
  by rewrite IH.
Qed.

Lemma trimStart_of_hex (s : string) :
  PeerWeb.allHex s = true -> JsString.trimStart s = s.
Proof.
  destruct s as [|c s]; simpl; [done|].
  intros [Hc _]%andb_true_iff. by rewrite hex_is_no_white_space.
Qed.

Lemma trim_of_hex (s : string) : PeerWeb.allHex s = true -> JsString.trim s = s.
Proof.
  intros Hs. unfold JsString.trim.
  rewrite (trimStart_of_hex s Hs), trimStart_of_hex.
  - rewrite reverse_twice. simpl. apply append_empty_r.
  - by rewrite reverse_keeps_hex, Hs.
Qed.

Lemma hex_has_no_slash (s : string) :
  PeerWeb.allHex s = true -> JsString.includes s "/" = false.
Proof.
  induction s as [|c s IH]; simpl; [done|].
  intros [Hc Hs]%andb_true_iff. by rewrite (hex_is_no_slash c Hc), IH.
Qed.

Lemma sanitizeHash_is_hex (hash : option string) :
  PeerWeb.allHex (PeerWeb.sanitizeHash hash) = true.
Proof.
  unfold PeerWeb.sanitizeHash. destruct (negb _); [done|].
  by rewrite toLowerCase_keeps_hex, keepHex_is_hex.
Qed.

End Identifiers.

(** X17.  [sanitizeHash] leaves only hexadecimal digits, all in lower case,
    and sanitizing a second time changes nothing.  A sanitized hash is
    valid for [isValidTorrentHash] exactly when it has 40 characters, that
    is when the input has exactly 40 hexadecimal digits among its
    characters. *)
Theorem sanitized_hash_is_canonical (input : string) :
  let hash := PeerWeb.sanitizeHash (Some input) in
  PeerWeb.allHex hash = true /\
  JsString.toLowerCase hash = hash /\
  PeerWeb.sanitizeHash (Some hash) = hash /\
  String.length hash = String.length (PeerWeb.keepHex input) /\
  (PeerWeb.isValidTorrentHash (Some hash) = true <->
   String.length (PeerWeb.keepHex input) = 40%nat).
Proof.
  intros hash.
  assert (Hhash : hash = JsString.toLowerCase (PeerWeb.keepHex input)).
  { subst hash. unfold PeerWeb.sanitizeHash. by destruct input. }
  assert (Hhex : PeerWeb.allHex hash = true) by apply sanitizeHash_is_hex.
  assert (Hlower : JsString.toLowerCase hash = hash)
    by (rewrite Hhash; apply toLowerCase_twice).
  assert (Hlen : String.length hash = String.length (PeerWeb.keepHex input))
    by (rewrite Hhash; apply toLowerCase_length).
  split; [done|]. split; [done|]. split; [|split; [done|]].
  - unfold PeerWeb.sanitizeHash at 1.
    destruct hash as [|c hash'] eqn:E; [done|]. cbn [JsString.truthy negb JsString.ToString].
    by rewrite (keepHex_of_hex _ Hhex).
  - rewrite <- Hlen. unfold PeerWeb.isValidTorrentHash.
    destruct hash as [|c hash'] eqn:E; [done|].
    cbn [JsString.truthy negb JsString.ToString].
    rewrite (trim_of_hex _ Hhex), Hhex. cbn [JsString.truthy andb negb].
    destruct (Nat.eqb_spec (String.length (String c hash')) 40); cbn [negb];
      split; (done || lia).
Qed.

(** ** Media by name and media by content type *)

Section Extensions.

Lemma split_app (sep : ascii) (p e : string) :
  JsString.split sep (p +:+ String sep e) =
    (JsString.split sep p ++ JsString.split sep e)%list.
Proof.
  induction p as [|c p IH]; simpl.
  - by rewrite Ascii.eqb_refl.
  - destruct (Ascii.eqb c sep); rewrite IH; [reflexivity|].
    pose proof (split_is_not_empty sep p).
    by destruct (JsString.split sep p).
Qed.

(** The extension that [getContentType] reads off a name that ends with a
    dot and a run of characters without a dot *)
Lemma extension_of (lower p e : string) :
  lower = p +:+ String "." e ->
  JsString.includes e "." = false ->
  JsString.pop (JsString.split "." lower) = Some e.
Proof.
  intros -> He. unfold JsString.pop.
  by rewrite split_app, last_app, (split_without_separator "." e He).
Qed.

End Extensions.

(** X18.  The two media tests agree on the files of a site: a file that the
    page classifies as media by its name has, by [getContentType], a
    content type that the worker classifies as media, so that its bytes are
    kept in the media cache when there are more than 100 KB of them. *)
Theorem media_by_name_is_media_by_type (filename : string) :
  PeerWeb.isMediaFile filename = true ->
  exists contentType,
    Page.getContentType filename = Some contentType /\
    SW.isMediaFile (Some contentType) = true.
Proof.
  unfold PeerWeb.isMediaFile. intros (ext & Hin & Hends)%existsb_exists.
  apply endsWith_spec in Hends as [p Hp].
  unfold Page.getContentType.
  simpl in Hin.
  repeat (destruct Hin as [<-|Hin];
          [rewrite (extension_of _ p _ Hp eq_refl); eexists; split; reflexivity|]).
  done.
Qed.

Lemma media_by_name_is_media_by_type_witness :
  PeerWeb.isMediaFile "clips/Trailer.MP4" = true /\
  Page.getContentType "clips/Trailer.MP4" = Some "video/mp4" /\
  exists contentType,
    Page.getContentType "clips/Trailer.MP4" = Some contentType /\
    SW.isMediaFile (Some contentType) = true.
Proof.
  split; [reflexivity|]. split; [reflexivity|].
  exact (media_by_name_is_media_by_type "clips/Trailer.MP4" eq_refl).
Defined.

(** ** Links *)

Section Links.

Lemma prefixed (u lit : string) :
  JsString.startsWith u lit = true -> exists r, u = lit +:+ r.
Proof. apply startsWith_spec. Qed.

End Links.

(** X19.  The two link classifiers differ on fragment links only: a link is
    internal navigation exactly when it is an internal resource or begins
    with [#]. *)
Theorem navigation_is_resource_or_fragment (href : option string) :
  Page.isInternalNavigation href =
    Page.isInternalResource href || JsString.startsWith (JsString.ToString href) "#".
Proof.
  unfold Page.isInternalNavigation, Page.isInternalResource.
  destruct (JsString.truthy href) eqn:Hhref; cbn [negb];
    [|by destruct href as [[|]|]].
  set (u := JsString.ToString href).
  destruct (JsString.startsWith u "#") eqn:Hfrag; [by rewrite orb_true_r|].
  rewrite orb_false_r.
  destruct (JsString.startsWith u "http://" || JsString.startsWith u "https://");
    [done|].
  destruct (JsString.startsWith u "//") eqn:Hrel.
  { apply prefixed in Hrel as [r ->]. reflexivity. }
  destruct (JsString.startsWith u "mailto:") eqn:Hmail.
  { apply prefixed in Hmail as [r ->]. reflexivity. }
  destruct (JsString.startsWith u "tel:") eqn:Htel.
  { apply prefixed in Htel as [r ->]. reflexivity. }
  destruct (JsString.startsWith u "data:") eqn:Hdata.
  { apply prefixed in Hdata as [r ->]. reflexivity. }
  destruct (JsString.startsWith u "blob:") eqn:Hblob.
  { apply prefixed in Hblob as [r ->]. reflexivity. }
  reflexivity.
Qed.

(** X20.  The links that the page rewrites lead to the site: for a hash of
    hexadecimal digits, a request whose path is the virtual URL made by
    [convertToVirtualUrl] has that hash as its identifier and the non-empty
    parts of the converted path as its file path, so that with this site
    set in the worker it is served from the media cache or sent on to the
    page, and never refused as malformed or as meant for another site. *)
Theorem virtual_url_reaches_the_site
    (st afterWait : SW.State) (req : SW.Request)
    (originalUrl basePath hash : string) :
  PeerWeb.allHex hash = true ->
  JsString.truthy (Some hash) = true ->
  SW.currentSiteHash st = Some hash ->
  SW.url_pathname req = Page.convertToVirtualUrl originalUrl basePath hash ->
  let parts := SW.pathPartsOf (Page.virtualPath originalUrl basePath) in
  SW.pathPartsOf (SW.url_pathname req) = "peerweb-site" :: hash :: parts /\
  match SW.mediaCache st !! SW.request_url req with
  | Some cached =>
      exists range,
        SW.handlePeerWebRequest st afterWait req =
          SW.Respond (SW.createMediaResponse (SW.media_data cached)
                        (SW.media_contentType cached) range)
  | None =>
      SW.handlePeerWebRequest st afterWait req =
        SW.RequestResource (SW.request_url req)
          (SW.normalizeFilePath (SW.currentSiteFiles st) (JsString.join "/" parts)
             (SW.url_search req) (SW.url_hash req))
          None
  end.
Proof.
  intros Hhex Hhash Hcur Hpath parts.
  assert (Hparts : SW.pathPartsOf (SW.url_pathname req) =
                   "peerweb-site" :: hash :: parts).
  { rewrite Hpath. unfold Page.convertToVirtualUrl.
    rewrite pathPartsOf_site_prefix. f_equal.
    unfold SW.pathPartsOf.
    change ("/" +:+ Page.virtualPath originalUrl basePath)
      with (String "/" (Page.virtualPath originalUrl basePath)).
    rewrite (split_at_first "/") by by apply hex_has_no_slash.
    destruct hash as [|c hash]; [done|]. apply pathPartsOf_cons_full. }
  split; [exact Hparts|].
  rewrite (handlePeerWebRequest_ready st afterWait req hash parts)
    by (by rewrite Hcur || done).
  destruct (SW.mediaCache st !! SW.request_url req) as [cached|] eqn:Hc.
  - by apply handleReady_match_hit.
  - by apply handleReady_match_miss.
Qed.

Lemma virtual_url_reaches_the_site_witness :
  let req := {| SW.request_url :=
                  "https://peerweb.example/peerweb-site/abcdef0123456789abcdef0123456789abcdef01/docs/css/site.css";
                SW.url_pathname :=
                  "/peerweb-site/abcdef0123456789abcdef0123456789abcdef01/docs/css/site.css";
                SW.url_search := ""; SW.url_hash := "";
                SW.header_Range := None |} in
  PeerWeb.allHex exampleHash = true /\
  SW.url_pathname req = Page.convertToVirtualUrl "./css/site.css?v=3" "docs/" exampleHash /\
  SW.handlePeerWebRequest exampleReadyState SW.initialState req =
    SW.RequestResource (SW.request_url req) "docs/css/site.css" None.
Proof.
  intros req.
  assert (Hpath : SW.url_pathname req =
                  Page.convertToVirtualUrl "./css/site.css?v=3" "docs/" exampleHash)
    by reflexivity.
  split; [reflexivity|]. split; [exact Hpath|].
  exact (proj2 (virtual_url_reaches_the_site exampleReadyState SW.initialState req
                  "./css/site.css?v=3" "docs/" exampleHash
                  eq_refl eq_refl eq_refl Hpath)).
Defined.

(** ** The cache of loaded sites *)

(** X21.  What [set] has stored under a hash, [get] returns for that hash
    as long as less than seven days have passed since, leaving the store as
    it is.  From seven days on [get] returns [null] and deletes the record,
    so that every later [get] for the hash returns [null] as well, until
    the next [set]. *)
Theorem cached_site_expires_after_seven_days
    {A : Type} (store : gmap string (@PeerWebCache.Entry A))
    (hash : string) (value : A) (stored now later : Z) :
  let store' := PeerWebCache.set store hash value stored in
  (now - stored < 604800000 ->
   PeerWebCache.get store' hash now = (store', Some value)) /\
  (604800000 <= now - stored ->
   PeerWebCache.get store' hash now = (delete hash store', None) /\
   PeerWebCache.get (PeerWebCache.get store' hash now).1 hash later =
     (delete hash store', None)).
Proof.
  intros store'. unfold PeerWebCache.get. subst store'. unfold PeerWebCache.set.
  rewrite lookup_insert_eq. cbn [PeerWebCache.timestamp PeerWebCache.data].
  change PeerWebCache.maxAge with 604800000.
  split; intros Hage.
  - by destruct (Z.ltb_spec (now - stored) 604800000); [|lia].
  - destruct (Z.ltb_spec (now - stored) 604800000); [lia|].
    split; [done|]. cbn [fst]. by rewrite lookup_delete_eq.
Qed.

(** ** Torrent files *)

(** X23.  The piece length chosen for a new torrent is 16, 32, 256 or
    1024 KB, does not go down when the total size goes up, and keeps the
    number of pieces below 8192 for every total size under 1 GB. *)
Theorem piece_length_grows_with_the_size (sizes sizes' : list Z) :
  let total := fold_left Z.add sizes 0 in
  let total' := fold_left Z.add sizes' 0 in
  let piece := Page.calculateOptimalPieceLength sizes in
  In piece [16384; 32768; 262144; 1048576] /\
  (total <= total' -> piece <= Page.calculateOptimalPieceLength sizes') /\
  (0 <= total < 1073741824 -> total / piece < 8192).
Proof.
  intros total total' piece. subst piece. unfold Page.calculateOptimalPieceLength.
  fold total total'.
  change (16 * 1024 * 1024) with 16777216. change (256 * 1024 * 1024) with 268435456.
  change (1024 * 1024 * 1024) with 1073741824.
  change (16 * 1024) with 16384. change (32 * 1024) with 32768.
  change (256 * 1024) with 262144. change (1024 * 1024) with 1048576.
  destruct (Z.ltb_spec total 16777216), (Z.ltb_spec total 268435456),
           (Z.ltb_spec total 1073741824),
           (Z.ltb_spec total' 16777216), (Z.ltb_spec total' 268435456),
           (Z.ltb_spec total' 1073741824);
    (split; [simpl; tauto|]); (split; [lia|]); intros Hrange;
    try lia; apply Z.div_lt_upper_bound; lia.
Qed.

Section ByteSearch.

Lemma matchAt_spec (u pat : list Z) (i : nat) :
  Page.matchAt u pat i = true <->
  forall j, (j < length pat)%nat -> u !! (i + j)%nat = pat !! j.
Proof.
  unfold Page.matchAt. rewrite forallb_forall. split.
  - intros H j Hj.
    assert (Hin : In j (seq 0 (length pat))) by (apply in_seq; lia).
    apply H in Hin. by apply bool_decide_eq_true_1 in Hin.
  - intros H j Hj%in_seq. apply bool_decide_eq_true_2. apply H. lia.
Qed.

Lemma matchAt_here (pre pat post : list Z) :
  Page.matchAt (pre ++ pat ++ post) pat (length pre) = true.
Proof.
  apply matchAt_spec. intros j Hj.
  rewrite lookup_app_r by lia.
  replace (length pre + j - length pre)%nat with j by lia.
  by rewrite lookup_app_l.
Qed.

Lemma matchAt_cut (u pat : list Z) (i : nat) :
  (i + length pat <= length u)%nat ->
  Page.matchAt u pat i = true ->
  u = (take i u ++ pat ++ drop (i + length pat) u)%list.
Proof.
  intros Hfit Hmatch.
  pose proof (proj1 (matchAt_spec u pat i) Hmatch) as Hsame.
  rewrite <- (take_drop i u) at 1. f_equal.
  rewrite <- (take_drop (length pat) (drop i u)) at 1.
  rewrite drop_drop. f_equal.
  apply list_eq. intros j.
  destruct (decide (j < length pat)%nat) as [Hj|Hj].
  - by rewrite lookup_take_lt, lookup_drop, Hsame.
  - rewrite lookup_take_ge by lia. symmetry. apply lookup_ge_None. lia.
Qed.

End ByteSearch.

(** X22.  [findBencodedString] answers [true] exactly when the bytes of the
    bencoded form of the search string, its length, a colon and the string
    itself, stand somewhere in the array one after the other. *)
Theorem bencoded_string_is_found_where_it_stands
    (uint8Array : list Z) (searchString : string) :
  let searchBytes :=
    Page.encodeAscii (JsNumber.toString (Z.of_nat (String.length searchString)) +:+
                      ":" +:+ searchString) in
  Page.findBencodedString uint8Array searchString = true <->
  exists before after, uint8Array = (before ++ searchBytes ++ after)%list.
Proof.
  intros searchBytes. unfold Page.findBencodedString. fold searchBytes.
  destruct (Z.ltb_spec (Z.of_nat (length uint8Array) - Z.of_nat (length searchBytes)) 0)
    as [Hshort|Hfits].
  - split; [done|]. intros (before & after & Hu).
    apply (f_equal length) in Hu. rewrite !List.length_app in Hu. lia.
  - rewrite existsb_exists. split.
    + intros (i & Hi%in_seq & Hmatch).
      exists (take i uint8Array), (drop (i + length searchBytes) uint8Array).
      apply matchAt_cut; [lia | done].
    + intros (before & after & ->). exists (length before). split.
      * apply in_seq. rewrite !List.length_app. lia.
      * apply matchAt_here.
Qed.

(** ** Index files *)

Section IndexNames.

Lemma includes_without_first (s t : string) (c : ascii) :
  JsString.includes s (String c t) = true -> JsString.includes s t = true.
Proof.
  induction s as [|a s IH]; [done|].
  cbn [JsString.includes JsString.startsWith].
  intros [[_ Hhere]%andb_true_iff | Hlater]%orb_true_iff.
  - rewrite (startsWith_includes s t Hhere). apply orb_true_r.
  - rewrite (IH Hlater). apply orb_true_r.
Qed.

Lemma index_name_contains_index_html (name : string) :
  Page.isIndexName name = true ->
  JsString.includes (JsString.toLowerCase name) "index.html" = true.
Proof.
  unfold Page.isIndexName.
  intros [->%String.eqb_eq | Hends%endsWith_includes]%orb_true_iff; [done|].
  by apply includes_without_first in Hends.
Qed.

End IndexNames.

(** X24.  The two tests for an index file nest: every site in which
    [displaySite] finds an index file, [index.html] at the top or in a
    directory, passes the test [hasIndex] with which early processing
    decides to publish, which only asks for a key that contains
    [index.html].  The tests are not the same: a site whose only such key
    is [old-index.html] passes [hasIndex] and has no index file for
    [displaySite]. *)
Theorem index_tests_nest {A : Type} (siteData : list (string * A)) (value : A) :
  (is_Some (Page.indexFileName siteData) -> Page.hasIndex siteData = true) /\
  Page.hasIndex [("old-index.html", value)] = true /\
  Page.indexFileName [("old-index.html", value)] = None.
Proof.
  split; [|by split].
  intros [name Hname]. unfold Page.indexFileName in Hname.
  apply find_is_an_element in Hname as [Hin Hindex].
  unfold Page.hasIndex. apply existsb_exists. exists name.
  split; [done | by apply index_name_contains_index_html].
Qed.

(** X25.  Worker and page agree on paths without an extension.  With the
    keys of the site data announced by SITE_READY, a path without a dot is
    normalized by the worker to [path/index.html] when that is a key, else
    to [path.html] when that is a key, and the page then finds exactly the
    record stored under that key. *)
Theorem extensionless_path_resolves_to_a_known_file
    {A : Type} (siteData : list (string * A)) (st : SW.State)
    (hash : option string) (fileCount : Z) (q search fragment : string) (file : A) :
  let ready :=
    (SW.onMessage st (SW.SITE_READY hash fileCount (Some (PeerWeb.keys siteData)))).1 in
  let normalized := SW.normalizeFilePath (SW.currentSiteFiles ready) q search fragment in
  q <> "" -> JsString.endsWith q "/" = false -> JsString.includes q "." = false ->
  (PeerWeb.getProperty siteData (q +:+ "/index.html") = Some file ->
   normalized = q +:+ "/index.html" /\
   PeerWeb.findFileInSiteData (Some siteData) normalized = Some file) /\
  (PeerWeb.getProperty siteData (q +:+ "/index.html") = None ->
   PeerWeb.getProperty siteData (q +:+ ".html") = Some file ->
   normalized = q +:+ ".html" /\
   PeerWeb.findFileInSiteData (Some siteData) normalized = Some file).
Proof.
  intros ready normalized Hne Hslash Hdot.
  assert (Hknown : forall key,
            key ∈ SW.currentSiteFiles ready <->
            is_Some (PeerWeb.getProperty siteData key)).
  { intros key. subst ready. cbn [SW.onMessage fst SW.currentSiteFiles].
    rewrite elem_of_list_to_set, list_elem_of_In. split.
    - intros [v Hv]%getProperty_of_key. by exists v.
    - intros [v Hv%getProperty_is_stored].
      change key with (fst (key, v)). by apply in_map. }
  assert (Hnorm : normalized =
            if bool_decide (q +:+ "/index.html" ∈ SW.currentSiteFiles ready)
            then q +:+ "/index.html"
            else if bool_decide (q +:+ ".html" ∈ SW.currentSiteFiles ready)
                 then q +:+ ".html" else q +:+ "/index.html").
  { subst normalized. unfold SW.normalizeFilePath.
    destruct (String.eqb_spec q ""); [done|]. by rewrite Hslash, Hdot. }
  assert (Hexact : forall key,
            PeerWeb.getProperty siteData key = Some file ->
            PeerWeb.findFileInSiteData (Some siteData) key = Some file).
  { intros key Hkey. unfold PeerWeb.findFileInSiteData, PeerWeb.exactMatch.
    by rewrite Hkey. }
  split.
  - intros Hdir. rewrite Hnorm, bool_decide_eq_true_2 by (apply Hknown; by exists file).
    split; [done | by apply Hexact].
  - intros Hdir Hhtml. rewrite Hnorm.
    rewrite bool_decide_eq_false_2
      by (rewrite Hknown, Hdir; by intros [? ?]).
    rewrite bool_decide_eq_true_2 by (apply Hknown; by exists file).
    split; [done | by apply Hexact].
Qed.

Lemma extensionless_path_resolves_to_a_known_file_witness :
  let siteData := [("index.html", 1%nat); ("about.html", 2%nat);
                   ("docs/index.html", 3%nat)] in
  "docs" <> "" /\
  PeerWeb.getProperty siteData ("docs" +:+ "/index.html") = Some 3%nat /\
  SW.normalizeFilePath
    (SW.currentSiteFiles
       (SW.onMessage SW.initialState
          (SW.SITE_READY (Some exampleHash) 3 (Some (PeerWeb.keys siteData)))).1)
    "docs" "" "" = "docs/index.html".
Proof.
  intros siteData.
  assert (Hne : "docs" <> "") by discriminate.
  split; [exact Hne|]. split; [reflexivity|].
  exact (proj1 (proj1 (extensionless_path_resolves_to_a_known_file siteData
                         SW.initialState (Some exampleHash) 3 "docs" "" "" 3%nat
                         Hne eq_refl eq_refl) eq_refl)).
Defined.

(** ** Links that go up *)

Section ParentLinks.

Lemma split_join (parts : list string) :
  parts <> [] ->
  Forall (fun part => JsString.includes part "/" = false) parts ->
  JsString.split "/" (JsString.join "/" parts) = parts.
Proof.
  intros Hne Hall. induction Hall as [|part parts Hpart Hall IH]; [done|].
  destruct parts as [|next parts].
  - by apply split_without_separator.
  - change (JsString.join "/" (part :: next :: parts))
      with (part +:+ String "/" (JsString.join "/" (next :: parts))).
    rewrite (split_at_first "/") by done. by rewrite IH.
Qed.

Lemma removelast_keeps {A} (P : A -> Prop) (l : list A) :
  Forall P l -> Forall P (removelast l).
Proof.
  induction 1 as [|x l Hx Hl IH]; [constructor|].
  simpl. destruct l; [constructor | by constructor].
Qed.

Lemma resolveStep_keeps_plain (baseParts : list string) (part : string) :
  JsString.includes part "/" = false ->
  Forall plainPart baseParts -> Forall plainPart (Page.resolveStep baseParts part).
Proof.
  intros Hpart Hbase. unfold Page.resolveStep.
  destruct (String.eqb_spec part ".."); [by apply removelast_keeps|].
  destruct (String.eqb_spec part "."); cbn [negb]; [done|].
  apply Forall_app. split; [done|]. by repeat constructor.
Qed.

Lemma resolve_keeps_plain (relativeParts baseParts : list string) :
  Forall (fun part => JsString.includes part "/" = false) relativeParts ->
  Forall plainPart baseParts ->
  Forall plainPart (fold_left Page.resolveStep relativeParts baseParts).
Proof.
  intros Hrel. revert baseParts.
  induction Hrel as [|part parts Hpart _ IH]; intros baseParts Hbase; [done|].
  apply IH. by apply resolveStep_keeps_plain.
Qed.

End ParentLinks.

(** X26.  A link that goes up stays inside the site: when no part of the
    base path is [..] or [.], the path that [resolveParentPath] returns has
    no part [..] or [.] either, however many levels the relative path goes
    up; going up from the top of the site stays at the top. *)
Theorem parent_link_stays_inside_the_site (basePath relativePath : string) :
  Forall (fun part => part <> ".." /\ part <> ".") (JsString.split "/" basePath) ->
  Forall (fun part => part <> ".." /\ part <> ".")
         (JsString.split "/" (Page.resolveParentPath basePath relativePath)) /\
  Page.resolveParentPath "" ("../" +:+ relativePath) =
    Page.resolveParentPath "" relativePath.
Proof.
  intros Hbase. split; [|reflexivity].
  unfold Page.resolveParentPath.
  set (baseParts := filter _ (JsString.split "/" basePath)).
  assert (Hplain : Forall plainPart baseParts).
  { subst baseParts. apply Forall_forall. intros part Hin.
    apply list_elem_of_filter in Hin as [_ Hin].
    pose proof (split_parts_have_no_separator "/" basePath) as Hfree.
    rewrite Forall_forall in Hfree, Hbase.
    destruct (Hbase _ Hin). split; [by apply Hfree | done]. }
  pose proof (resolve_keeps_plain (JsString.split "/" relativePath) baseParts
                (split_parts_have_no_separator "/" relativePath) Hplain) as Hparts.
  destruct (fold_left Page.resolveStep (JsString.split "/" relativePath) baseParts)
    as [|part parts] eqn:Hfold.
  - by repeat constructor.
  - rewrite split_join; [|done|].
    + eapply Forall_impl; [exact Hparts|]. by intros ? (_ & ? & ?).
    + eapply Forall_impl; [exact Hparts|]. by intros ? (? & _).
Qed.

Lemma parent_link_stays_inside_the_site_witness :
  Forall (fun part => part <> ".." /\ part <> ".") (JsString.split "/" "docs/guide/") /\
  Page.resolveParentPath "docs/guide/" "../../../img/logo.png" = "img/logo.png" /\
  Forall (fun part => part <> ".." /\ part <> ".")
         (JsString.split "/"
            (Page.resolveParentPath "docs/guide/" "../../../img/logo.png")).
Proof.
  assert (Hbase : Forall (fun part => part <> ".." /\ part <> ".")
                         (JsString.split "/" "docs/guide/")).
  { simpl. repeat constructor; discriminate. }
  split; [exact Hbase|]. split; [reflexivity|].
  exact (proj1 (parent_link_stays_inside_the_site "docs/guide/"
                  "../../../img/logo.png" Hbase)).
Defined.

(** ** The order of early processing *)

Section Ordering.

Lemma compareFiles_by_rank (a b : PeerWeb.TorrentFile) :
  PeerWeb.compareFiles a b = Z.sgn (orderRank a - orderRank b).
Proof.
  unfold PeerWeb.compareFiles, orderRank.
  by destruct (PeerWeb.isEssentialForOrder a), (PeerWeb.isEssentialForOrder b),
              (PeerWeb.isMediaFile (PeerWeb.file_name a)),
              (PeerWeb.isMediaFile (PeerWeb.file_name b)).
Qed.

Lemma insertFile_permutation (x : PeerWeb.TorrentFile) (sorted : list PeerWeb.TorrentFile) :
  Permutation (PeerWeb.insertFile x sorted) (x :: sorted).
Proof.
  induction sorted as [|y rest IH]; simpl; [done|].
  destruct (PeerWeb.compareFiles x y <=? 0); [done|].
  rewrite IH. apply perm_swap.
Qed.

Lemma insertFile_sorted (x : PeerWeb.TorrentFile) (sorted : list PeerWeb.TorrentFile) :
  StronglySorted (fun a b => orderRank a <= orderRank b) sorted ->
  StronglySorted (fun a b => orderRank a <= orderRank b) (PeerWeb.insertFile x sorted).
Proof.
  induction 1 as [|y rest Hrest IH Hy]; simpl; [by repeat constructor|].
  rewrite compareFiles_by_rank.
  destruct (Z.leb_spec (Z.sgn (orderRank x - orderRank y)) 0) as [Hle|Hgt].
  - assert (Hxy : orderRank x <= orderRank y) by lia.
    constructor; [by constructor|]. constructor; [done|].
    eapply Forall_impl; [exact Hy|]. intros z Hz. simpl in Hz. lia.
  - constructor; [done|].
    rewrite (insertFile_permutation x rest). constructor; [lia | done].
Qed.

Lemma files_sorted_are_files (files : list PeerWeb.TorrentFile)
    (file : PeerWeb.TorrentFile) :
  In file (PeerWeb.sortFiles files) <-> In file files.
Proof.
  assert (Hperm : Permutation (PeerWeb.sortFiles files) files).
  { unfold PeerWeb.sortFiles. induction files as [|x files IH]; simpl; [done|].
    by rewrite insertFile_permutation, IH. }
  split; apply Permutation_in; [done | by symmetry].
Qed.

End Ordering.

(** X28.  The comparison function by which early processing orders the
    files is a consistent one: it is the sign of the difference of two
    ranks, so that exchanging its arguments changes the sign of the result
    and the order it describes is transitive.  Ordering keeps every file of
    the torrent exactly once and puts the essential files first, then the
    others, with the media files last in each group. *)
Theorem files_are_ordered_by_rank (files : list PeerWeb.TorrentFile)
    (a b c : PeerWeb.TorrentFile) :
  PeerWeb.compareFiles a b = - PeerWeb.compareFiles b a /\
  (PeerWeb.compareFiles a b <= 0 -> PeerWeb.compareFiles b c <= 0 ->
   PeerWeb.compareFiles a c <= 0) /\
  Permutation (PeerWeb.sortFiles files) files /\
  StronglySorted (fun x y => PeerWeb.compareFiles x y <= 0) (PeerWeb.sortFiles files).
Proof.
  split; [|split; [|split]].
  - rewrite !compareFiles_by_rank. lia.
  - rewrite !compareFiles_by_rank. lia.
  - unfold PeerWeb.sortFiles. induction files as [|x files IH]; simpl; [done|].
    by rewrite insertFile_permutation, IH.
  - assert (Hsorted : StronglySorted (fun x y => orderRank x <= orderRank y)
                                     (PeerWeb.sortFiles files)).
    { unfold PeerWeb.sortFiles. induction files as [|x files IH]; simpl;
        [constructor | by apply insertFile_sorted]. }
    induction Hsorted as [|x rest Hrest IH Hx]; constructor; [done|].
    eapply Forall_impl; [exact Hx|].
    intros y Hy. simpl in Hy. rewrite compareFiles_by_rank. lia.
Qed.

(** ** What early processing publishes *)

Section Published.

Variable getFileBufferWithTimeout : PeerWeb.TorrentFile -> bool -> option (list Z).
Variable getContentType : string -> string.
Variable isTextFile : string -> bool.

Lemma setProperty_In {A} (o : list (string * A)) (key : string) (value : A)
    (entry : string * A) :
  In entry (PeerWeb.setProperty o key value) -> entry = (key, value) \/ In entry o.
Proof.
  induction o as [|[k v] rest IH]; simpl.
  - intros [H|[]]. by left.
  - destruct (String.eqb_spec k key) as [->|Hne]; simpl.
    + intros [H|H]; [by left | right; by right].
    + intros [H|H]; [right; by left|]. destruct (IH H); [by left | right; by right].
Qed.

Lemma readAndStore_keeps (files : list PeerWeb.TorrentFile) (pass : PeerWeb.Pass)
    (file : PeerWeb.TorrentFile) :
  In file files ->
  Forall (readFrom getFileBufferWithTimeout getContentType files) (PeerWeb.siteData pass) ->
  Forall (readFrom getFileBufferWithTimeout getContentType files)
    (PeerWeb.siteData
       (PeerWeb.readAndStore getFileBufferWithTimeout getContentType isTextFile
          pass file)).
Proof.
  intros Hin Hpass.
  assert (Hstore : forall retry buffer isMedia,
            getFileBufferWithTimeout file retry = Some buffer ->
            Forall (readFrom getFileBufferWithTimeout getContentType files)
              (PeerWeb.setProperty (PeerWeb.siteData pass) (PeerWeb.file_name file)
                 {| PeerWeb.content := buffer;
                    PeerWeb.type := getContentType (PeerWeb.file_name file);
                    PeerWeb.isText := isTextFile (PeerWeb.file_name file);
                    PeerWeb.isMedia := isMedia;
                    PeerWeb.size := Z.of_nat (length buffer) |})).
  { intros retry buffer isMedia Hread. apply List.Forall_forall.
    intros entry [->|Hold]%setProperty_In.
    - by exists file, retry.
    - by apply (proj1 (List.Forall_forall _ _) Hpass). }
  unfold PeerWeb.readAndStore.
  destruct (getFileBufferWithTimeout file false) as [buffer|] eqn:Hfirst;
    [by apply (Hstore false)|].
  destruct (JsString.includes _ _); [|done].
  destruct (getFileBufferWithTimeout file true) as [buffer|] eqn:Hretry;
    [by apply (Hstore true) | done].
Qed.

Lemma pass_keeps (files sortedFiles : list PeerWeb.TorrentFile) (pass : PeerWeb.Pass) :
  (forall file, In file sortedFiles -> In file files) ->
  Forall (readFrom getFileBufferWithTimeout getContentType files) (PeerWeb.siteData pass) ->
  Forall (readFrom getFileBufferWithTimeout getContentType files)
    (PeerWeb.siteData
       (fold_left
          (PeerWeb.processFile getFileBufferWithTimeout getContentType isTextFile)
          sortedFiles pass)).
Proof.
  revert pass. induction sortedFiles as [|file rest IH]; intros pass Hsub Hpass;
    [done|].
  apply IH; [intros f Hf; apply Hsub; by right|].
  unfold PeerWeb.processFile.
  assert (Hin : In file files) by (apply Hsub; by left).
  destruct (PeerWeb.lt _ _); [destruct (PeerWeb.isMediaFile _)|];
    try done; by apply readAndStore_keeps.
Qed.

End Published.

(** X27.  A site that early processing publishes is made of files of the
    torrent: it holds at least one record and a key that contains
    [index.html], and every record is stored under the name of a file of
    the torrent and holds bytes that a read of such a file has returned,
    with their number as size and the content type of the name. *)
Theorem early_site_is_made_of_torrent_files
    (getFileBufferWithTimeout : PeerWeb.TorrentFile -> bool -> option (list Z))
    (getContentType : string -> string) (isTextFile : string -> bool)
    (torrent : PeerWeb.Torrent) (siteData : list (string * PeerWeb.FileRecord)) :
  PeerWeb.processTorrentEarly getFileBufferWithTimeout getContentType isTextFile torrent =
    PeerWeb.SiteReady siteData ->
  siteData <> [] /\
  Page.hasIndex siteData = true /\
  Forall (readFrom getFileBufferWithTimeout getContentType
            (PeerWeb.torrent_files torrent)) siteData.
Proof.
  unfold PeerWeb.processTorrentEarly.
  set (pass := fold_left _ _ _).
  destruct (PeerWeb.processedFiles pass =? 0); [done|].
  destruct (existsb _ (PeerWeb.keys (PeerWeb.siteData pass))) eqn:Hindex; [|done].
  cbn [negb]. intros [= <-].
  split; [|split].
  - intros Hempty. by rewrite Hempty in Hindex.
  - exact Hindex.
  - subst pass. apply pass_keeps; [|constructor].
    intros file Hin.
    destruct (files_sorted_are_files (PeerWeb.torrent_files torrent) file) as [H _].
    by apply H.
Qed.

Lemma early_site_is_made_of_torrent_files_witness :
  let read := fun (file : PeerWeb.TorrentFile) (_ : bool) =>
                if String.eqb (PeerWeb.file_name file) "index.html"
                then Some [60; 104; 49; 62] else Some [98; 111; 100; 121] in
  let torrent :=
    {| PeerWeb.torrent_progress := 0.96%float;
       PeerWeb.torrent_files :=
         [{| PeerWeb.file_name := "style.css"; PeerWeb.file_length := 4;
             PeerWeb.file_progress := 1%float |};
          {| PeerWeb.file_name := "index.html"; PeerWeb.file_length := 4;
             PeerWeb.file_progress := 1%float |}] |} in
  let siteData :=
    [("style.css", {| PeerWeb.content := [98; 111; 100; 121]; PeerWeb.type := "text/plain";
                      PeerWeb.isText := true; PeerWeb.isMedia := false;
                      PeerWeb.size := 4 |});
     ("index.html", {| PeerWeb.content := [60; 104; 49; 62]; PeerWeb.type := "text/plain";
                       PeerWeb.isText := true; PeerWeb.isMedia := false;
                       PeerWeb.size := 4 |})] in
  PeerWeb.processTorrentEarly read (fun _ => "text/plain") (fun _ => true) torrent =
    PeerWeb.SiteReady siteData /\
  Page.hasIndex siteData = true.
Proof.
  intros read torrent siteData.
  assert (Hready :
            PeerWeb.processTorrentEarly read (fun _ => "text/plain") (fun _ => true)
              torrent = PeerWeb.SiteReady siteData) by reflexivity.
  split; [exact Hready|].
  exact (proj1 (proj2 (early_site_is_made_of_torrent_files read (fun _ => "text/plain")
                         (fun _ => true) torrent siteData Hready))).
Defined.
